(** * Songs4Image: the scraping run, its retry controller and its pacing

    A shallow embedding of the orchestration code of the repository:

    - [spotify_scraper.py]    class [SpotifyScraper] (session set-up,
                              [random_delay], [get_high_quality_image_url],
                              [extract_lyrics], [extract_cover_image],
                              [scrape_track], [save_progress],
                              [scrape_all_tracks], [close]) and [main];
    - [production_scraper.py] class [ProductionSpotifyScraper]
                              ([scrape_track_with_retry], [calculate_eta],
                              [adaptive_delay], [production_scrape]) and
                              [main];
    - [fast_scraper.py]       [FastSpotifyScraper.fast_scrape];
    - [lyrics_extractor.py]   [LyricsExtractor.extract_full_lyrics],
                              [LyricsExtractor.add_lyrics_to_csv] and the
                              choice of the input file in [main];
    - [keep_alive.py]         [get_latest_progress_file].

    Python objects are records and instance attributes are fields of the
    scraper state.  Every call that leaves the interpreter (browser, sleep,
    disk) is an event appended to a trace; in the production scraper each of
    them may also be cut short by an exception or by the operator, as the
    world of the run decides, the calls of the [except] clauses and of
    [close] in [main] of [production_scraper.py] among them.  In the fast
    scraper the page decides what the cover is, and it may be [None], on
    which the loop raises.  Python floats are modelled by exact rationals,
    Python strings by strings of bytes.  Logging and the figures that are
    only logged (progress, ETA, pace) are left out: they change nothing the
    program reads back. *)

From Stdlib Require Import ZArith QArith Qround Lia Lqa List Bool Ascii String.
From Stdlib Require Import DecimalString.
From Equations Require Import Equations.
Import ListNotations.

Local Open Scope string_scope.
Local Open Scope Z_scope.

(** ** Python strings *)

Module PyStr.

(** [needle in hay] on Python strings. *)
Fixpoint contains (needle hay : string) : bool :=
  if String.prefix needle hay then true
  else match hay with
       | EmptyString => false
       | String _ rest => contains needle rest
       end.

(** [str(n)] for an integer. *)
Definition of_Z (n : Z) : string := NilZero.string_of_int (Z.to_int n).

(** [s.startswith(p)]. *)
Definition startswith (s p : string) : bool := String.prefix p s.

(** [c.isspace()] on ASCII text: tab to carriage return, the four
    separators, the blank.  The white space Unicode has beyond ASCII is not
    modelled. *)
Definition isspace (c : ascii) : bool :=
  let n := nat_of_ascii c in
  ((9 <=? n) && (n <=? 13) || (28 <=? n) && (n <=? 32))%nat.

(** [s.lstrip()], [s.rstrip()] and [s.strip()]. *)
Fixpoint lstrip (s : string) : string :=
  match s with
  | EmptyString => EmptyString
  | String c rest => if isspace c then lstrip rest else s
  end.

Fixpoint rstrip (s : string) : string :=
  match s with
  | EmptyString => EmptyString
  | String c rest =>
      match rstrip rest with
      | EmptyString => if isspace c then EmptyString else String c EmptyString
      | kept => String c kept
      end
  end.

Definition strip (s : string) : string := lstrip (rstrip s).

(** [s.split()]: the runs of characters between white space; [word] is the
    run being read. *)
Fixpoint split_from (word s : string) : list string :=
  match s with
  | EmptyString =>
      match word with
      | EmptyString => []
      | _ => [word]
      end
  | String c rest =>
      if isspace c then
        match word with
        | EmptyString => split_from EmptyString rest
        | _ => word :: split_from EmptyString rest
        end
      else split_from (word ++ String c EmptyString) rest
  end.

Definition split (s : string) : list string := split_from EmptyString s.

(** [s.split(sep)] for a separator of one character; [piece] is the piece
    being read. *)
Fixpoint split_on_from (sep : ascii) (piece s : string) : list string :=
  match s with
  | EmptyString => [piece]
  | String c rest =>
      if Ascii.eqb c sep then piece :: split_on_from sep EmptyString rest
      else split_on_from sep (piece ++ String c EmptyString) rest
  end.

Definition split_on (sep : ascii) (s : string) : list string :=
  split_on_from sep EmptyString s.

(** [sep.join(parts)]. *)
Definition join (sep : string) (parts : list string) : string :=
  String.concat sep parts.

(** [x in parts] for a list of strings. *)
Definition mem (x : string) (parts : list string) : bool :=
  existsb (String.eqb x) parts.

(** [s.endswith(p)]. *)
Fixpoint endswith (s p : string) : bool :=
  String.eqb s p
  || match s with
     | EmptyString => false
     | String _ rest => endswith rest p
     end.

(** [s.replace(old, new)] for an [old] that is not empty; [skip] counts the
    characters of a match that are still to be passed over. *)
Fixpoint replace_from (old new : string) (skip : nat) (s : string) : string :=
  match s with
  | EmptyString => EmptyString
  | String c rest =>
      match skip with
      | S k => replace_from old new k rest
      | O =>
          if String.prefix old s
          then new ++ replace_from old new (String.length old - 1) rest
          else String c (replace_from old new O rest)
      end
  end.

Definition replace (old new s : string) : string := replace_from old new O s.

(** The value of a decimal digit. *)
Definition digit_of (c : ascii) : option Z :=
  let n := nat_of_ascii c in
  if ((48 <=? n) && (n <=? 57))%nat then Some (Z.of_nat n - 48) else None.

(** The digits of an integer literal, single underscores between them
    allowed; [after_digit] says that the character before was a digit. *)
Fixpoint digits_value (acc : Z) (after_digit : bool) (s : string) : option Z :=
  match s with
  | EmptyString => if after_digit then Some acc else None
  | String c rest =>
      if Ascii.eqb c "_" then
        if after_digit then digits_value acc false rest else None
      else
        match digit_of c with
        | Some d => digits_value (10 * acc + d) true rest
        | None => None
        end
  end.

(** [int(s)] for a string of ASCII text; [None] is a [ValueError]. *)
Definition py_int (s : string) : option Z :=
  match strip s with
  | String "+" digits => digits_value 0 false digits
  | String "-" digits => option_map Z.opp (digits_value 0 false digits)
  | digits => digits_value 0 false digits
  end.

End PyStr.

(** ** Data *)

(** The dictionary built by [scrape_track] and by the exhausted branch of
    [scrape_track_with_retry]. *)
Record result := mkResult {
  track_id : string;
  track_name : string;
  spotify_url : string;
  lyrics : string;
  cover_image_url : string
}.

(** An entry of [failed_tracks]. *)
Record failed_track := mkFailed {
  ft_track_id : string;
  ft_track_name : string;
  ft_error : string
}.

(** A row of [track_ids_and_names.csv]. *)
Record track_row := mkRow {
  row_track_id : string;
  row_track_name : string
}.

(** What can travel up the Python stack: the operator's interruption, which
    is not an [Exception], and everything [except Exception] catches. *)
Inductive exn :=
| KeyboardInterrupt
| PyException (msg : string).

Inductive outcome (A : Type) :=
| Returned (a : A)
| Raised (e : exn).
Arguments Returned {A} a.
Arguments Raised {A} e.

(** One attempt of [self.scrape_track]: the fields it returned, or the
    message of the exception it raised. *)
Inductive extraction :=
| Extracted (r : result)
| Failure (reason : string).

(** Calls that leave the interpreter. *)
Inductive event :=
| EvSetupDriver (session : nat)
| EvExecuteScript
| EvQuit (session : nat)
| EvScrape (tid tname : string)
| EvSleepUniform (lo hi : Q)
| EvSleep (seconds : Q)
| EvReadCsv
| EvSave (filename : string) (rows : list result)
| EvSaveFailed (rows : list failed_track).

(** The scraper object.  [sessions], [calls] and [clock] count the browsers
    started, the calls of [scrape_track] and the calls that left the
    interpreter; [trace] is the history of the latter. *)
Record scraper := mkScraper {
  driver : option nat;
  results : list result;
  failed_tracks : list failed_track;
  sessions : nat;
  calls : nat;
  clock : nat;
  trace : list event
}.

(** The environment of a run: what [scrape_track] answers at its n-th call,
    and which of the calls that leave the interpreter are cut short by an
    exception or by the operator. *)
Record world := mkWorld {
  extractor : nat -> string -> string -> extraction;
  fault : nat -> option exn
}.

(** A run in which nothing but the extractor fails. *)
Definition quiet (ext : nat -> string -> string -> extraction) : world :=
  mkWorld ext (fun _ => None).

(** The same extractor with the faults switched off. *)
Definition calm (w : world) : world := quiet (extractor w).

(** ** A state and exception monad *)

Definition M (A : Type) : Type := scraper -> outcome A * scraper.

Definition ret {A} (a : A) : M A := fun s => (Returned a, s).

Definition raise {A} (e : exn) : M A := fun s => (Raised e, s).

Definition bind {A B} (m : M A) (k : A -> M B) : M B :=
  fun s => match m s with
           | (Returned a, s') => k a s'
           | (Raised e, s') => (Raised e, s')
           end.

(** [try: m except Exception as e: h e]; a [KeyboardInterrupt] passes. *)
Definition try_except {A} (m : M A) (h : string -> M A) : M A :=
  fun s => match m s with
           | (Raised (PyException e), s') => h e s'
           | other => other
           end.

Declare Scope py_scope.
Delimit Scope py_scope with py.
Notation "x <- m ;; k" := (bind m (fun x => k))
  (at level 61, m at next level, right associativity) : py_scope.
Notation "m ;; k" := (bind m (fun _ => k))
  (at level 61, right associativity) : py_scope.
Local Open Scope py_scope.

Definition tick (s : scraper) : scraper :=
  mkScraper (driver s) (results s) (failed_tracks s)
            (sessions s) (calls s) (S (clock s)) (trace s).

Definition log (ev : event) (s : scraper) : scraper :=
  mkScraper (driver s) (results s) (failed_tracks s)
            (sessions s) (calls s) (clock s) (trace s ++ [ev]).

(** A call that leaves the interpreter: it is cut short when the world says
    so, and recorded otherwise. *)
Definition effect (w : world) (ev : event) : M unit :=
  fun s => match fault w (clock s) with
           | Some e => (Raised e, tick s)
           | None => (Returned tt, log ev (tick s))
           end.

(** ** [SpotifyScraper] *)

(** [setup_driver]: [self.driver = webdriver.Chrome(...)], then the script
    that hides the webdriver property is run in the new browser. *)
Definition setup_driver (w : world) : M unit :=
  fun s => match fault w (clock s) with
           | Some e => (Raised e, tick s)
           | None =>
               effect w EvExecuteScript
                 (mkScraper (Some (sessions s)) (results s) (failed_tracks s)
                            (S (sessions s)) (calls s) (S (clock s))
                            (trace s ++ [EvSetupDriver (sessions s)]))
           end.

(** [self.driver.quit()]. *)
Definition driver_quit (w : world) : M unit :=
  fun s => match driver s with
           | Some d => effect w (EvQuit d) s
           | None => (Raised (PyException "'NoneType' object has no attribute 'quit'"), s)
           end.

(** [time.sleep(seconds)]. *)
Definition sleep (w : world) (seconds : Q) : M unit := effect w (EvSleep seconds).

(** [time.sleep(random.uniform(lo, hi))]. *)
Definition sleep_uniform (w : world) (lo hi : Q) : M unit :=
  effect w (EvSleepUniform lo hi).

(** [random.uniform(a, b)] is [a + (b - a) * random()], with [random()] in
    the half-open unit interval. *)
Definition random_uniform (a b u : Q) : Q := (a + (b - a) * u)%Q.

(** [random_delay(min_seconds, max_seconds)]. *)
Definition random_delay (w : world) (min_seconds max_seconds : Q) : M unit :=
  sleep_uniform w min_seconds max_seconds.

(** [self.scrape_track(track_id, track_name)], as the instance answers it. *)
Definition scrape_track (w : world) (tid tname : string) : M result :=
  fun s => match fault w (clock s) with
           | Some e => (Raised e, tick s)
           | None =>
               let s' := mkScraper (driver s) (results s) (failed_tracks s)
                                   (sessions s) (S (calls s)) (S (clock s))
                                   (trace s ++ [EvScrape tid tname]) in
               match extractor w (calls s) tid tname with
               | Extracted r => (Returned r, s')
               | Failure reason => (Raised (PyException reason), s')
               end
           end.

(** What a method that reads the page of a track comes to: the text it
    found, or the exception raised under way. *)
Inductive reading :=
| Found (text : string)
| Threw (e : string).

(** [extract_lyrics(track_id)] and [extract_cover_image(track_id)]: each
    catches every exception of its own and answers with a text. *)
Definition extract_lyrics (p : reading) : string :=
  match p with
  | Found text => text
  | Threw _ => "Error extracting lyrics"
  end.

Definition extract_cover_image (p : reading) : string :=
  match p with
  | Found text => text
  | Threw _ => "Error extracting image"
  end.

(** [SpotifyScraper.scrape_track(track_id, track_name)], the method the
    production scraper inherits: the two texts under the identifiers of the
    track.  No exception of the two methods reaches its own [except]. *)
Definition base_scrape_track (page : nat -> string -> reading * reading)
  : nat -> string -> string -> extraction :=
  fun n tid tname =>
    let '(l, c) := page n tid in
    Extracted (mkResult tid tname ("https://open.spotify.com/track/" ++ tid)
                        (extract_lyrics l) (extract_cover_image c)).

(** [save_progress(filename)]: nothing is written for an empty list. *)
Definition save_progress (w : world) (filename : string) : M unit :=
  fun s => match results s with
           | [] => (Returned tt, s)
           | _ :: _ => effect w (EvSave filename (results s)) s
           end.

(** [close()]. *)
Definition close (w : world) : M unit :=
  fun s => match driver s with
           | Some d => effect w (EvQuit d) s
           | None => (Returned tt, s)
           end.

(** [self.results.append(result)]. *)
Definition results_append (r : result) : M unit :=
  fun s => (Returned tt,
            mkScraper (driver s) (results s ++ [r]) (failed_tracks s)
                      (sessions s) (calls s) (clock s) (trace s)).

(** [self.failed_tracks.append(entry)]. *)
Definition failed_tracks_append (f : failed_track) : M unit :=
  fun s => (Returned tt,
            mkScraper (driver s) (results s) (failed_tracks s ++ [f])
                      (sessions s) (calls s) (clock s) (trace s)).

(** A Python [for] loop whose body threads the loop's local variables. *)
Fixpoint for_each {X A} (body : X -> A -> M A) (xs : list X) (acc : A) : M A :=
  match xs with
  | [] => ret acc
  | x :: rest => acc' <- body x acc ;; for_each body rest acc'
  end.

(** [df.iterrows()] of a frame read by [pd.read_csv]: the rows with their
    positions. *)
Fixpoint iterrows_from {R} (i : Z) (rows : list R) : list (Z * R) :=
  match rows with
  | [] => []
  | r :: rest => (i, r) :: iterrows_from (i + 1) rest
  end.

Definition iterrows {R} (rows : list R) : list (Z * R) := iterrows_from 0 rows.

(** ** [ProductionSpotifyScraper] *)

Definition has_error (r : result) : bool :=
  PyStr.contains "Error" (lyrics r) || PyStr.contains "Error" (cover_image_url r).

Definition exhausted_result (max_retries : Z) (tid tname e : string) : result :=
  mkResult tid tname ("https://open.spotify.com/track/" ++ tid)
           ("Failed after " ++ PyStr.of_Z max_retries ++ " attempts: " ++ e)
           "Failed to extract".

(** [scrape_track_with_retry(track_id, track_name, attempt)].  The method
    calls itself with [attempt + 1], and only under [attempt < max_retries]. *)
Equations? scrape_track_with_retry (w : world) (max_retries : Z)
    (tid tname : string) (attempt : Z) (s : scraper) : outcome result * scraper
    by wf (Z.to_nat (max_retries - attempt)) lt :=
scrape_track_with_retry w max_retries tid tname attempt s :=
  try_except
    (result <- scrape_track w tid tname ;;
     match has_error result, Z_lt_dec attempt max_retries with
     | true, left _ =>
         sleep_uniform w 5 10 ;;
         (fun s' => scrape_track_with_retry w max_retries tid tname (attempt + 1) s')
     | _, _ => ret result
     end)
    (fun e =>
       match Z_lt_dec attempt max_retries with
       | left _ =>
           sleep_uniform w 5 10 ;;
           (fun s' => scrape_track_with_retry w max_retries tid tname (attempt + 1) s')
       | right _ =>
           failed_tracks_append (mkFailed tid tname e) ;;
           ret (exhausted_result max_retries tid tname e)
       end)
    s.
Proof. all: lia. Qed.

(** Python's [a / b] on numbers. *)
Definition py_div (a b : Q) : outcome Q :=
  if Qeq_bool b 0 then Raised (PyException "division by zero")
  else Returned (a / b)%Q.

(** [x // y] and [x % y] on floats, for a positive [y]. *)
Definition py_floordiv (x y : Q) : Z := Qfloor (x / y).
Definition py_mod (x y : Q) : Q := (x - y * inject_Z (py_floordiv x y))%Q.

(** [calculate_eta(completed, total, start_time)]; [elapsed] is what
    [(datetime.now() - start_time).total_seconds()] reads from the clock. *)
Definition calculate_eta (completed total : Z) (elapsed : Q) : outcome string :=
  if completed =? 0 then Returned "Unknown"
  else
    match py_div (inject_Z completed) elapsed with
    | Raised e => Raised e
    | Returned rate =>
        let remaining := total - completed in
        match py_div (inject_Z remaining) rate with
        | Raised e => Raised e
        | Returned eta_seconds =>
            let hours := py_floordiv eta_seconds 3600 in
            let minutes := py_floordiv (py_mod eta_seconds 3600) 60 in
            Returned (PyStr.of_Z hours ++ "h " ++ PyStr.of_Z minutes ++ "m")
        end
    end.

(** What [calculate_eta] makes of the double [eta_seconds] it has computed:
    [int(eta_seconds // 3600)], [int((eta_seconds % 3600) // 60)] and the
    f-string.  The double is taken as the rational it is: below 2^53 the
    quotients and the remainder of these lines are exact. *)
Definition eta_text (eta_seconds : Q) : string :=
  let hours := py_floordiv eta_seconds 3600 in
  let minutes := py_floordiv (py_mod eta_seconds 3600) 60 in
  PyStr.of_Z hours ++ "h " ++ PyStr.of_Z minutes ++ "m".

Definition Qltb (a b : Q) : bool := negb (Qle_bool b a).

(** [adaptive_delay(success_rate, base_delay_min=2, base_delay_max=5)]: the
    range it chooses, then the pause.  The two thresholds decide a double as
    they decide the rational it stands for: 0.8 is the least double at or
    above four fifths, 0.95 the greatest at or below nineteen twentieths. *)
Definition adaptive_range (success_rate base_delay_min base_delay_max : Q) : Q * Q :=
  if Qltb success_rate 0.8 then
    (base_delay_min * 1.5, base_delay_max * 2)%Q
  else if Qltb 0.95 success_rate then
    (base_delay_min * 0.8, base_delay_max * 0.8)%Q
  else
    (base_delay_min, base_delay_max).

Definition adaptive_delay (w : world) (success_rate base_delay_min base_delay_max : Q)
  : M unit :=
  let '(delay_min, delay_max) :=
    adaptive_range success_rate base_delay_min base_delay_max in
  random_delay w delay_min delay_max.

(** [len(self.results)]. *)
Definition len_results : M Z :=
  fun s => (Returned (Z.of_nat (List.length (results s))), s).

Definition when (b : bool) (m : M unit) : M unit := if b then m else ret tt.

(** The browser restart of the loops: quit, pause, start again. *)
Definition restart_browser (w : world) : M unit :=
  driver_quit w ;; sleep w 10 ;; setup_driver w ;; sleep w 5.

(** One turn of the [for index, row in df.iterrows()] loop of
    [production_scrape]; [success_count] is the loop's counter.  The
    progress line, the ETA and the pace check are only logged. *)
Definition production_step (w : world) (max_retries start_index : Z)
    (ir : Z * track_row) (success_count : Z) : M Z :=
  let '(index, row) := ir in
  if index <? start_index then ret success_count
  else
    let tid := row_track_id row in
    let tname := row_track_name row in
    result <- scrape_track_with_retry w max_retries tid tname 1 ;;
    results_append result ;;
    let success_count :=
      if negb (PyStr.contains "Error" (lyrics result))
         && negb (PyStr.contains "Failed" (lyrics result))
      then success_count + 1 else success_count in
    completed <- len_results ;;
    let success_rate :=
      if 0 <? completed then (inject_Z success_count / inject_Z completed)%Q
      else 0%Q in
    adaptive_delay w success_rate 2 5 ;;
    when (completed mod 25 =? 0)
         (save_progress w ("spotify_data_progress_" ++ PyStr.of_Z completed ++ ".csv")) ;;
    when (completed mod 100 =? 0) (sleep_uniform w 60 120) ;;
    when (completed mod 300 =? 0) (restart_browser w) ;;
    ret success_count.

(** [pd.read_csv(csv_file_path)]; [None] is a file that cannot be read. *)
Definition read_csv (w : world) (csv : option (list track_row)) : M (list track_row) :=
  effect w EvReadCsv ;;
  match csv with
  | Some rows => ret rows
  | None => raise (PyException "No such file or directory")
  end.

(** [failed_df.to_csv(".../failed_tracks.csv")] under [if self.failed_tracks]. *)
Definition save_failed_tracks (w : world) : M unit :=
  fun s => match failed_tracks s with
           | [] => (Returned tt, s)
           | _ :: _ => effect w (EvSaveFailed (failed_tracks s)) s
           end.

(** [production_scrape(csv_file_path, start_index)]. *)
Definition production_scrape (w : world) (max_retries : Z)
    (csv : option (list track_row)) (start_index : Z) : M unit :=
  df <- read_csv w csv ;;
  for_each (production_step w max_retries start_index) (iterrows df) 0 ;;
  save_progress w "spotify_data_final.csv" ;;
  save_failed_tracks w.

(** [ProductionSpotifyScraper(max_retries)]: the base constructor starts the
    browser before the lists are set up. *)
Definition fresh : scraper := mkScraper None [] [] 0 0 0 [].

Definition init (w : world) : M unit := fun _ => setup_driver w fresh.

(** [try: m finally: fin]. *)
Definition try_finally {A} (m : M A) (fin : M unit) : M A :=
  fun s => match m s with
           | (r, s') =>
               match fin s' with
               | (Returned _, s'') => (r, s'')
               | (Raised e, s'') => (Raised e, s'')
               end
           end.

(** The body of the [try] of [main()]; [csv] is the file at [CSV_FILE], if
    there is one. *)
Definition main_try (w : world) (csv : option (list track_row)) : M unit :=
  let START_INDEX := 0 in
  match csv with
  | None => ret tt
  | Some _ => production_scrape w 3 csv START_INDEX
  end.

(** The [try] of [main()] with its two [except] clauses.  Each handler calls
    [save_progress], and an exception of that call leaves the statement. *)
Definition main_guarded (w : world) (csv : option (list track_row)) : M unit :=
  fun s =>
    match main_try w csv s with
    | (Raised KeyboardInterrupt, s') =>
        save_progress w "spotify_data_interrupted.csv" s'
    | (Raised (PyException _), s') =>
        save_progress w "spotify_data_error.csv" s'
    | other => other
    end.

(** [main()] of [production_scraper.py]: the scraper is built with
    [max_retries=3] before the [try], and closed in its [finally]. *)
Definition main (w : world) (csv : option (list track_row)) : outcome unit * scraper :=
  (init w ;; try_finally (main_guarded w csv) (close w)) fresh.

(** ** [FastSpotifyScraper] *)

Module Fast.

(** The dictionary built by [extract_basic_info].  The cover is what
    [get_attribute] gave, which is [None] for an attribute the element has
    not. *)
Record result := mkResult {
  track_id : string;
  track_name : string;
  spotify_url : string;
  cover_image : option string;
  lyrics : string;
  processing_time : Q
}.

(** What the browser gives for a track page: the value of the attribute the
    cover is read from, or "Not found", and the time it took; or the
    exception the page load raised. *)
Inductive page :=
| Loaded (cover : option string) (seconds : Q)
| Broken (e : string).

Inductive event :=
| EvSetupDriver (session : nat)
| EvQuit (session : nat)
| EvGet (tid : string)
| EvSleepUniform (lo hi : Q)
| EvSleep (seconds : Q)
| EvSave (filename : string) (rows : list result).

(** The scraper object once its constructor has started the browser. *)
Record scraper := mkScraper {
  driver : nat;
  results : list result;
  failed_tracks : list result;
  sessions : nat;
  calls : nat;
  trace : list event
}.

Definition log (ev : event) (s : scraper) : scraper :=
  mkScraper (driver s) (results s) (failed_tracks s) (sessions s) (calls s)
            (trace s ++ [ev]).

Definition setup_driver (s : scraper) : scraper :=
  mkScraper (sessions s) (results s) (failed_tracks s)
            (S (sessions s)) (calls s) (trace s ++ [EvSetupDriver (sessions s)]).

Definition driver_quit (s : scraper) : scraper := log (EvQuit (driver s)) s.

(** [FastSpotifyScraper()]. *)
Definition init : scraper := mkScraper 0 [] [] 1 0 [EvSetupDriver 0].

(** ["Error" in cover_image]: a [TypeError] on [None]. *)
Definition error_in (cover_image : option string) : outcome bool :=
  match cover_image with
  | Some c => Returned (PyStr.contains "Error" c)
  | None => Raised (PyException "argument of type 'NoneType' is not iterable")
  end.

(** A [for] loop over the rows: the first exception of the body ends it. *)
Fixpoint for_rows (body : Z * track_row -> scraper -> outcome unit * scraper)
    (l : list (Z * track_row)) (s : scraper) : outcome unit * scraper :=
  match l with
  | [] => (Returned tt, s)
  | ir :: rest =>
      match body ir s with
      | (Returned _, s) => for_rows body rest s
      | (Raised e, s) => (Raised e, s)
      end
  end.

Section Run.

Variable browser : nat -> string -> page.

(** [extract_basic_info(track_id, track_name)]: every exception of the page
    load ends in the second dictionary. *)
Definition extract_basic_info (tid tname : string) (s : scraper) : result * scraper :=
  let url := "https://open.spotify.com/track/" ++ tid in
  let visited evs := mkScraper (driver s) (results s) (failed_tracks s) (sessions s)
                               (S (calls s)) (trace s ++ evs) in
  match browser (calls s) tid with
  | Loaded cover seconds =>
      (mkResult tid tname url cover "Skipped for speed" seconds,
       visited [EvGet tid; EvSleep 1])
  | Broken e =>
      (mkResult tid tname url (Some ("Error: " ++ e)) ("Error: " ++ e) 0,
       visited [EvGet tid])
  end.

(** [minimal_delay()]. *)
Definition minimal_delay (s : scraper) : scraper := log (EvSleepUniform 0.5 1.5) s.

(** [save_progress(filename)]. *)
Definition save_progress (filename : string) (s : scraper) : scraper :=
  match results s with
  | [] => s
  | _ :: _ => log (EvSave filename (results s)) s
  end.

(** One turn of the loop of [fast_scrape].  The result is in the list when
    its cover is looked into, so it stays there when that raises. *)
Definition fast_step (start_index : Z) (ir : Z * track_row) (s : scraper)
  : outcome unit * scraper :=
  let '(index, row) := ir in
  if index <? start_index then (Returned tt, s)
  else
    let '(result, s) := extract_basic_info (row_track_id row) (row_track_name row) s in
    let s := mkScraper (driver s) (results s ++ [result]) (failed_tracks s)
                       (sessions s) (calls s) (trace s) in
    match error_in (cover_image result) with
    | Raised e => (Raised e, s)
    | Returned failed =>
        let s := if failed
                 then mkScraper (driver s) (results s) (failed_tracks s ++ [result])
                                (sessions s) (calls s) (trace s)
                 else s in
        let completed := Z.of_nat (List.length (results s)) in
        let s := if completed mod 25 =? 0
                 then save_progress ("spotify_data_fast_" ++ PyStr.of_Z completed ++ ".csv") s
                 else s in
        let s := minimal_delay s in
        (Returned tt,
         if completed mod 500 =? 0
         then setup_driver (log (EvSleep 2) (driver_quit s))
         else s)
    end.

(** [fast_scrape(csv_file_path, start_index)] on the rows of the file.  An
    exception of the loop leaves the method before the final save; the
    closing summary divides by [len(self.results)]. *)
Definition fast_scrape (df : list track_row) (start_index : Z) (s : scraper)
  : outcome unit * scraper :=
  match for_rows (fast_step start_index) (iterrows df) s with
  | (Raised e, s) => (Raised e, s)
  | (Returned _, s) =>
      let s := save_progress "spotify_data_fast_final.csv" s in
      match results s with
      | [] => (Raised (PyException "division by zero"), s)
      | _ :: _ => (Returned tt, s)
      end
  end.

End Run.

Definition is_setup (ev : event) : bool :=
  match ev with EvSetupDriver _ => true | _ => false end.

Definition acquire_count (tr : list event) : nat :=
  List.length (filter is_setup tr).

(** The result carries the identifiers of the row it was made for. *)
Definition made_for (row : track_row) (r : result) : Prop :=
  track_id r = row_track_id row /\ track_name r = row_track_name row.

End Fast.

(** ** [LyricsExtractor] *)

Module Lyrics.

(** A row of the frame: [lyrics] and [lyrics_processing_time] are [None]
    where pandas holds NaN or the column is missing. *)
Record row := mkRow {
  track_id : string;
  track_name : string;
  lyrics : option string;
  lyrics_processing_time : option Q
}.

Inductive event :=
| EvSetupDriver
| EvQuit
| EvExtract (tid tname : string)
| EvSleepUniform (lo hi : Q)
| EvSleep (seconds : Q)
| EvSave (df : list row).

Record state := mkState {
  df : list row;
  total_processed : Z;
  success_count : Z;
  calls : nat;
  trace : list event
}.

(** [df.head(n)]: the first [n] rows, or all but the last [-n]. *)
Definition head (rows : list row) (n : Z) : list row :=
  if 0 <=? n then firstn (Z.to_nat n) rows
  else firstn (Z.to_nat (Z.of_nat (List.length rows) + n)) rows.

(** [df.at[index, column] = value] for a position of the frame. *)
Fixpoint set_at (rows : list row) (index : nat) (f : row -> row) : list row :=
  match rows, index with
  | [], _ => []
  | r :: rest, O => f r :: rest
  | r :: rest, S i => r :: set_at rest i f
  end.

Definition placeholder (s : string) : bool :=
  String.eqb s "Skipped for speed" || String.eqb s "No lyrics available".

(** [pd.notna(row.get('lyrics')) and row['lyrics'] not in [...]]. *)
Definition has_lyrics (r : row) : bool :=
  match lyrics r with
  | Some l => negb (placeholder l)
  | None => false
  end.

Definition log (ev : event) (s : state) : state :=
  mkState (df s) (total_processed s) (success_count s) (calls s) (trace s ++ [ev]).

Section Run.

(** What [extract_full_lyrics] returns at its n-th call, and how long the
    call took. *)
Variable extract_full_lyrics : nat -> string -> string -> string.
Variable elapsed : nat -> Q.

(** One turn of the loop of [add_lyrics_to_csv]. *)
Definition add_lyrics_step (start_index : Z) (s : state) (ir : Z * row) : state :=
  let '(index, r) := ir in
  if index <? start_index then s
  else if has_lyrics r then s
  else
    let text := extract_full_lyrics (calls s) (track_id r) (track_name r) in
    let processing_time := elapsed (calls s) in
    let frame :=
      set_at (df s) (Z.to_nat index)
             (fun old => mkRow (track_id old) (track_name old)
                               (Some text) (Some processing_time)) in
    let total := total_processed s + 1 in
    let success :=
      if negb (PyStr.startswith text "Error")
         && negb (String.eqb text "No lyrics available")
      then success_count s + 1 else success_count s in
    let s := mkState frame total success (S (calls s))
                     (trace s ++ [EvExtract (track_id r) (track_name r)]) in
    let s := if total mod 10 =? 0 then log (EvSave (df s)) s else s in
    let s := log (EvSleepUniform 1 3) s in
    if total mod 100 =? 0
    then log EvSetupDriver (log (EvSleep 5) (log EvQuit s))
    else s.

(** [df = pd.read_csv(input_csv)], cut by [df.head(start_index + max_tracks)]
    under [if max_tracks]. *)
Definition loaded (input : list row) (start_index : Z) (max_tracks : option Z)
  : list row :=
  match max_tracks with
  | Some m => if m =? 0 then input else head input (start_index + m)
  | None => input
  end.

(** [add_lyrics_to_csv(input_csv, output_csv, start_index, max_tracks)] on
    the rows of [input_csv]; the frame returned is the one written last. *)
Definition add_lyrics_to_csv (input : list row) (start_index : Z)
    (max_tracks : option Z) : state :=
  let frame := loaded input start_index max_tracks in
  let s := fold_left (add_lyrics_step start_index) (iterrows frame)
                     (mkState frame 0 0 0 []) in
  log (EvSave (df s)) s.

End Run.

(** The rows the loop extracts lyrics for. *)
Definition needs_lyrics (start_index : Z) (ir : Z * row) : bool :=
  negb (fst ir <? start_index) && negb (has_lyrics (snd ir)).

(** The texts [pd.read_csv] takes for a missing value, the empty cell among
    them. *)
Definition na_values : list string :=
  [EmptyString; "#N/A"; "#N/A N/A"; "#NA"; "-1.#IND"; "-1.#QNAN"; "-NaN"; "-nan";
   "1.#IND"; "1.#QNAN"; "<NA>"; "N/A"; "NA"; "NULL"; "NaN"; "None"; "n/a"; "nan";
   "null"].

Definition is_na (cell : string) : bool := existsb (String.eqb cell) na_values.

(** [df = pd.read_csv(input_csv)] on a file whose lines were written from
    [file] by [to_csv], as far as the column of the lyrics goes: a cell that
    is empty or holds one of the texts above is read as NaN. *)
Definition read_csv (file : list row) : list row :=
  map (fun r => mkRow (track_id r) (track_name r)
                      (match lyrics r with
                       | Some cell => if is_na cell then None else Some cell
                       | None => None
                       end)
                      (lyrics_processing_time r))
      file.

End Lyrics.

(** ** What [SpotifyScraper] reads off a page *)

Module Page.

(** An [img] element: its [src] and [srcset], [None] where [get_attribute]
    gives [None]. *)
Record img := mkImg {
  src : option string;
  srcset : option string
}.

(** What the page gives for the cover images: an exception of the reading,
    or the [img] elements found. *)
Inductive images :=
| ImagesFailed (e : string)
| Images (imgs : list img).

(** What the page gives for the lyrics: the load or the reading raised
    something other than a timeout of the lyrics part, the lyrics part timed
    out (no lyrics container in time), or the texts of the elements found. *)
Inductive lyrics_view :=
| LoadFailed (e : string)
| NoContainer
| Lines (texts : list string).

(** [url.split()[0]]. *)
Definition first_word (url : string) : outcome string :=
  match PyStr.split url with
  | [] => Raised (PyException "list index out of range")
  | word :: _ => Returned word
  end.

Definition marked (url : string) : bool :=
  PyStr.contains "640w" url || PyStr.contains "0000b273" url.

(** The [for url in image_urls] loop of [get_high_quality_image_url]. *)
Fixpoint first_marked (image_urls : list string) : option string :=
  match image_urls with
  | [] => None
  | url :: rest => if marked url then Some url else first_marked rest
  end.

(** [get_high_quality_image_url(image_urls)]. *)
Definition get_high_quality_image_url (image_urls : list string)
  : outcome (option string) :=
  match image_urls with
  | [] => Returned None
  | _ :: _ =>
      match
        match first_marked image_urls with
        | Some url => first_word url
        | None => first_word (List.last image_urls "")
        end
      with
      | Returned word => Returned (Some word)
      | Raised e => Raised e
      end
  end.

(** The [for img in img_elements] loop of [extract_cover_image]. *)
Fixpoint first_cover (imgs : list img) : outcome string :=
  match imgs with
  | [] => Returned "No image available"
  | i :: rest =>
      match src i with
      | Some s =>
          if negb (s =? "")%string && PyStr.contains "scdn.co/image" s then
            match srcset i with
            | Some ss =>
                if (ss =? "")%string then Returned s
                else
                  match get_high_quality_image_url (PyStr.split_on "," ss) with
                  | Raised e => Raised e
                  | Returned (Some high_quality_url) =>
                      if (high_quality_url =? "")%string then Returned s
                      else Returned high_quality_url
                  | Returned None => Returned s
                  end
            | None => Returned s
            end
          else first_cover rest
      | None => first_cover rest
      end
  end.

(** [extract_cover_image(track_id)]: every exception ends in the marked
    text. *)
Definition extract_cover_image (found : images) : string :=
  match found with
  | ImagesFailed _ => "Error extracting image"
  | Images imgs =>
      match first_cover imgs with
      | Returned url => url
      | Raised _ => "Error extracting image"
      end
  end.

(** One turn of the [for element in lyric_elements] loop. *)
Definition add_line (lyrics_lines : list string) (element_text : string)
  : list string :=
  let text := PyStr.strip element_text in
  if negb (text =? "")%string && negb (PyStr.mem text lyrics_lines)
  then (lyrics_lines ++ [text])%list
  else lyrics_lines.

Definition lyrics_lines (texts : list string) : list string :=
  fold_left add_line texts [].

Definition newline : string := String (ascii_of_nat 10) EmptyString.

(** [extract_lyrics(track_id)]. *)
Definition extract_lyrics (v : lyrics_view) : string :=
  match v with
  | LoadFailed _ => "Error extracting lyrics"
  | NoContainer => "No lyrics available"
  | Lines texts => PyStr.join newline (lyrics_lines texts)
  end.

(** [scrape_track(track_id, track_name)] on what the page of the track
    shows; neither method lets an exception reach its [except]. *)
Definition scrape_track (v : lyrics_view) (found : images) (tid tname : string)
  : result :=
  mkResult tid tname ("https://open.spotify.com/track/" ++ tid)
           (extract_lyrics v) (extract_cover_image found).

(** The extractor of a scraper that is shown the page [pages n tid] at its
    n-th call. *)
Definition extractor (pages : nat -> string -> lyrics_view * images)
  : nat -> string -> string -> extraction :=
  fun n tid tname =>
    let '(v, found) := pages n tid in
    Extracted (scrape_track v found tid tname).

End Page.

(** ** What [LyricsExtractor] reads off a page *)

Module LyricsPage.

(** What became of the "Show more" button: not found, not displayed or not
    clicked for an exception; clicked, with the texts of the lines read
    after it; clicked, but reading the lines raised. *)
Inductive expansion :=
| NotExpanded
| Expanded (texts : list string)
| ExpandedFailed (e : string).

Inductive view :=
| LoadFailed (e : string)
| NoLyrics
| Visible (visible_texts : list string) (more : expansion).

Definition labels : list string := ["Lyrics"; "…Show more"; "Show less"].

Definition nonempty (s : string) : bool := negb (s =? "")%string.

(** The lines always visible. *)
Definition visible_lyrics (visible_texts : list string) : list string :=
  filter nonempty (map PyStr.strip visible_texts).

(** The lines [all_lyrics] ends up with. *)
Definition all_lyrics (visible_texts : list string) (more : expansion)
  : list string :=
  match more with
  | NotExpanded => visible_lyrics visible_texts
  | Expanded texts =>
      filter (fun line => nonempty line && negb (PyStr.mem line labels))
             (map PyStr.strip texts)
  | ExpandedFailed _ => visible_lyrics visible_texts
  end.

(** One turn of the loop over [all_lyrics]: the set [seen] and the list
    [unique_lyrics]. *)
Definition keep_unseen (st : list string * list string) (line : string)
  : list string * list string :=
  let '(seen, unique_lyrics) := st in
  if PyStr.mem line seen then st
  else (line :: seen, (unique_lyrics ++ [line])%list).

Definition unique_lyrics (lines : list string) : list string :=
  snd (fold_left keep_unseen lines ([], [])).

(** [extract_full_lyrics(track_id, track_name)]. *)
Definition extract_full_lyrics (v : view) : string :=
  match v with
  | LoadFailed e => "Error: " ++ e
  | NoLyrics => "No lyrics available"
  | Visible visible_texts more =>
      match all_lyrics visible_texts more with
      | [] => "No lyrics found"
      | lines => PyStr.join " | " (unique_lyrics lines)
      end
  end.

End LyricsPage.

(** ** The loop of [SpotifyScraper] *)

Module Base.

(** The dictionary of the [except] branch of [scrape_track]. *)
Definition error_result (tid tname e : string) : result :=
  mkResult tid tname ("https://open.spotify.com/track/" ++ tid)
           ("Error: " ++ e) "Error extracting image".

(** [SpotifyScraper.scrape_track(track_id, track_name)] with its [try]:
    whatever exception the extraction raises ends in the second dictionary. *)
Definition scrape_track (w : world) (tid tname : string) : M result :=
  try_except (scrape_track w tid tname) (fun e => ret (error_result tid tname e)).

(** Python's [a % b] on integers. *)
Definition py_mod_int (a b : Z) : M Z :=
  if b =? 0 then raise (PyException "integer modulo by zero") else ret (a mod b).

(** The browser restart of [scrape_all_tracks]. *)
Definition restart_browser (w : world) : M unit :=
  driver_quit w ;; sleep w 5 ;; setup_driver w.

(** One turn of the [for index, row in df.iterrows()] loop of
    [scrape_all_tracks]; [batch_count] is the loop's counter.  The progress
    line is only logged. *)
Definition scrape_all_step (w : world) (start_index batch_size : Z)
    (ir : Z * track_row) (batch_count : Z) : M Z :=
  let '(index, row) := ir in
  if index <? start_index then ret batch_count
  else
    result <- scrape_track w (row_track_id row) (row_track_name row) ;;
    results_append result ;;
    random_delay w 2 5 ;;
    completed <- len_results ;;
    remainder <- py_mod_int completed batch_size ;;
    if remainder =? 0 then
      save_progress w "spotify_data_progress.csv" ;;
      let batch_count := batch_count + 1 in
      when (batch_count mod 5 =? 0) (sleep_uniform w 30 60) ;;
      when (completed mod 200 =? 0) (restart_browser w) ;;
      ret batch_count
    else ret batch_count.

(** [scrape_all_tracks(csv_file_path, start_index, batch_size)]. *)
Definition scrape_all_tracks (w : world) (csv : option (list track_row))
    (start_index batch_size : Z) : M unit :=
  df <- read_csv w csv ;;
  for_each (scrape_all_step w start_index batch_size) (iterrows df) 0 ;;
  save_progress w "spotify_data_final.csv".

(** The [try] of [main()] of [spotify_scraper.py] with its two [except]
    clauses; the handlers run to their end. *)
Definition main_guarded (w : world) (csv : option (list track_row)) : M unit :=
  let start_index := 0 in
  fun s =>
    match scrape_all_tracks w csv start_index 50 s with
    | (Raised KeyboardInterrupt, s') =>
        save_progress (calm w) "spotify_data_interrupted.csv" s'
    | (Raised (PyException _), s') =>
        save_progress (calm w) "spotify_data_error.csv" s'
    | other => other
    end.

(** [main()] of [spotify_scraper.py]: the scraper is built before the [try]
    and closed in its [finally]. *)
Definition main (w : world) (csv : option (list track_row)) : outcome unit * scraper :=
  (init w ;; try_finally (main_guarded w csv) (close (calm w))) fresh.

End Base.

(** ** The files [main] of [lyrics_extractor.py] goes by *)

Module LyricsMain.

(** The key of [max]: [int(x.split('_')[-1].replace('.csv', ''))]. *)
Definition file_number (x : string) : outcome Z :=
  match PyStr.py_int (PyStr.replace ".csv" "" (List.last (PyStr.split_on "_" x) "")) with
  | Some n => Returned n
  | None => Raised (PyException "invalid literal for int() with base 10")
  end.

(** [max(files, key=...)] from the second file on: the key of every file is
    taken, and a file wins over the best so far with a greater key only. *)
Fixpoint max_from (best : string) (best_key : Z) (files : list string)
  : outcome string :=
  match files with
  | [] => Returned best
  | x :: rest =>
      match file_number x with
      | Raised e => Raised e
      | Returned key =>
          if best_key <? key then max_from x key rest
          else max_from best best_key rest
      end
  end.

(** [latest_file], or [None] where [main] returns for want of files. *)
Definition latest_file (fast_files : list string) : outcome (option string) :=
  match fast_files with
  | [] => Returned None
  | x :: rest =>
      match file_number x with
      | Raised e => Raised e
      | Returned key =>
          match max_from x key rest with
          | Raised e => Raised e
          | Returned best => Returned (Some best)
          end
      end
  end.

(** [output_file]. *)
Definition output_file (latest_file : string) : string :=
  PyStr.replace ".csv" "_with_lyrics.csv" latest_file.

End LyricsMain.

(** ** The progress [keep_alive.py] reports *)

Module KeepAlive.

(** [int(f.replace(prefix, '').replace('.csv', ''))]; [None] where [int]
    raises, which the loop passes over. *)
Definition number_of (prefix f : string) : option Z :=
  PyStr.py_int (PyStr.replace ".csv" "" (PyStr.replace prefix "" f)).

(** The list [numbers] built from a listing of the directory. *)
Definition numbers (prefix : string) (listing : list string) : list (Z * string) :=
  flat_map (fun f => match number_of prefix f with
                     | Some num => [(num, f)]
                     | None => []
                     end)
           (filter (fun f => PyStr.startswith f prefix && PyStr.endswith f ".csv")
                   listing).

(** The order of the tuples [(num, f)]. *)
Definition tuple_ltb (a b : Z * string) : bool :=
  (fst a <? fst b) || ((fst a =? fst b) && String.ltb (snd a) (snd b)).

(** [numbers.sort(reverse=True)]. *)
Fixpoint insert_desc (x : Z * string) (sorted : list (Z * string))
  : list (Z * string) :=
  match sorted with
  | [] => [x]
  | y :: rest => if tuple_ltb x y then y :: insert_desc x rest else x :: sorted
  end.

Definition sort_desc (l : list (Z * string)) : list (Z * string) :=
  fold_right insert_desc [] l.

(** [get_latest_progress_file()] on what the two calls of [os.listdir]
    give; [None] stands for the pair [(None, None)]. *)
Definition get_latest_progress_file (listing listing_again : list string)
  : option (Z * string) :=
  match sort_desc (numbers "spotify_data_fast_" listing) with
  | latest :: _ => Some latest
  | [] =>
      match sort_desc (numbers "spotify_data_progress_" listing_again) with
      | latest :: _ => Some latest
      | [] => None
      end
  end.

End KeepAlive.

(** ** Vocabulary of the statements *)

Local Open Scope list_scope.

(** The state right after one call of [scrape_track]. *)
Definition after_scrape (tid tname : string) (s : scraper) : scraper :=
  mkScraper (driver s) (results s) (failed_tracks s) (sessions s)
            (S (calls s)) (S (clock s)) (trace s ++ [EvScrape tid tname]).

(** The state right after the pause that precedes a retry. *)
Definition after_backoff (s : scraper) : scraper :=
  log (EvSleepUniform 5 10) (tick s).

(** The outcomes after which the controller tries again while attempts are
    left: an exception, or fields carrying the marker. *)
Definition retryable (o : extraction) : bool :=
  match o with
  | Failure _ => true
  | Extracted r => has_error r
  end.

(** The number of calls of [scrape_track] between two states. *)
Definition attempts (s s' : scraper) : nat := (calls s' - calls s)%nat.

Definition is_setup (ev : event) : bool :=
  match ev with EvSetupDriver _ => true | _ => false end.

Definition is_session (ev : event) : bool :=
  match ev with EvSetupDriver _ | EvQuit _ => true | _ => false end.

(** How often a browser was started. *)
Definition acquire_count (tr : list event) : nat :=
  List.length (filter is_setup tr).

(** The browsers started and not yet quit. *)
Fixpoint live_after (alive : list nat) (tr : list event) : list nat :=
  match tr with
  | [] => alive
  | EvSetupDriver n :: rest => live_after (alive ++ [n]) rest
  | EvQuit n :: rest => live_after (remove Nat.eq_dec n alive) rest
  | _ :: rest => live_after alive rest
  end.

Definition live (tr : list event) : list nat := live_after [] tr.

(** The rows of the results file written last. *)
Fixpoint last_saved_from (seen : option (list result)) (tr : list event)
  : option (list result) :=
  match tr with
  | [] => seen
  | EvSave _ rows :: rest => last_saved_from (Some rows) rest
  | _ :: rest => last_saved_from seen rest
  end.

Definition last_saved (tr : list event) : option (list result) :=
  last_saved_from None tr.

(** What a step that neither touches the browser nor the results leaves
    alone. *)
Definition frame (s s' : scraper) : Prop :=
  driver s' = driver s
  /\ results s' = results s
  /\ sessions s' = sessions s
  /\ (exists fs, failed_tracks s' = failed_tracks s ++ fs)
  /\ (exists evs, trace s' = trace s ++ evs
                  /\ Forall (fun ev => is_session ev = false) evs).

Definition preserves {A} (m : M A) : Prop := forall s, frame s (snd (m s)).

(** What a step that does not touch the browser leaves alone. *)
Definition session_frame (s s' : scraper) : Prop :=
  driver s' = driver s
  /\ (exists evs, trace s' = trace s ++ evs
                  /\ Forall (fun ev => is_session ev = false) evs).

Definition calmly {A} (m : M A) : Prop := forall s, session_frame s (snd (m s)).

Definition keeps {A} (I : scraper -> Prop) (m : M A) : Prop :=
  forall s, I s -> I (snd (m s)).

(** The scraper holds a browser, and no other browser is alive. *)
Definition one_session (s : scraper) : Prop :=
  (exists d, driver s = Some d)
  /\ (forall d, In d (live (trace s)) -> driver s = Some d).

(** The scraper holds a browser that has been quit, and none is alive. *)
Definition released (s : scraper) : Prop :=
  (exists d, driver s = Some d) /\ live (trace s) = [].

(** The traces in which a browser is only ever started first thing, or right
    after the current one was quit and ten seconds have passed. *)
Inductive disciplined : list event -> nat -> Prop :=
| disc_first n : disciplined [EvSetupDriver n] n
| disc_other tr d ev :
    disciplined tr d -> is_setup ev = false -> disciplined (tr ++ [ev]) d
| disc_recycle tr d n :
    disciplined tr d ->
    disciplined (tr ++ [EvQuit d; EvSleep 10; EvSetupDriver n]) n.

(** The result of one controller call answers the given row: it is what the
    extractor returned for it at some call, or the record of exhaustion. *)
Definition answers (ext : nat -> string -> string -> extraction) (max_retries : Z)
    (row : track_row) (r : result) : Prop :=
  (exists n, ext n (row_track_id row) (row_track_name row) = Extracted r)
  \/ (exists e, r = exhausted_result max_retries (row_track_id row) (row_track_name row) e).

(** The same, with the call at which the extractor raised the exception
    the record of exhaustion carries. *)
Definition answered (ext : nat -> string -> string -> extraction) (max_retries : Z)
    (row : track_row) (r : result) : Prop :=
  (exists n, ext n (row_track_id row) (row_track_name row) = Extracted r)
  \/ (exists n e,
        ext n (row_track_id row) (row_track_name row) = Failure e
        /\ r = exhausted_result max_retries (row_track_id row) (row_track_name row) e).

(** The tracks [scrape_track] was called for, in the order of the calls. *)
Fixpoint visits (tr : list event) : list (string * string) :=
  match tr with
  | [] => []
  | EvScrape tid tname :: rest => (tid, tname) :: visits rest
  | _ :: rest => visits rest
  end.

(** The calls are made for the given rows and no others, row after row in
    the order of the list: for every row one call at least, and [most] at
    most. *)
Inductive visited_in_order (most : Z) : list track_row -> list (string * string) -> Prop :=
| visited_none : visited_in_order most [] []
| visited_next row rows k vs :
    (1 <= k)%nat ->
    Z.of_nat k <= most ->
    visited_in_order most rows vs ->
    visited_in_order most (row :: rows)
      (repeat (row_track_id row, row_track_name row) k ++ vs).

(** The windows of the pauses over a range, in the order they were taken. *)
Fixpoint windows (tr : list event) : list (Q * Q) :=
  match tr with
  | [] => []
  | EvSleepUniform lo hi :: rest => (lo, hi) :: windows rest
  | _ :: rest => windows rest
  end.

(** A window that is larger than another in any sense: a later start, a
    later end or a greater width. *)
Definition window_grows (w1 w2 : Q * Q) : Prop :=
  (fst w1 < fst w2 \/ snd w1 < snd w2 \/ snd w1 - fst w1 < snd w2 - fst w2)%Q.

Fixpoint strictly_growing (ws : list (Q * Q)) : Prop :=
  match ws with
  | w1 :: ((w2 :: _) as rest) => window_grows w1 w2 /\ strictly_growing rest
  | _ => True
  end.

Definition is_failed_save (ev : event) : bool :=
  match ev with EvSaveFailed _ => true | _ => false end.

(** [ceil(n / k)] for a positive [k]. *)
Definition ceil_div (n k : Z) : Z := (n + k - 1) / k.

(** Extractors to run the scraper on: one that raises at every call, one
    that returns the fields the base [scrape_track] builds when the page
    cannot be read, and one that finds what it looks for. *)
Definition always_raises : nat -> string -> string -> extraction :=
  fun _ _ _ => Failure "timeout".

Definition always_marked : nat -> string -> string -> extraction :=
  fun _ tid tname =>
    Extracted (mkResult tid tname ("https://open.spotify.com/track/" ++ tid)
                        "Error extracting lyrics" "No image available").

Definition always_fine : nat -> string -> string -> extraction :=
  fun _ tid tname =>
    Extracted (mkResult tid tname ("https://open.spotify.com/track/" ++ tid)
                        "la la la" "https://i.scdn.co/image/ab67616d0000b273").

(** The scraper of [main] once the file has been read. *)
Definition at_loop_start : scraper :=
  log EvReadCsv
      (tick (mkScraper (Some 0%nat) [] [] 1 0 2 [EvSetupDriver 0; EvExecuteScript])).

(** A property of every character of a string. *)
Fixpoint all_chars (p : ascii -> bool) (s : string) : bool :=
  match s with
  | EmptyString => true
  | String c rest => p c && all_chars p rest
  end.

(** Strings of white space only, and strings without any. *)
Definition blank (s : string) : bool := all_chars PyStr.isspace s.

Definition spaceless (s : string) : bool :=
  all_chars (fun c => negb (PyStr.isspace c)) s.

(** [w] is the first run of [s] that holds no white space. *)
Definition first_token (s w : string) : Prop :=
  w <> EmptyString
  /\ spaceless w = true
  /\ exists pre post,
       s = (pre ++ w ++ post)%string
       /\ blank pre = true
       /\ match post with
          | EmptyString => True
          | String c _ => PyStr.isspace c = true
          end.

(** The url [get_high_quality_image_url] goes by: the first one that carries
    a mark of the large size, the last one where none does. *)
Definition picked (urls : list string) (url : string) : Prop :=
  (exists before after,
      urls = before ++ url :: after
      /\ Page.marked url = true
      /\ Forall (fun v => Page.marked v = false) before)
  \/ (urls <> []
      /\ Forall (fun v => Page.marked v = false) urls
      /\ url = last urls EmptyString).

(** The [src] under which [extract_cover_image] takes an image for a cover. *)
Definition cover_src (i : Page.img) : bool :=
  match Page.src i with
  | Some s => negb (s =? "")%string && PyStr.contains "scdn.co/image" s
  | None => false
  end.
(** The distinct entries of a list, in the order of their first occurrence. *)
Fixpoint first_occurrences (l : list string) : list string :=
  match l with
  | [] => []
  | x :: rest =>
      x :: filter (fun y => negb (y =? x)%string) (first_occurrences rest)
  end.

(** The texts a lyrics line can be taken from: stripped, and not empty. *)
Definition line_of (texts : list string) (x : string) : Prop :=
  x <> EmptyString /\ exists t, In t texts /\ PyStr.strip t = x.

(** How often the frame was written, and how often the browser was started
    again, in a run of [add_lyrics_to_csv]. *)
Definition lyrics_save_count (tr : list Lyrics.event) : nat :=
  List.length (filter (fun ev => match ev with Lyrics.EvSave _ => true | _ => false end) tr).

Definition lyrics_restart_count (tr : list Lyrics.event) : nat :=
  List.length (filter (fun ev => match ev with Lyrics.EvSetupDriver => true | _ => false end) tr).

(** The row [add_lyrics_to_csv] writes in the place of [r] after the call
    number [n] of the extractor. *)
Definition with_lyrics (extract_full_lyrics : nat -> string -> string -> string)
    (elapsed : nat -> Q) (n : nat) (r : Lyrics.row) : Lyrics.row :=
  Lyrics.mkRow (Lyrics.track_id r) (Lyrics.track_name r)
               (Some (extract_full_lyrics n (Lyrics.track_id r) (Lyrics.track_name r)))
               (Some (elapsed n)).

(** The books of the loop: the counters, the saves and the restarts go by
    the number of extractions. *)
Definition lyrics_books (s : Lyrics.state) : Prop :=
  Lyrics.total_processed s = Z.of_nat (Lyrics.calls s)
  /\ 0 <= Lyrics.success_count s <= Lyrics.total_processed s
  /\ lyrics_save_count (Lyrics.trace s) = (Lyrics.calls s / 10)%nat
  /\ lyrics_restart_count (Lyrics.trace s) = (Lyrics.calls s / 100)%nat.

(** The results [fast_scrape] takes for failures. *)
Definition fast_error (r : Fast.result) : bool :=
  match Fast.cover_image r with
  | Some c => PyStr.contains "Error" c
  | None => false
  end.

(** The two lists of the fast scraper agree: the failures are the results
    with the marker in the cover, and a result without the placeholder for
    its lyrics is among them. *)
Definition fast_lists_agree (s : Fast.scraper) : Prop :=
  Fast.failed_tracks s = filter fast_error (Fast.results s)
  /\ Forall (fun r => Fast.lyrics r = "Skipped for speed"%string \/ fast_error r = true)
            (Fast.results s).

(** The results whose cover is a string: those the loop of [fast_scrape]
    gets past. *)
Definition has_cover (r : Fast.result) : bool :=
  match Fast.cover_image r with Some _ => true | None => false end.

(** The pages [fast_scrape] asked the browser for, in order. *)
Fixpoint fast_gets (tr : list Fast.event) : list string :=
  match tr with
  | [] => []
  | Fast.EvGet tid :: rest => tid :: fast_gets rest
  | _ :: rest => fast_gets rest
  end.

(** The traces of the fast scraper in which a browser is only ever started
    first thing, or right after the current one was quit and two seconds
    have passed. *)
Inductive fast_disciplined : list Fast.event -> nat -> Prop :=
| fast_disc_first n : fast_disciplined [Fast.EvSetupDriver n] n
| fast_disc_other tr d ev :
    fast_disciplined tr d -> Fast.is_setup ev = false -> fast_disciplined (tr ++ [ev]) d
| fast_disc_recycle tr d n :
    fast_disciplined tr d ->
    fast_disciplined (tr ++ [Fast.EvQuit d; Fast.EvSleep 2; Fast.EvSetupDriver n]) n.

(** The final file of [fast_scrape] was written. *)
Definition fast_final_saved (tr : list Fast.event) : Prop :=
  exists rows, In (Fast.EvSave "spotify_data_fast_final.csv" rows) tr.

(** The state in which the [TypeError] of a cover that is [None] leaves the
    fast scraper: the result is the last of the list and not among the
    failures, every result before it has a cover, and the final file has
    not been written. *)
Definition fast_crashed (s : Fast.scraper) : Prop :=
  exists front r,
    Fast.results s = front ++ [r]
    /\ Fast.cover_image r = None
    /\ forallb has_cover front = true
    /\ ~ fast_final_saved (Fast.trace s).

(** The books of the loop of [fast_scrape] between two turns: the browser
    was only ever started by the rule above, once at first and once more at
    every 500th result, every result has a cover, and the final file has
    not been written. *)
Definition fast_books (s : Fast.scraper) : Prop :=
  fast_disciplined (Fast.trace s) (Fast.driver s)
  /\ Fast.acquire_count (Fast.trace s) = (List.length (Fast.results s) / 500 + 1)%nat
  /\ forallb has_cover (Fast.results s) = true
  /\ ~ fast_final_saved (Fast.trace s).

Definition is_save (ev : event) : bool :=
  match ev with EvSave _ _ => true | _ => false end.

(** The results files written, in the order of writing. *)
Fixpoint saved_files (tr : list event) : list (string * list result) :=
  match tr with
  | [] => []
  | EvSave filename rows :: rest => (filename, rows) :: saved_files rest
  | _ :: rest => saved_files rest
  end.

(** Every results file written so far holds results, and those the scraper
    had at some point: a front part of the list as it is now. *)
Definition checkpoints_sound (s : scraper) : Prop :=
  forall filename rows,
    In (EvSave filename rows) (trace s) ->
    rows <> [] /\ exists rest, results s = rows ++ rest.

(** The checkpoint files that are due while the results number [a + 1] to
    [a + n] come in: one at every 25th, named by the count and holding the
    results so far. *)
Definition checkpoints (a : nat) (rs : list result) (n : nat)
  : list (string * list result) :=
  flat_map (fun k => if (Z.of_nat k mod 25 =? 0)%Z
                     then [(("spotify_data_progress_" ++ PyStr.of_Z (Z.of_nat k) ++ ".csv")%string,
                            firstn k rs)]
                     else [])
           (seq (S a) n).

(** The results [production_scrape] counts as successes. *)
Definition clean_lyrics (r : result) : bool :=
  negb (PyStr.contains "Error" (lyrics r)) && negb (PyStr.contains "Failed" (lyrics r)).

(** The books of the loop of [production_scrape], from a scraper that had
    the results [initial], had written the files [before] and counted
    [base] successes: the scraper holds a browser, the files written since
    are the checkpoints due, and the counter has grown by the successes
    among the new results. *)
Definition production_books (before : list (string * list result))
    (initial : list result) (base : Z) (success_count : Z) (s : scraper) : Prop :=
  (exists d, driver s = Some d)
  /\ exists news,
       results s = initial ++ news
       /\ saved_files (trace s)
          = before ++ checkpoints (List.length initial) (results s) (List.length news)
       /\ success_count = base + Z.of_nat (List.length (filter clean_lyrics news)).

(** The result is what [scrape_track] reads off one of the pages shown for
    the track of the row. *)
Definition read_from (pages : nat -> string -> Page.lyrics_view * Page.images)
    (row : track_row) (r : result) : Prop :=
  exists n,
    r = Page.scrape_track (fst (pages n (row_track_id row)))
                          (snd (pages n (row_track_id row)))
                          (row_track_id row) (row_track_name row).

(** How many of the counts 1 to [n] have the property [p]. *)
Definition count_upto (p : nat -> bool) (n : nat) : nat :=
  List.length (filter p (seq 1 n)).

(** The result of one call of the base [scrape_track] for the row: what the
    extractor returned at some call, or the dictionary of its error. *)
Definition base_answers (ext : nat -> string -> string -> extraction)
    (row : track_row) (r : result) : Prop :=
  exists n,
    match ext n (row_track_id row) (row_track_name row) with
    | Extracted r' => r = r'
    | Failure e => r = Base.error_result (row_track_id row) (row_track_name row) e
    end.

(** The count ends a batch of [scrape_all_tracks]; the batch is one after
    which the browser is started again. *)
Definition ends_batch (batch_size : Z) (k : nat) : bool :=
  (Z.of_nat k mod batch_size =? 0)%Z.

Definition ends_session (batch_size : Z) (k : nat) : bool :=
  ends_batch batch_size k && (Z.of_nat k mod 200 =? 0)%Z.

(** The progress files that are due while the results number [a + 1] to
    [a + n] come in: the same file at the end of every batch, holding the
    results so far. *)
Definition base_checkpoints (batch_size : Z) (a : nat) (rs : list result) (n : nat)
  : list (string * list result) :=
  flat_map (fun k => if ends_batch batch_size k
                     then [("spotify_data_progress.csv"%string, firstn k rs)]
                     else [])
           (seq (S a) n).

(** The books of the loop of [scrape_all_tracks], from a scraper that had
    the results [initial], had written the files [before], had started
    [started] browsers and had made [called] calls of [scrape_track], with a
    counter of batches at [base]. *)
Definition base_books (batch_size : Z) (before : list (string * list result))
    (initial : list result) (started called : nat) (base : Z)
    (batch_count : Z) (s : scraper) : Prop :=
  (exists d, driver s = Some d)
  /\ exists news,
       results s = initial ++ news
       /\ calls s = (called + List.length news)%nat
       /\ saved_files (trace s)
          = before ++ base_checkpoints batch_size (List.length initial) (results s)
                        (List.length news)
       /\ acquire_count (trace s)
          = (started
             + List.length (filter (ends_session batch_size)
                                   (seq (S (List.length initial)) (List.length news))))%nat
       /\ batch_count
          = base + Z.of_nat (List.length (filter (ends_batch batch_size)
                                   (seq (S (List.length initial)) (List.length news)))).

(** Strings without a dot. *)
Definition dotless (s : string) : bool :=
  all_chars (fun c => negb (Ascii.eqb c ".")) s.

(** The file is one of the listing that [get_latest_progress_file] reads
    the number [num] from, under the given prefix. *)
Definition numbered_file (prefix : string) (listing : list string)
    (num : Z) (f : string) : Prop :=
  In f listing
  /\ PyStr.startswith f prefix = true
  /\ PyStr.endswith f ".csv" = true
  /\ KeepAlive.number_of prefix f = Some num.

(** The long breaks of [production_scrape]: the pauses over 60 to 120
    seconds. *)
Definition is_break (ev : event) : bool :=
  match ev with
  | EvSleepUniform lo hi => Qeq_bool lo 60 && Qeq_bool hi 120
  | _ => false
  end.

Definition break_count (tr : list event) : nat := List.length (filter is_break tr).

(** ** The retry controller when nothing but the extractor fails *)

Section RetryQuiet.

Variable ext : nat -> string -> string -> extraction.
Variable max_retries : Z.
Variables tid tname : string.

Local Abbreviation retry := (scrape_track_with_retry (quiet ext) max_retries tid tname).

Lemma attempt_ind (P : Z -> Prop) :
  (forall a, (a < max_retries -> P (a + 1)) -> P a) -> forall a, P a.
Proof.
  intros step a.
  remember (Z.to_nat (max_retries - a)) as n eqn:En.
  revert a En.
  induction n as [|n IH]; intros a En; apply step; intros Hlt.
  - lia.
  - apply IH. lia.
Qed.

Lemma retry_quiet_returns a s :
  exists r s', retry a s = (Returned r, s').
Proof.
  revert s. pattern a. apply attempt_ind. clear a.
  intros a IH s.
  rewrite scrape_track_with_retry_equation_1.
  unfold try_except, bind, scrape_track, sleep_uniform, effect,
    failed_tracks_append, ret. cbn.
  destruct (ext (calls s) tid tname) as [r|e].
  - destruct (has_error r); [destruct (Z_lt_dec a max_retries) as [Hlt|Hge]|].
    + destruct (IH Hlt (log (EvSleepUniform 5 10)
                 (tick (mkScraper (driver s) (results s) (failed_tracks s)
                    (sessions s) (S (calls s)) (S (clock s))
                    (trace s ++ [EvScrape tid tname])))))
        as (r' & s' & E).
      cbn in E. rewrite E. eauto.
    + eauto.
    + eauto.
  - destruct (Z_lt_dec a max_retries) as [Hlt|Hge].
    + apply IH, Hlt.
    + eauto.
Qed.

(** One turn of the controller, read off the method. *)
Lemma retry_quiet_eq a s :
  retry a s =
  let s1 := after_scrape tid tname s in
  match ext (calls s) tid tname with
  | Extracted r =>
      if has_error r && (a <? max_retries)
      then retry (a + 1) (after_backoff s1)
      else (Returned r, s1)
  | Failure e =>
      if a <? max_retries
      then retry (a + 1) (after_backoff s1)
      else (Returned (exhausted_result max_retries tid tname e),
            mkScraper (driver s1) (results s1)
                      (failed_tracks s1 ++ [mkFailed tid tname e])
                      (sessions s1) (calls s1) (clock s1) (trace s1))
  end.
Proof.
  rewrite scrape_track_with_retry_equation_1.
  unfold try_except, bind, scrape_track, sleep_uniform, effect,
    failed_tracks_append, ret, after_backoff, after_scrape. cbn.
  destruct (ext (calls s) tid tname) as [r|e].
  - destruct (has_error r); cbn; [|reflexivity].
    destruct (Z_lt_dec a max_retries) as [Hlt|Hge].
    + rewrite (proj2 (Z.ltb_lt a max_retries) Hlt).
      match goal with
      | |- context [scrape_track_with_retry ?w ?m ?t ?n ?b ?st] =>
          destruct (retry_quiet_returns b st) as (r' & s' & E)
      end.
      cbn in E. rewrite E. reflexivity.
    + rewrite (proj2 (Z.ltb_ge a max_retries)) by lia. reflexivity.
  - destruct (Z_lt_dec a max_retries) as [Hlt|Hge].
    + rewrite (proj2 (Z.ltb_lt a max_retries) Hlt). reflexivity.
    + rewrite (proj2 (Z.ltb_ge a max_retries)) by lia. reflexivity.
Qed.

(** The attempts made from [attempt = a] on: never more than are left, and
    all of them when every attempt fails. *)
Lemma retry_calls a s :
  exists r s', retry a s = (Returned r, s')
    /\ (calls s < calls s')%nat
    /\ Z.of_nat (attempts s s') <= Z.max 1 (max_retries - a + 1)
    /\ ((forall n, retryable (ext n tid tname) = true) ->
        Z.of_nat (attempts s s') = Z.max 1 (max_retries - a + 1)).
Proof.
  revert s. pattern a. apply attempt_ind. clear a.
  intros a IH s. rewrite retry_quiet_eq. cbv zeta.
  assert (Hnext : a < max_retries ->
            exists r s', retry (a + 1) (after_backoff (after_scrape tid tname s)) = (Returned r, s')
              /\ (calls s < calls s')%nat
              /\ Z.of_nat (attempts s s') <= Z.max 1 (max_retries - a + 1)
              /\ ((forall n, retryable (ext n tid tname) = true) ->
                  Z.of_nat (attempts s s') = Z.max 1 (max_retries - a + 1))).
  { intros Hlt.
    destruct (IH Hlt (after_backoff (after_scrape tid tname s)))
      as (r & s' & E & Hc & Hle & Hall).
    exists r, s'. unfold attempts in *. cbn in Hc, Hle, Hall.
    repeat split; [exact E | lia | lia |].
    intros Hf. specialize (Hall Hf). lia. }
  destruct (ext (calls s) tid tname) as [r|e] eqn:Eo.
  - destruct (has_error r) eqn:Eh; cbn.
    + destruct (a <? max_retries) eqn:Elt.
      * apply Hnext. apply Z.ltb_lt, Elt.
      * apply Z.ltb_ge in Elt.
        eexists _, _. split; [reflexivity|].
        unfold attempts; cbn [calls after_scrape]. repeat split; try lia.
    + eexists _, _. split; [reflexivity|].
      unfold attempts; cbn [calls after_scrape]. repeat split; try lia.
      intros Hf. specialize (Hf (calls s)). rewrite Eo in Hf. cbn in Hf. congruence.
  - destruct (a <? max_retries) eqn:Elt.
    + apply Hnext. apply Z.ltb_lt, Elt.
    + apply Z.ltb_ge in Elt.
      eexists _, _. split; [reflexivity|].
      unfold attempts; cbn [calls after_scrape]. repeat split; try lia.
Qed.

(** The calls that leave the interpreter during one controller call: the
    first attempt, then a pause over the window 5..10 before each further
    attempt. *)
Lemma retry_trace_shape a s :
  let s' := snd (retry a s) in
  trace s' =
  (trace s ++ EvScrape tid tname ::
    List.concat (repeat [EvSleepUniform 5 10; EvScrape tid tname] (attempts s s' - 1)))%list.
Proof.
  revert s. pattern a. apply attempt_ind. clear a.
  intros a IH s. cbv zeta. rewrite retry_quiet_eq. cbv zeta.
  assert (Hnext : a < max_retries ->
    trace (snd (retry (a + 1) (after_backoff (after_scrape tid tname s)))) =
    (trace s ++ EvScrape tid tname ::
      List.concat (repeat [EvSleepUniform 5 10; EvScrape tid tname]
        (attempts s (snd (retry (a + 1) (after_backoff (after_scrape tid tname s)))) - 1)))%list).
  { intros Hlt.
    specialize (IH Hlt (after_backoff (after_scrape tid tname s))). cbv zeta in IH.
    destruct (retry_calls (a + 1) (after_backoff (after_scrape tid tname s)))
      as (r & s' & E & Hc & _).
    rewrite E in *. cbn [snd] in *. rewrite IH.
    unfold attempts in *. cbn [calls after_backoff after_scrape log tick trace] in *.
    replace (calls s' - calls s - 1)%nat with (S (calls s' - S (calls s) - 1)) by lia.
    cbn [repeat List.concat app]. rewrite <- !app_assoc. reflexivity. }
  assert (Hstop : forall s1, calls s1 = S (calls s) ->
    trace s1 = (trace s ++ [EvScrape tid tname])%list ->
    trace s1 = (trace s ++ EvScrape tid tname ::
      List.concat (repeat [EvSleepUniform 5 10; EvScrape tid tname] (attempts s s1 - 1)))%list).
  { intros s1 Ec Et. unfold attempts. rewrite Ec, Et.
    replace (S (calls s) - calls s - 1)%nat with 0%nat by lia. reflexivity. }
  destruct (ext (calls s) tid tname) as [r|e].
  - destruct (has_error r); cbn [andb].
    + destruct (a <? max_retries) eqn:Elt.
      * apply Hnext, Z.ltb_lt, Elt.
      * apply Hstop; reflexivity.
    + apply Hstop; reflexivity.
  - destruct (a <? max_retries) eqn:Elt.
    + apply Hnext, Z.ltb_lt, Elt.
    + apply Hstop; reflexivity.
Qed.

(** Exhaustion by an exception: every attempt but the last is retryable and
    the last one raises. *)
Lemma retry_exhausted_by_exception a s e :
  let k := Z.to_nat (Z.max 1 (max_retries - a + 1)) in
  (forall i, (i < k - 1)%nat -> retryable (ext (calls s + i) tid tname) = true) ->
  ext (calls s + (k - 1)) tid tname = Failure e ->
  exists s',
    retry a s = (Returned (exhausted_result max_retries tid tname e), s')
    /\ failed_tracks s' = (failed_tracks s ++ [mkFailed tid tname e])%list
    /\ results s' = results s.
Proof.
  revert s. pattern a. apply attempt_ind. clear a.
  intros a IH s k Hpre Hlast. rewrite retry_quiet_eq. cbv zeta.
  destruct (Z.ltb_spec a max_retries) as [Hlt|Hge].
  - assert (Ek : k = S (Z.to_nat (Z.max 1 (max_retries - (a + 1) + 1)))).
    { unfold k. lia. }
    assert (Hfirst : retryable (ext (calls s) tid tname) = true).
    { rewrite <- (Nat.add_0_r (calls s)). apply Hpre. lia. }
    assert (Hrec : exists s',
      retry (a + 1) (after_backoff (after_scrape tid tname s)) =
        (Returned (exhausted_result max_retries tid tname e), s')
      /\ failed_tracks s' = (failed_tracks s ++ [mkFailed tid tname e])%list
      /\ results s' = results s).
    { apply (IH Hlt (after_backoff (after_scrape tid tname s))).
      - intros i Hi. cbn [calls after_backoff after_scrape log tick].
        replace (S (calls s) + i)%nat with (calls s + S i)%nat by lia.
        apply Hpre. lia.
      - cbn [calls after_backoff after_scrape log tick].
        replace (S (calls s) + (Z.to_nat (Z.max 1 (max_retries - (a + 1) + 1)) - 1))%nat
          with (calls s + (k - 1))%nat by lia.
        exact Hlast. }
    destruct (ext (calls s) tid tname) as [r|e0]; [|exact Hrec].
    cbn in Hfirst. rewrite Hfirst. exact Hrec.
  - assert (Ek : k = 1%nat) by (unfold k; lia).
    rewrite Ek in Hlast. cbn in Hlast. rewrite Nat.add_0_r in Hlast.
    rewrite Hlast. eexists. split; [reflexivity|]. split; reflexivity.
Qed.

(** A success without the marker comes back at once; while attempts are
    left, a pause and a second attempt follow exactly the retryable
    outcomes. *)
Lemma retry_first_outcome a s :
  let o := ext (calls s) tid tname in
  (retryable o = false ->
     exists r, o = Extracted r /\ retry a s = (Returned r, after_scrape tid tname s))
  /\ (a < max_retries ->
      (retryable o = true <->
       exists rest, trace (snd (retry a s)) =
         (trace s ++ EvScrape tid tname :: EvSleepUniform 5 10 :: EvScrape tid tname :: rest)%list)).
Proof.
  cbv zeta.
  assert (Himm : retryable (ext (calls s) tid tname) = false ->
     exists r, ext (calls s) tid tname = Extracted r
               /\ retry a s = (Returned r, after_scrape tid tname s)).
  { intros Hn. rewrite retry_quiet_eq. cbv zeta.
    destruct (ext (calls s) tid tname) as [r|e]; cbn in Hn; [|discriminate].
    exists r. rewrite Hn. split; reflexivity. }
  split; [exact Himm|].
  intros Hlt. split.
  - intros Hr.
    pose proof (retry_trace_shape a s) as Hshape. cbv zeta in Hshape.
    assert (Hcalls : (calls s + 2 <= calls (snd (retry a s)))%nat).
    { rewrite retry_quiet_eq. cbv zeta.
      destruct (retry_calls (a + 1) (after_backoff (after_scrape tid tname s)))
        as (r & s' & E & Hc & _).
      cbn [calls after_backoff after_scrape log tick] in Hc.
      rewrite (proj2 (Z.ltb_lt a max_retries) Hlt).
      destruct (ext (calls s) tid tname) as [r0|e]; cbn in Hr.
      - rewrite Hr. cbn [andb]. rewrite E. cbn [snd]. lia.
      - rewrite E. cbn [snd]. lia. }
    rewrite Hshape. unfold attempts.
    replace (calls (snd (retry a s)) - calls s - 1)%nat
      with (S (calls (snd (retry a s)) - calls s - 2)) by lia.
    cbn [repeat List.concat app]. eexists. reflexivity.
  - intros (rest & Ht).
    destruct (retryable (ext (calls s) tid tname)) eqn:Er; [reflexivity|].
    destruct (Himm eq_refl) as (r & _ & E).
    rewrite E in Ht. cbn [snd after_scrape trace] in Ht.
    apply app_inv_head in Ht. discriminate.
Qed.

End RetryQuiet.

(** C1 (as amended).  Called with [attempt = 1] on an extractor that fails at
    every attempt, the retry controller returns after exactly
    [max(1, max_retries)] calls of [scrape_track], that is [max_retries]
    attempts and not [max_retries + 1]; on any extractor it returns, and
    never makes more attempts than that. *)
Theorem retry_attempt_count ext max_retries tid tname s :
  exists r s',
    scrape_track_with_retry (quiet ext) max_retries tid tname 1 s = (Returned r, s')
    /\ Z.of_nat (attempts s s') <= Z.max 1 max_retries
    /\ ((forall n, retryable (ext n tid tname) = true) ->
        Z.of_nat (attempts s s') = Z.max 1 max_retries).
Proof.
  destruct (retry_calls ext max_retries tid tname 1 s) as (r & s' & E & _ & Hle & Hall).
  exists r, s'. replace (max_retries - 1 + 1) with max_retries in * by lia.
  auto.
Qed.

(** The theorem of C1 at an extractor that raises three times. *)
Lemma retry_attempt_count_witness :
  exists r s',
    scrape_track_with_retry (quiet always_raises) 3 "t1" "One" 1 fresh = (Returned r, s')
    /\ Z.of_nat (attempts fresh s') = 3.
Proof.
  destruct (retry_attempt_count always_raises 3 "t1" "One" fresh)
    as (r & s' & E & _ & H).
  exists r, s'. split; [exact E|].
  exact (H (fun n => eq_refl)).
Defined.

(** C1 as the specification words it fails: with [max_retries = 3] an
    extractor that always raises is tried three times, not four, as the
    message of the result says itself. *)
Lemma retry_attempt_count_counterexample :
  let run := scrape_track_with_retry (quiet always_raises) 3 "t1" "One" 1 fresh in
  (forall n, retryable (always_raises n "t1" "One") = true)
  /\ attempts fresh (snd run) = 3%nat
  /\ Z.of_nat (attempts fresh (snd run)) <> 3 + 1
  /\ fst run = Returned (mkResult "t1" "One" "https://open.spotify.com/track/t1"
                                  "Failed after 3 attempts: timeout" "Failed to extract").
Proof.
  cbv zeta. split; [intros n; reflexivity|].
  vm_compute. repeat split; discriminate.
Qed.

(** C2.  The controller tries again exactly after an exception or after
    fields that carry the marker "Error" in the lyrics or in the cover: a
    success without the marker is returned at once, with no pause and no
    second attempt, and while attempts are left a pause and a second
    attempt follow every other outcome and only those.  Once no attempt is
    left, the call made is the last. *)
Theorem retry_classification ext max_retries tid tname attempt s :
  let o := ext (calls s) tid tname in
  let run := scrape_track_with_retry (quiet ext) max_retries tid tname attempt s in
  (retryable o = true <->
     (exists e, o = Failure e)
     \/ (exists r, o = Extracted r
                   /\ (PyStr.contains "Error" (lyrics r) = true
                       \/ PyStr.contains "Error" (cover_image_url r) = true)))
  /\ (retryable o = false ->
      exists r, o = Extracted r /\ run = (Returned r, after_scrape tid tname s))
  /\ (attempt < max_retries ->
      (retryable o = true <->
       exists rest, trace (snd run) =
         trace s ++ EvScrape tid tname :: EvSleepUniform 5 10 :: EvScrape tid tname :: rest))
  /\ (max_retries <= attempt -> attempts s (snd run) = 1%nat).
Proof.
  cbv zeta. split; [|split; [|split]].
  - destruct (ext (calls s) tid tname) as [r|e]; cbn [retryable]; unfold has_error.
    + rewrite orb_true_iff. split.
      * intros H. right. exists r. auto.
      * intros [(e & H)|(r' & H & Hm)]; [discriminate|]. injection H as <-. exact Hm.
    + split; [intros _; left; eauto | reflexivity].
  - apply retry_first_outcome.
  - apply retry_first_outcome.
  - intros Hge.
    destruct (retry_calls ext max_retries tid tname attempt s)
      as (r & s' & E & Hlt & Hle & _).
    rewrite E. cbn [snd]. unfold attempts in *. lia.
Qed.

(** The theorem of C2 at an extractor that finds what it looks for. *)
Lemma retry_classification_witness :
  scrape_track_with_retry (quiet always_fine) 3 "t1" "One" 1 fresh
  = (Returned (mkResult "t1" "One" "https://open.spotify.com/track/t1" "la la la"
                        "https://i.scdn.co/image/ab67616d0000b273"),
     after_scrape "t1" "One" fresh).
Proof.
  destruct (retry_classification always_fine 3 "t1" "One" 1 fresh) as (_ & H & _).
  destruct (H eq_refl) as (r & Eo & E).
  injection Eo as <-. exact E.
Defined.

Lemma windows_backoff tid tname n :
  windows (EvScrape tid tname ::
           List.concat (repeat [EvSleepUniform 5 10; EvScrape tid tname] n))
  = repeat (5%Q, 10%Q) n.
Proof.
  cbn [windows]. induction n as [|n IH]; [reflexivity|].
  cbn [repeat List.concat app windows]. rewrite IH. reflexivity.
Qed.

Lemma adaptive_range_cases s :
  adaptive_range s 2 5 = ((2 * 1.5)%Q, (5 * 2)%Q)
  \/ adaptive_range s 2 5 = ((2 * 0.8)%Q, (5 * 0.8)%Q)
  \/ adaptive_range s 2 5 = (2%Q, 5%Q).
Proof.
  unfold adaptive_range.
  destruct (Qltb s 0.8); [auto|]. destruct (Qltb 0.95 s); auto.
Qed.

(** C6 (as amended).  Every pause before a retry is drawn from the same
    window, 5 to 10 seconds: the window of a later retry equals that of the
    earlier one and never grows.  Its bounds lie at or above those of the
    delay between two tracks, whatever the success rate. *)
Theorem backoff_window_constant ext max_retries tid tname attempt s success_rate :
  let s' := snd (scrape_track_with_retry (quiet ext) max_retries tid tname attempt s) in
  (exists evs,
     trace s' = trace s ++ evs
     /\ windows evs = repeat (5%Q, 10%Q) (attempts s s' - 1)
     /\ forall i w1 w2,
          nth_error (windows evs) i = Some w1 ->
          nth_error (windows evs) (S i) = Some w2 ->
          w2 = w1 /\ ~ window_grows w1 w2)
  /\ (fst (adaptive_range success_rate 2 5) < 5
      /\ snd (adaptive_range success_rate 2 5) <= 10)%Q.
Proof.
  cbv zeta. split.
  - eexists. split; [apply retry_trace_shape|].
    rewrite windows_backoff. split; [reflexivity|].
    intros i w1 w2 H1 H2.
    apply nth_error_In, repeat_spec in H1. apply nth_error_In, repeat_spec in H2.
    subst. split; [reflexivity|].
    unfold window_grows, Qlt. cbn. lia.
  - destruct (adaptive_range_cases success_rate) as [E|[E|E]]; rewrite E;
      unfold Qlt, Qle; cbn; lia.
Qed.

(** C6 as the specification words it fails: the two pauses of a track that
    is tried three times have the same window, which does not grow in any
    sense. *)
Lemma backoff_window_counterexample :
  let s' := snd (scrape_track_with_retry (quiet always_raises) 3 "t1" "One" 1 fresh) in
  windows (trace s') = [(5%Q, 10%Q); (5%Q, 10%Q)]
  /\ ~ strictly_growing (windows (trace s')).
Proof.
  cbv zeta. split; [reflexivity|].
  change (windows _) with [(5%Q, 10%Q); (5%Q, 10%Q)].
  cbn [strictly_growing]. unfold window_grows, Qlt. cbn. lia.
Qed.

(** The theorem of C6 at a track that is tried three times. *)
Lemma backoff_window_constant_witness :
  exists evs,
    trace (snd (scrape_track_with_retry (quiet always_raises) 3 "t1" "One" 1 fresh))
    = trace fresh ++ evs
    /\ windows evs = repeat (5%Q, 10%Q) 2.
Proof.
  destruct (proj1 (backoff_window_constant always_raises 3 "t1" "One" 1 fresh 0.5))
    as (evs & Ht & Hw & _).
  exists evs. split; [exact Ht | exact Hw].
Defined.

(** ** The delay between two tracks *)

Lemma Qltb_lt a b : Qltb a b = true <-> (a < b)%Q.
Proof.
  unfold Qltb. rewrite negb_true_iff. split.
  - intros H. apply Qnot_le_lt. intros Hle.
    apply Qle_bool_iff in Hle. congruence.
  - intros H. destruct (Qle_bool b a) eqn:E; [|reflexivity].
    apply Qle_bool_iff in E. exfalso. exact (Qlt_not_le _ _ H E).
Qed.

Lemma Qltb_ge a b : Qltb a b = false <-> (b <= a)%Q.
Proof.
  unfold Qltb. rewrite negb_false_iff. apply Qle_bool_iff.
Qed.

Lemma random_uniform_bounds lo hi u :
  (lo < hi)%Q -> (0 <= u)%Q -> (u < 1)%Q ->
  (lo <= random_uniform lo hi u)%Q /\ (random_uniform lo hi u < hi)%Q.
Proof.
  intros Hw H0 H1. unfold random_uniform.
  assert (Hd : (0 < hi - lo)%Q) by (apply (proj1 (Qlt_minus_iff lo hi)); exact Hw).
  split.
  - rewrite <- (Qplus_0_r lo) at 1. apply Qplus_le_r.
    apply Qmult_le_0_compat; [apply Qlt_le_weak, Hd | exact H0].
  - setoid_replace hi with (lo + (hi - lo) * 1)%Q at 2 by ring.
    apply Qplus_lt_r. apply Qmult_lt_l; assumption.
Qed.

(** C3.  The delay between two tracks is drawn from 3..10 seconds when the
    success rate is below 0.8 (the base bounds 2 and 5 times 1.5 and 2),
    from 1.6..4 when it is above 0.95 (both bounds times 0.8), and from the
    base range 2..5 otherwise; so at 0.5, at 0.99 and at 0.85.  [u] is the
    draw of [random()]. *)
Theorem adaptive_delay_range (success_rate u : Q) ext st :
  (0 <= u)%Q -> (u < 1)%Q ->
  let lo := fst (adaptive_range success_rate 2 5) in
  let hi := snd (adaptive_range success_rate 2 5) in
  adaptive_delay (quiet ext) success_rate 2 5 st
    = (Returned tt, log (EvSleepUniform lo hi) (tick st))
  /\ (lo <= random_uniform lo hi u /\ random_uniform lo hi u < hi)%Q
  /\ ((success_rate < 0.8 -> lo = 2 * 1.5 /\ hi = 5 * 2 /\ lo == 3 /\ hi == 10)
      /\ (0.95 < success_rate -> lo = 2 * 0.8 /\ hi = 5 * 0.8 /\ lo == 1.6 /\ hi == 4)
      /\ (0.8 <= success_rate -> success_rate <= 0.95 -> lo = 2 /\ hi = 5))%Q
  /\ (adaptive_range 0.5 2 5 = (2 * 1.5, 5 * 2)
      /\ adaptive_range 0.99 2 5 = (2 * 0.8, 5 * 0.8)
      /\ adaptive_range 0.85 2 5 = (2, 5))%Q.
Proof.
  intros H0 H1 lo hi.
  split.
  { unfold adaptive_delay, lo, hi.
    destruct (adaptive_range success_rate 2 5) as [a b]. reflexivity. }
  split.
  { apply random_uniform_bounds; try assumption. unfold lo, hi.
    destruct (adaptive_range_cases success_rate) as [E|[E|E]]; rewrite E;
      unfold Qlt; cbn; lia. }
  split; [|repeat split].
  unfold lo, hi, adaptive_range. split; [|split].
  - intros Hlow. apply Qltb_lt in Hlow. rewrite Hlow.
    repeat split; reflexivity.
  - intros Hhigh.
    assert (Hnot : Qltb success_rate 0.8 = false).
    { apply Qltb_ge. apply Qlt_le_weak. eapply Qlt_trans; [|exact Hhigh].
      unfold Qlt; cbn; lia. }
    apply Qltb_lt in Hhigh. rewrite Hnot, Hhigh.
    repeat split; reflexivity.
  - intros Hge Hle.
    apply Qltb_ge in Hge, Hle. rewrite Hge, Hle. split; reflexivity.
Qed.

(** The theorem of C3 at the success rate 0.5 and the draw 0.5. *)
Lemma adaptive_delay_range_witness :
  adaptive_delay (quiet always_fine) 0.5 2 5 fresh
  = (Returned tt, log (EvSleepUniform (2 * 1.5) (5 * 2)) (tick fresh)).
Proof.
  refine (proj1 (adaptive_delay_range 0.5 0.5 always_fine fresh _ _));
    unfold Qle, Qlt; cbn; lia.
Defined.

(** ** The estimate of the time left *)

Lemma py_div_positive a b :
  (0 < a)%Q -> (0 < b)%Q ->
  exists q, py_div a b = Returned q /\ (0 < q)%Q.
Proof.
  intros Ha Hb. unfold py_div.
  destruct (Qeq_bool b 0) eqn:E.
  - apply Qeq_bool_iff in E. rewrite E in Hb. exfalso. exact (Qlt_irrefl 0 Hb).
  - exists (a / b)%Q. split; [reflexivity|].
    apply Qlt_shift_div_l; [exact Hb|]. rewrite Qmult_0_l. exact Ha.
Qed.

(** C9.  [calculate_eta] answers "Unknown" for zero completed tracks,
    whatever the clock shows, so neither division is reached then; for a
    positive number of completed tracks and a positive elapsed time both
    divisions have a non-zero divisor and a string comes back. *)
Theorem calculate_eta_defined completed total elapsed :
  calculate_eta 0 total elapsed = Returned "Unknown"
  /\ (0 < completed -> (0 < elapsed)%Q ->
      exists rate eta_seconds text,
        py_div (inject_Z completed) elapsed = Returned rate
        /\ ~ (rate == 0)%Q
        /\ py_div (inject_Z (total - completed)) rate = Returned eta_seconds
        /\ calculate_eta completed total elapsed = Returned text).
Proof.
  split; [reflexivity|].
  intros Hc He.
  assert (Hpos : (0 < inject_Z completed)%Q).
  { change 0%Q with (inject_Z 0). rewrite <- Zlt_Qlt. exact Hc. }
  destruct (py_div_positive _ _ Hpos He) as (rate & Erate & Hrate).
  assert (Hnz : ~ (rate == 0)%Q).
  { intros E. rewrite E in Hrate. exact (Qlt_irrefl 0 Hrate). }
  assert (Eeta : py_div (inject_Z (total - completed)) rate
                 = Returned (inject_Z (total - completed) / rate)%Q).
  { unfold py_div. destruct (Qeq_bool rate 0) eqn:E; [|reflexivity].
    apply Qeq_bool_iff in E. contradiction. }
  exists rate, (inject_Z (total - completed) / rate)%Q.
  eexists. split; [exact Erate|]. split; [exact Hnz|]. split; [exact Eeta|].
  unfold calculate_eta.
  rewrite (proj2 (Z.eqb_neq completed 0)) by lia.
  rewrite Erate, Eeta. reflexivity.
Qed.

(** The theorem of C9 at 5 tracks of 100 after 10 seconds. *)
Lemma calculate_eta_defined_witness :
  exists rate eta_seconds text,
    py_div (inject_Z 5) 10 = Returned rate
    /\ ~ (rate == 0)%Q
    /\ py_div (inject_Z (100 - 5)) rate = Returned eta_seconds
    /\ calculate_eta 5 100 10 = Returned text.
Proof.
  apply (proj2 (calculate_eta_defined 5 100 10)).
  - lia.
  - unfold Qlt; cbn; lia.
Defined.

(** ** The retry controller in any world *)

Lemma frame_refl s : frame s s.
Proof.
  unfold frame. repeat split; try reflexivity.
  - exists []. symmetry. apply app_nil_r.
  - exists []. split; [symmetry; apply app_nil_r | constructor].
Qed.

Lemma frame_trans s1 s2 s3 : frame s1 s2 -> frame s2 s3 -> frame s1 s3.
Proof.
  intros (Hd & Hr & Hs & (fs & Hf) & (evs & Ht & Hev))
         (Hd' & Hr' & Hs' & (fs' & Hf') & (evs' & Ht' & Hev')).
  unfold frame. repeat split; try congruence.
  - exists (fs ++ fs')%list. rewrite Hf', Hf, app_assoc. reflexivity.
  - exists (evs ++ evs')%list. split.
    + rewrite Ht', Ht, app_assoc. reflexivity.
    + apply Forall_app. split; assumption.
Qed.

Lemma preserves_ret {A} (a : A) : preserves (ret a).
Proof. intros s. apply frame_refl. Qed.

Lemma preserves_bind {A B} (m : M A) (k : A -> M B) :
  preserves m -> (forall a, preserves (k a)) -> preserves (bind m k).
Proof.
  intros Hm Hk s. unfold bind. specialize (Hm s).
  destruct (m s) as [[a|e] s1]; cbn [snd] in *.
  - eapply frame_trans; [exact Hm | apply Hk].
  - exact Hm.
Qed.

Lemma preserves_try_except {A} (m : M A) (h : string -> M A) :
  preserves m -> (forall e, preserves (h e)) -> preserves (try_except m h).
Proof.
  intros Hm Hh s. unfold try_except. specialize (Hm s).
  destruct (m s) as [[a|[|e]] s1]; cbn [snd] in *; try exact Hm.
  eapply frame_trans; [exact Hm | apply Hh].
Qed.

Lemma frame_tick s : frame s (tick s).
Proof.
  unfold frame, tick; cbn. repeat split.
  - exists []. symmetry. apply app_nil_r.
  - exists []. split; [symmetry; apply app_nil_r | constructor].
Qed.

Lemma preserves_effect w ev : is_session ev = false -> preserves (effect w ev).
Proof.
  intros Hev s. unfold effect.
  destruct (fault w (clock s)); cbn [snd].
  - apply frame_tick.
  - unfold frame, log, tick; cbn. repeat split.
    + exists []. symmetry. apply app_nil_r.
    + exists [ev]. split; [reflexivity | constructor; [exact Hev | constructor]].
Qed.

Lemma preserves_scrape_track w tid tname : preserves (scrape_track w tid tname).
Proof.
  intros s. unfold scrape_track.
  destruct (fault w (clock s)); cbn [snd].
  - apply frame_tick.
  - assert (H : frame s (after_scrape tid tname s)).
    { unfold frame, after_scrape; cbn. repeat split.
      - exists []. symmetry. apply app_nil_r.
      - exists [EvScrape tid tname]. split; [reflexivity | repeat constructor]. }
    destruct (extractor w (calls s) tid tname); exact H.
Qed.

Lemma preserves_failed_tracks_append f : preserves (failed_tracks_append f).
Proof.
  intros s. unfold frame, failed_tracks_append; cbn. repeat split.
  - exists [f]. reflexivity.
  - exists []. split; [symmetry; apply app_nil_r | constructor].
Qed.

Lemma preserves_retry w max_retries tid tname a :
  preserves (scrape_track_with_retry w max_retries tid tname a).
Proof.
  pattern a. apply (attempt_ind max_retries). clear a.
  intros a IH s. rewrite scrape_track_with_retry_equation_1.
  revert s. apply preserves_try_except.
  - apply preserves_bind; [apply preserves_scrape_track|].
    intros r. destruct (has_error r); [|apply preserves_ret].
    destruct (Z_lt_dec a max_retries) as [Hlt|Hge]; [|apply preserves_ret].
    apply preserves_bind; [apply preserves_effect; reflexivity|].
    intros _. exact (IH Hlt).
  - intros e. destruct (Z_lt_dec a max_retries) as [Hlt|Hge].
    + apply preserves_bind; [apply preserves_effect; reflexivity|].
      intros _. exact (IH Hlt).
    + apply preserves_bind; [apply preserves_failed_tracks_append|].
      intros _. apply preserves_ret.
Qed.

(** ** The loop of [production_scrape] when nothing but the extractor fails *)

Lemma retry_quiet_answers ext max_retries row a s :
  exists r s',
    scrape_track_with_retry (quiet ext) max_retries
      (row_track_id row) (row_track_name row) a s = (Returned r, s')
    /\ answers ext max_retries row r.
Proof.
  revert s. pattern a. apply (attempt_ind max_retries). clear a.
  intros a IH s. rewrite retry_quiet_eq. cbv zeta.
  destruct (ext (calls s) (row_track_id row) (row_track_name row)) as [r|e] eqn:Eo.
  - destruct (has_error r && (a <? max_retries)) eqn:Eb.
    + apply IH. apply andb_prop in Eb. apply Z.ltb_lt, Eb.
    + eexists _, _. split; [reflexivity|]. left. eauto.
  - destruct (a <? max_retries) eqn:Eb.
    + apply IH. apply Z.ltb_lt, Eb.
    + eexists _, _. split; [reflexivity|]. right. eauto.
Qed.

Lemma effect_quiet ext ev s :
  effect (quiet ext) ev s = (Returned tt, log ev (tick s)).
Proof. reflexivity. Qed.

Lemma bind_returned {A B} (m : M A) (k : A -> M B) s a s1 :
  m s = (Returned a, s1) -> bind m k s = k a s1.
Proof. intros E. unfold bind. rewrite E. reflexivity. Qed.

Lemma when_quiet ext (b : bool) ev s :
  when b (effect (quiet ext) ev) s = (Returned tt, if b then log ev (tick s) else s).
Proof. destruct b; reflexivity. Qed.

Lemma when_save_quiet ext (b : bool) filename s :
  results s <> [] ->
  when b (save_progress (quiet ext) filename) s =
  (Returned tt, if b then log (EvSave filename (results s)) (tick s) else s).
Proof.
  intros Hne. destruct b; [|reflexivity].
  unfold when, save_progress. destruct (results s); [congruence | reflexivity].
Qed.

Lemma restart_quiet ext s d :
  driver s = Some d ->
  restart_browser (quiet ext) s =
  (Returned tt,
   mkScraper (Some (sessions s)) (results s) (failed_tracks s)
             (S (sessions s)) (calls s) (5 + clock s)
             (trace s ++ [EvQuit d; EvSleep 10; EvSetupDriver (sessions s)]
                      ++ [EvExecuteScript; EvSleep 5])).
Proof.
  intros Hd. unfold restart_browser, driver_quit, sleep, setup_driver, bind.
  rewrite Hd. cbn. unfold log, tick. cbn. rewrite <- !app_assoc. reflexivity.
Qed.

(** One turn of the loop on a row that is not skipped. *)
Lemma production_step_quiet ext max_retries start_index index row acc s d :
  start_index <= index ->
  driver s = Some d ->
  exists r acc' s' evs,
    production_step (quiet ext) max_retries start_index (index, row) acc s
      = (Returned acc', s')
    /\ answers ext max_retries row r
    /\ results s' = results s ++ [r]
    /\ failed_tracks s' =
       failed_tracks (snd (scrape_track_with_retry (quiet ext) max_retries
                             (row_track_id row) (row_track_name row) 1 s))
    /\ Forall (fun ev => is_session ev = false) evs
    /\ if Z.of_nat (S (List.length (results s))) mod 300 =? 0
       then trace s' = trace s ++ evs
                         ++ [EvQuit d; EvSleep 10; EvSetupDriver (sessions s)]
                         ++ [EvExecuteScript; EvSleep 5]
            /\ driver s' = Some (sessions s) /\ sessions s' = S (sessions s)
       else trace s' = trace s ++ evs
            /\ driver s' = Some d /\ sessions s' = sessions s.
Proof.
  intros Hidx Hdrv.
  destruct (retry_quiet_answers ext max_retries row 1 s) as (r & s1 & E & Hans).
  rewrite E. cbn [snd].
  pose proof (preserves_retry (quiet ext) max_retries
                (row_track_id row) (row_track_name row) 1 s) as Hfr.
  rewrite E in Hfr. cbn [snd] in Hfr.
  destruct Hfr as (Hd & Hr & Hs & Hf & (evs1 & Ht & Hev1)).
  unfold production_step.
  rewrite (proj2 (Z.ltb_ge index start_index) Hidx).
  rewrite (bind_returned _ _ _ _ _ E).
  erewrite bind_returned by reflexivity.
  erewrite bind_returned by reflexivity.
  cbn [results].
  assert (Elen : Z.of_nat (List.length (results s1 ++ [r]))
                 = Z.of_nat (S (List.length (results s)))).
  { rewrite length_app, Hr. cbn [List.length]. f_equal. lia. }
  rewrite Elen.
  set (completed := Z.of_nat (S (List.length (results s)))).
  unfold adaptive_delay, random_delay, sleep_uniform.
  destruct (adaptive_range _ 2 5) as [lo hi].
  erewrite bind_returned by apply effect_quiet.
  erewrite bind_returned.
  2:{ apply when_save_quiet. cbn.
      intros El. apply app_eq_nil in El. destruct El; discriminate. }
  erewrite bind_returned by apply when_quiet.
  exists r.
  destruct (completed mod 300 =? 0).
  - erewrite bind_returned.
    2:{ unfold when. apply (restart_quiet ext _ d).
        destruct (completed mod 25 =? 0), (completed mod 100 =? 0); cbn; congruence. }
    eexists _, _,
      (evs1 ++ [EvSleepUniform lo hi]
         ++ (if completed mod 25 =? 0 then [EvSave _ _] else [])
         ++ (if completed mod 100 =? 0 then [EvSleepUniform 60 120] else [])).
    split; [reflexivity|]. split; [exact Hans|].
    destruct (completed mod 25 =? 0), (completed mod 100 =? 0);
      cbn [results failed_tracks trace driver sessions log tick];
      rewrite ?Hr, ?Ht, ?Hs;
      (split; [reflexivity|]); (split; [reflexivity|]);
      (split; [repeat (apply Forall_app; split); try exact Hev1; repeat constructor|]);
      rewrite <- ?app_assoc; cbn [app]; repeat split; reflexivity.
  - eexists _, _,
      (evs1 ++ [EvSleepUniform lo hi]
         ++ (if completed mod 25 =? 0 then [EvSave _ _] else [])
         ++ (if completed mod 100 =? 0 then [EvSleepUniform 60 120] else [])).
    split; [reflexivity|]. split; [exact Hans|].
    destruct (completed mod 25 =? 0), (completed mod 100 =? 0);
      cbn [when ret results failed_tracks trace driver sessions log tick fst snd];
      rewrite ?Hr, ?Ht, ?Hs, ?Hd;
      (split; [reflexivity|]); (split; [reflexivity|]);
      (split; [repeat (apply Forall_app; split); try exact Hev1; repeat constructor|]);
      rewrite <- ?app_assoc; cbn [app]; repeat split; try reflexivity; assumption.
Qed.

Lemma acquire_count_app tr1 tr2 :
  acquire_count (tr1 ++ tr2) = (acquire_count tr1 + acquire_count tr2)%nat.
Proof. unfold acquire_count. rewrite filter_app, length_app. reflexivity. Qed.

Lemma acquire_count_others evs :
  Forall (fun ev => is_session ev = false) evs -> acquire_count evs = 0%nat.
Proof.
  induction 1 as [|ev evs Hev _ IH]; [reflexivity|].
  unfold acquire_count in *. cbn [filter].
  destruct ev; cbn in *; try discriminate; exact IH.
Qed.

Lemma disciplined_others tr d evs :
  disciplined tr d ->
  Forall (fun ev => is_session ev = false) evs ->
  disciplined (tr ++ evs) d.
Proof.
  intros Hd Hev. revert tr Hd.
  induction Hev as [|ev evs Hev _ IH]; intros tr Hd.
  - rewrite app_nil_r. exact Hd.
  - replace (tr ++ ev :: evs) with ((tr ++ [ev]) ++ evs)
      by (rewrite <- app_assoc; reflexivity).
    apply IH. apply disc_other; [exact Hd|].
    destruct ev; cbn in *; try discriminate; reflexivity.
Qed.

(** Counting the multiples of the cadence [k] one item at a time. *)
Lemma div_succ k n :
  (0 < k)%nat ->
  (S n / k = n / k + (if (Z.of_nat (S n) mod Z.of_nat k =? 0)%Z then 1 else 0))%nat.
Proof.
  intros Hk.
  pose proof (Nat.div_mod_eq n k) as Hn.
  pose proof (Nat.mod_upper_bound n k ltac:(lia)) as Hr.
  rewrite <- Nat2Z.inj_mod.
  destruct (Nat.eq_dec (S (n mod k)) k) as [E|E].
  - rewrite <- (Nat.div_unique (S n) k (n / k + 1) 0) by nia.
    rewrite <- (Nat.mod_unique (S n) k (n / k + 1) 0) by nia.
    reflexivity.
  - rewrite <- (Nat.div_unique (S n) k (n / k) (S (n mod k))) by nia.
    rewrite <- (Nat.mod_unique (S n) k (n / k) (S (n mod k))) by nia.
    cbn [Z.of_nat Z.eqb]. lia.
Qed.

Lemma div_300_succ n :
  (S n / 300 = n / 300 + (if (Z.of_nat (S n) mod 300 =? 0)%Z then 1 else 0))%nat.
Proof. apply (div_succ 300). lia. Qed.

(** The browser after one turn of the loop. *)
Lemma production_step_session s s1 d r evs :
  disciplined (trace s) d ->
  results s1 = results s ++ [r] ->
  Forall (fun ev => is_session ev = false) evs ->
  (if Z.of_nat (S (List.length (results s))) mod 300 =? 0
   then trace s1 = trace s ++ evs
                     ++ [EvQuit d; EvSleep 10; EvSetupDriver (sessions s)]
                     ++ [EvExecuteScript; EvSleep 5]
        /\ driver s1 = Some (sessions s) /\ sessions s1 = S (sessions s)
   else trace s1 = trace s ++ evs
        /\ driver s1 = Some d /\ sessions s1 = sessions s) ->
  exists d1, driver s1 = Some d1 /\ disciplined (trace s1) d1
    /\ (acquire_count (trace s1) + List.length (results s) / 300
        = acquire_count (trace s) + List.length (results s1) / 300)%nat.
Proof.
  intros Hdisc Hres1 Hev Hshape.
  rewrite Hres1, length_app. cbn [List.length]. rewrite Nat.add_1_r.
  rewrite (div_300_succ (List.length (results s))).
  destruct (Z.of_nat (S (List.length (results s))) mod 300 =? 0).
  - destruct Hshape as (Ht & Hd1 & _). exists (sessions s).
    split; [exact Hd1|]. rewrite Ht.
    replace (trace s ++ evs ++ [EvQuit d; EvSleep 10; EvSetupDriver (sessions s)]
               ++ [EvExecuteScript; EvSleep 5])
      with (((trace s ++ evs) ++ [EvQuit d; EvSleep 10; EvSetupDriver (sessions s)])
               ++ [EvExecuteScript; EvSleep 5])
      by (rewrite <- !app_assoc; reflexivity).
    split.
    + apply disciplined_others; [|repeat constructor]. apply disc_recycle.
      apply disciplined_others; assumption.
    + rewrite !acquire_count_app, (acquire_count_others evs Hev).
      cbn. lia.
  - destruct Hshape as (Ht & Hd1 & _). exists d.
    split; [exact Hd1|]. rewrite Ht. split.
    + apply disciplined_others; assumption.
    + rewrite acquire_count_app, (acquire_count_others evs Hev). lia.
Qed.

(** The whole loop, from a scraper that holds a browser. *)
Lemma production_loop_quiet ext max_retries start_index rows :
  forall i acc s d,
    driver s = Some d ->
    disciplined (trace s) d ->
    exists acc' s' news d',
      for_each (production_step (quiet ext) max_retries start_index)
               (iterrows_from i rows) acc s = (Returned acc', s')
      /\ results s' = results s ++ news
      /\ Forall2 (answers ext max_retries)
                 (skipn (Z.to_nat (start_index - i)) rows) news
      /\ (exists fs, failed_tracks s' = failed_tracks s ++ fs)
      /\ driver s' = Some d'
      /\ disciplined (trace s') d'
      /\ (acquire_count (trace s') + List.length (results s) / 300
          = acquire_count (trace s) + List.length (results s') / 300)%nat.
Proof.
  induction rows as [|row rest IH]; intros i acc s d Hdrv Hdisc.
  - exists acc, s, [], d. cbn [iterrows_from for_each].
    rewrite skipn_nil, app_nil_r.
    repeat split; auto. exists []. symmetry. apply app_nil_r.
  - cbn [iterrows_from for_each].
    destruct (Z.ltb_spec i start_index) as [Hskip|Htake].
    + (* the row is skipped *)
      rewrite (bind_returned _ _ s acc s).
      2:{ unfold production_step. rewrite (proj2 (Z.ltb_lt i start_index) Hskip).
          reflexivity. }
      destruct (IH (i + 1) acc s d Hdrv Hdisc)
        as (acc' & s' & news & d' & E & Hres & Hall & Hrest).
      exists acc', s', news, d'. split; [exact E|]. split; [exact Hres|].
      split; [|exact Hrest].
      replace (Z.to_nat (start_index - i))
        with (S (Z.to_nat (start_index - (i + 1)))) by lia.
      exact Hall.
    + (* the row is taken *)
      destruct (production_step_quiet ext max_retries start_index i row acc s d
                  Htake Hdrv)
        as (r & acc1 & s1 & evs & E1 & Hans & Hres1 & Hf1 & Hev & Hshape).
      rewrite (bind_returned _ _ _ _ _ E1).
      destruct (preserves_retry (quiet ext) max_retries
                  (row_track_id row) (row_track_name row) 1 s)
        as (_ & _ & _ & (fs1 & Hfs1) & _).
      rewrite Hfs1 in Hf1.
      assert (H1 : exists d1, driver s1 = Some d1 /\ disciplined (trace s1) d1
                /\ (acquire_count (trace s1) + List.length (results s) / 300
                    = acquire_count (trace s) + List.length (results s1) / 300)%nat)
        by (eapply production_step_session; eassumption).
      destruct H1 as (d1 & Hdrv1 & Hdisc1 & Hcount1).
      destruct (IH (i + 1) acc1 s1 d1 Hdrv1 Hdisc1)
        as (acc' & s' & news & d' & E & Hres & Hall & (fs & Hf) & Hdrv' & Hdisc' & Hcount).
      exists acc', s', (r :: news), d'. split; [exact E|].
      split; [rewrite Hres, Hres1, <- app_assoc; reflexivity|].
      split.
      { replace (Z.to_nat (start_index - i)) with 0%nat by lia.
        replace (Z.to_nat (start_index - (i + 1))) with 0%nat in Hall by lia.
        cbn [skipn] in *. constructor; assumption. }
      split; [exists (fs1 ++ fs); rewrite Hf, Hf1, app_assoc; reflexivity|].
      split; [exact Hdrv'|]. split; [exact Hdisc'|]. lia.
Qed.

Lemma iterrows_from_app {R} (xs ys : list R) i :
  iterrows_from i (xs ++ ys) =
  iterrows_from i xs ++ iterrows_from (i + Z.of_nat (List.length xs)) ys.
Proof.
  revert i. induction xs as [|x xs IH]; intros i.
  - cbn. rewrite Z.add_0_r. reflexivity.
  - cbn [app iterrows_from List.length]. rewrite IH. cbn [app].
    do 3 f_equal. lia.
Qed.

Lemma for_each_app {X A} (body : X -> A -> M A) xs ys acc s :
  for_each body (xs ++ ys) acc s = bind (for_each body xs acc) (for_each body ys) s.
Proof.
  revert acc s. induction xs as [|x xs IH]; intros acc s.
  - reflexivity.
  - cbn [app for_each]. unfold bind.
    destruct (body x acc s) as [[acc1|e] s1]; [|reflexivity].
    rewrite IH. reflexivity.
Qed.

(** What follows the loop: the final save and the file of failed tracks. *)
Lemma production_tail_quiet ext s :
  exists s',
    (save_progress (quiet ext) "spotify_data_final.csv" ;;
     save_failed_tracks (quiet ext)) s = (Returned tt, s')
    /\ results s' = results s
    /\ failed_tracks s' = failed_tracks s
    /\ driver s' = driver s
    /\ (exists evs, trace s' = trace s ++ evs
                    /\ Forall (fun ev => is_session ev = false) evs)
    /\ (failed_tracks s' <> [] ->
        exists tr, trace s' = tr ++ [EvSaveFailed (failed_tracks s')]).
Proof.
  unfold bind, save_progress, save_failed_tracks.
  destruct (results s) eqn:Er; destruct (failed_tracks s) eqn:Ef;
    rewrite ?effect_quiet; cbn [failed_tracks log tick]; rewrite ?Ef;
    rewrite ?effect_quiet; eexists; (split; [reflexivity|]);
    cbn [results failed_tracks driver trace log tick]; rewrite ?Er, ?Ef;
    repeat split; try congruence.
  - exists []. split; [symmetry; apply app_nil_r | constructor].
  - exists [EvSaveFailed (f :: l)]. split; [reflexivity | repeat constructor].
  - intros _. eexists. reflexivity.
  - exists [EvSave "spotify_data_final.csv" (r :: l)]. split; [reflexivity | repeat constructor].
  - eexists [_; _]. split; [rewrite <- app_assoc; reflexivity | repeat constructor].
  - intros _. eexists. reflexivity.
Qed.

(** The scraper as [main] has it when the loop starts. *)
Lemma init_quiet ext :
  init (quiet ext) fresh =
  (Returned tt, mkScraper (Some 0%nat) [] [] 1 0 2 [EvSetupDriver 0; EvExecuteScript]).
Proof. reflexivity. Qed.

Lemma at_loop_start_disciplined : disciplined (trace at_loop_start) 0%nat.
Proof.
  apply (disciplined_others [EvSetupDriver 0] 0%nat [EvExecuteScript; EvReadCsv]);
    repeat constructor.
Qed.

(** A whole run of [production_scrape] on a new scraper. *)
Lemma production_run_quiet ext max_retries rows start_index :
  exists s' d,
    (init (quiet ext) ;;
     production_scrape (quiet ext) max_retries (Some rows) start_index) fresh
      = (Returned tt, s')
    /\ Forall2 (answers ext max_retries) (skipn (Z.to_nat start_index) rows) (results s')
    /\ driver s' = Some d
    /\ disciplined (trace s') d
    /\ acquire_count (trace s') = (List.length (results s') / 300 + 1)%nat
    /\ (failed_tracks s' <> [] ->
        exists tr, trace s' = tr ++ [EvSaveFailed (failed_tracks s')]).
Proof.
  rewrite (bind_returned _ _ _ _ _ (init_quiet ext)).
  unfold production_scrape, read_csv.
  rewrite (bind_returned _ _ _ rows at_loop_start) by reflexivity.
  destruct (production_loop_quiet ext max_retries start_index rows 0 0
              at_loop_start 0%nat eq_refl at_loop_start_disciplined)
    as (acc & s1 & news & d & E & Hres & Hall & _ & Hdrv & Hdisc & Hcount).
  unfold iterrows. rewrite (bind_returned _ _ _ _ _ E).
  destruct (production_tail_quiet ext s1)
    as (s' & Et & Hr' & Hf' & Hd' & (evs & Ht' & Hev) & Hlast).
  exists s', d. split; [exact Et|].
  cbn [results log tick app at_loop_start] in Hres. rewrite Z.sub_0_r in Hall.
  split; [rewrite Hr', Hres; exact Hall|].
  split; [congruence|].
  split; [rewrite Ht'; apply disciplined_others; assumption|].
  split; [|exact Hlast].
  rewrite Ht', acquire_count_app, (acquire_count_others evs Hev), Hr'.
  match type of Hcount with
  | (_ + ?a = ?b + _)%nat =>
      change a with 0%nat in Hcount; change b with 1%nat in Hcount
  end.
  lia.
Qed.

(** ** The loop of [fast_scrape] *)

Lemma fast_acquire_count_app tr1 tr2 :
  Fast.acquire_count (tr1 ++ tr2)
  = (Fast.acquire_count tr1 + Fast.acquire_count tr2)%nat.
Proof. unfold Fast.acquire_count. rewrite filter_app, length_app. reflexivity. Qed.

Lemma fast_gets_app tr1 tr2 : fast_gets (tr1 ++ tr2) = fast_gets tr1 ++ fast_gets tr2.
Proof.
  induction tr1 as [|ev tr1 IH]; cbn [app fast_gets]; [reflexivity|].
  destruct ev; rewrite ?IH; reflexivity.
Qed.

Lemma fast_disciplined_others tr d evs :
  fast_disciplined tr d ->
  Forall (fun ev => Fast.is_setup ev = false) evs ->
  fast_disciplined (tr ++ evs) d.
Proof.
  intros Hd Hev. revert tr Hd.
  induction Hev as [|ev evs Hev _ IH]; intros tr Hd.
  - rewrite app_nil_r. exact Hd.
  - replace (tr ++ ev :: evs) with ((tr ++ [ev]) ++ evs)
      by (rewrite <- app_assoc; reflexivity).
    apply IH. apply fast_disc_other; assumption.
Qed.

(** No checkpoint goes by the name of the final file. *)
Lemma fast_checkpoint_name n :
  ("spotify_data_fast_" ++ PyStr.of_Z n ++ ".csv")%string
  <> "spotify_data_fast_final.csv"%string.
Proof.
  unfold PyStr.of_Z, NilZero.string_of_int.
  destruct (Z.to_int n) as [d|d]; destruct d; cbn; discriminate.
Qed.

Lemma fast_final_saved_app tr evs :
  ~ fast_final_saved tr ->
  Forall (fun ev => forall rows, ev <> Fast.EvSave "spotify_data_fast_final.csv" rows) evs ->
  ~ fast_final_saved (tr ++ evs).
Proof.
  intros Hn Hev (rows & Hin). apply in_app_or in Hin. destruct Hin as [Hin|Hin].
  - apply Hn. exists rows. exact Hin.
  - rewrite Forall_forall in Hev. exact (Hev _ Hin rows eq_refl).
Qed.

(** What a turn of the loop does outside, after the page was asked for. *)
Lemma fast_step_skipped browser start_index index row s :
  index < start_index ->
  Fast.fast_step browser start_index (index, row) s = (Returned tt, s).
Proof.
  intros H. unfold Fast.fast_step. now rewrite (proj2 (Z.ltb_lt index start_index) H).
Qed.

(** One turn of the loop on a row that is not skipped, event by event: the
    visit of the page, then either the exception of the test on a cover
    that is [None], or the checkpoint that is due, the pause and the restart
    that is due. *)
Lemma fast_step_exact browser start_index index row s :
  start_index <= index ->
  exists r evs,
    Fast.made_for row r
    /\ (Fast.lyrics r = "Skipped for speed"%string \/ fast_error r = true)
    /\ fast_gets evs = [row_track_id row]
    /\ Forall (fun ev => Fast.is_setup ev = false) evs
    /\ Forall (fun ev => forall rows,
                 ev <> Fast.EvSave "spotify_data_fast_final.csv" rows) evs
    /\ let completed := Z.of_nat (S (List.length (Fast.results s))) in
       let restart := completed mod 500 =? 0 in
       match Fast.cover_image r with
       | None =>
           exists e,
             Fast.fast_step browser start_index (index, row) s
             = (Raised (PyException e),
                Fast.mkScraper (Fast.driver s) (Fast.results s ++ [r])
                  (Fast.failed_tracks s) (Fast.sessions s) (S (Fast.calls s))
                  (Fast.trace s ++ evs))
       | Some c =>
           exists evs',
             fast_gets evs' = []
             /\ Forall (fun ev => Fast.is_setup ev = false) evs'
             /\ Forall (fun ev => forall rows,
                          ev <> Fast.EvSave "spotify_data_fast_final.csv" rows) evs'
             /\ Fast.fast_step browser start_index (index, row) s
                = (Returned tt,
                   Fast.mkScraper
                     (if restart then Fast.sessions s else Fast.driver s)
                     (Fast.results s ++ [r])
                     (Fast.failed_tracks s ++ (if PyStr.contains "Error" c then [r] else []))
                     (if restart then S (Fast.sessions s) else Fast.sessions s)
                     (S (Fast.calls s))
                     (Fast.trace s ++ evs ++ evs'
                        ++ (if restart
                            then [Fast.EvQuit (Fast.driver s); Fast.EvSleep 2;
                                  Fast.EvSetupDriver (Fast.sessions s)]
                            else [])))
       end.
Proof.
  intros Hidx. unfold Fast.fast_step.
  rewrite (proj2 (Z.ltb_ge index start_index) Hidx).
  unfold Fast.extract_basic_info.
  assert (Hne : forall r T (k1 k2 : T),
             match Fast.results s ++ [r] with [] => k1 | _ :: _ => k2 end = k2).
  { intros r T k1 k2. destruct (Fast.results s ++ [r]) eqn:El; [|reflexivity].
    apply app_eq_nil in El. destruct El; discriminate. }
  assert (Elen : forall r, Z.of_nat (List.length (Fast.results s ++ [r]))
                           = Z.of_nat (S (List.length (Fast.results s)))).
  { intros r. rewrite length_app. cbn [List.length]. f_equal. lia. }
  assert (Hname : forall n rows rows',
             Fast.EvSave ("spotify_data_fast_" ++ PyStr.of_Z n ++ ".csv") rows
             <> Fast.EvSave "spotify_data_fast_final.csv" rows').
  { intros n rows rows' E. apply (fast_checkpoint_name n). congruence. }
  assert (Hrest : forall r c evs,
    exists evs',
      fast_gets evs' = []
      /\ Forall (fun ev => Fast.is_setup ev = false) evs'
      /\ Forall (fun ev => forall rows,
                   ev <> Fast.EvSave "spotify_data_fast_final.csv" rows) evs'
      /\ (let s0 := Fast.mkScraper (Fast.driver s) (Fast.results s ++ [r])
                      (Fast.failed_tracks s) (Fast.sessions s) (S (Fast.calls s))
                      (Fast.trace s ++ evs) in
          let s1 := if PyStr.contains "Error" c
                    then Fast.mkScraper (Fast.driver s0) (Fast.results s0)
                           (Fast.failed_tracks s0 ++ [r])
                           (Fast.sessions s0) (Fast.calls s0) (Fast.trace s0)
                    else s0 in
          let completed := Z.of_nat (List.length (Fast.results s1)) in
          let s2 := if completed mod 25 =? 0
                    then Fast.save_progress
                           ("spotify_data_fast_" ++ PyStr.of_Z completed ++ ".csv") s1
                    else s1 in
          let s3 := Fast.minimal_delay s2 in
          (@Returned unit tt,
           if completed mod 500 =? 0
           then Fast.setup_driver (Fast.log (Fast.EvSleep 2) (Fast.driver_quit s3))
           else s3))
         = (Returned tt,
            Fast.mkScraper
              (if Z.of_nat (S (List.length (Fast.results s))) mod 500 =? 0
               then Fast.sessions s else Fast.driver s)
              (Fast.results s ++ [r])
              (Fast.failed_tracks s ++ (if PyStr.contains "Error" c then [r] else []))
              (if Z.of_nat (S (List.length (Fast.results s))) mod 500 =? 0
               then S (Fast.sessions s) else Fast.sessions s)
              (S (Fast.calls s))
              (Fast.trace s ++ evs ++ evs'
                 ++ (if Z.of_nat (S (List.length (Fast.results s))) mod 500 =? 0
                     then [Fast.EvQuit (Fast.driver s); Fast.EvSleep 2;
                           Fast.EvSetupDriver (Fast.sessions s)]
                     else [])))).
  { intros r c evs.
    exists ((if Z.of_nat (S (List.length (Fast.results s))) mod 25 =? 0
             then [Fast.EvSave ("spotify_data_fast_"
                                ++ PyStr.of_Z (Z.of_nat (S (List.length (Fast.results s))))
                                ++ ".csv")
                               (Fast.results s ++ [r])]
             else []) ++ [Fast.EvSleepUniform 0.5 1.5]).
    cbv zeta.
    destruct (PyStr.contains "Error" c);
      cbn [Fast.results]; rewrite Elen;
      destruct (Z.of_nat (S (List.length (Fast.results s))) mod 25 =? 0),
               (Z.of_nat (S (List.length (Fast.results s))) mod 500 =? 0);
      unfold Fast.save_progress, Fast.minimal_delay, Fast.setup_driver,
        Fast.driver_quit, Fast.log;
      cbn [Fast.results Fast.driver Fast.failed_tracks Fast.sessions Fast.calls Fast.trace];
      rewrite ?Hne;
      cbn [Fast.results Fast.driver Fast.failed_tracks Fast.sessions Fast.calls Fast.trace];
      (split; [reflexivity|]); (split; [repeat constructor|]);
      (split; [repeat constructor; try discriminate; apply Hname|]);
      rewrite <- ?app_assoc, ?app_nil_r; cbn [app]; reflexivity. }
  destruct (browser (Fast.calls s) (row_track_id row)) as [[c|] seconds|e].
  - eexists (Fast.mkResult _ _ _ (Some c) _ _),
            [Fast.EvGet (row_track_id row); Fast.EvSleep 1].
    split; [split; reflexivity|]. split; [left; reflexivity|].
    split; [reflexivity|]. split; [repeat constructor|].
    split; [repeat constructor; discriminate|].
    cbv zeta. cbn [Fast.cover_image Fast.error_in].
    apply (Hrest _ c _).
  - eexists (Fast.mkResult _ _ _ None _ _),
            [Fast.EvGet (row_track_id row); Fast.EvSleep 1].
    split; [split; reflexivity|]. split; [left; reflexivity|].
    split; [reflexivity|]. split; [repeat constructor|].
    split; [repeat constructor; discriminate|].
    cbv zeta. cbn [Fast.cover_image Fast.error_in]. eexists. reflexivity.
  - eexists (Fast.mkResult _ _ _ (Some ("Error: " ++ e)%string) _ _),
            [Fast.EvGet (row_track_id row)].
    split; [split; reflexivity|]. split; [right; reflexivity|].
    split; [reflexivity|]. split; [repeat constructor|].
    split; [repeat constructor; discriminate|].
    cbv zeta. cbn [Fast.cover_image Fast.error_in].
    apply (Hrest _ ("Error: " ++ e)%string _).
Qed.

Lemma filter_has_cover_all l :
  forallb has_cover l = true -> filter has_cover l = l.
Proof.
  induction l as [|r l IH]; cbn [forallb filter]; [reflexivity|].
  intros H. apply andb_prop in H. destruct H as (Hr & Hl).
  rewrite Hr, IH by exact Hl. reflexivity.
Qed.

Lemma filter_has_cover_crashed front r :
  forallb has_cover front = true -> Fast.cover_image r = None ->
  filter has_cover (front ++ [r]) = front.
Proof.
  intros Hf Hr. rewrite filter_app, filter_has_cover_all by exact Hf.
  cbn [filter]. unfold has_cover at 1. rewrite Hr. apply app_nil_r.
Qed.

(** One turn of the loop keeps the books, or ends the loop on a cover that
    is [None]. *)
Lemma fast_step_taken browser start_index index row s :
  start_index <= index ->
  fast_books s ->
  fast_lists_agree s ->
  let run := Fast.fast_step browser start_index (index, row) s in
  exists r,
    Fast.results (snd run) = Fast.results s ++ [r]
    /\ Fast.made_for row r
    /\ fast_gets (Fast.trace (snd run)) = fast_gets (Fast.trace s) ++ [row_track_id row]
    /\ fast_lists_agree (snd run)
    /\ fast_disciplined (Fast.trace (snd run)) (Fast.driver (snd run))
    /\ ~ fast_final_saved (Fast.trace (snd run))
    /\ match Fast.cover_image r with
       | Some _ => fst run = Returned tt /\ fast_books (snd run)
       | None =>
           (exists e, fst run = Raised (PyException e))
           /\ Fast.acquire_count (Fast.trace (snd run))
              = (List.length (Fast.results s) / 500 + 1)%nat
       end.
Proof.
  intros Hidx (Hdisc & Hcount & Hcov & Hfin) (Hf & Hl). cbv zeta.
  destruct (fast_step_exact browser start_index index row s Hidx)
    as (r & evs & Hmade & Hlyr & Hgets & Hset & Hnof & H).
  cbv zeta in H. exists r.
  assert (Hacq : forall evs0, Forall (fun ev => Fast.is_setup ev = false) evs0 ->
                   Fast.acquire_count evs0 = 0%nat).
  { induction 1 as [|ev evs0 Hev _ IH]; [reflexivity|].
    unfold Fast.acquire_count in *. cbn [filter]. rewrite Hev. exact IH. }
  assert (Hagree : forall c,
            Fast.cover_image r = c ->
            Fast.failed_tracks s
              ++ (match c with
                  | Some c => if PyStr.contains "Error" c then [r] else []
                  | None => []
                  end)
            = filter fast_error (Fast.results s ++ [r])
            /\ Forall (fun r => Fast.lyrics r = "Skipped for speed"%string
                                \/ fast_error r = true) (Fast.results s ++ [r])).
  { intros c Hc. split.
    - rewrite filter_app, Hf. cbn [filter]. unfold fast_error at 3. rewrite Hc.
      destruct c as [c|]; [destruct (PyStr.contains "Error" c)|]; reflexivity.
    - apply Forall_app. split; [exact Hl|]. constructor; [exact Hlyr|constructor]. }
  destruct (Fast.cover_image r) as [c|] eqn:Ec.
  - destruct H as (evs' & Hgets' & Hset' & Hnof' & E). rewrite E. cbn [fst snd].
    cbn [Fast.results Fast.trace Fast.driver Fast.failed_tracks].
    destruct (Hagree (Some c) eq_refl) as (Ha1 & Ha2).
    assert (Hd : fast_disciplined
                   (Fast.trace s ++ evs ++ evs' ++
                    (if Z.of_nat (S (List.length (Fast.results s))) mod 500 =? 0
                     then [Fast.EvQuit (Fast.driver s); Fast.EvSleep 2;
                           Fast.EvSetupDriver (Fast.sessions s)]
                     else []))
                   (if Z.of_nat (S (List.length (Fast.results s))) mod 500 =? 0
                    then Fast.sessions s else Fast.driver s)).
    { destruct (Z.of_nat (S (List.length (Fast.results s))) mod 500 =? 0).
      - replace (Fast.trace s ++ evs ++ evs' ++
                 [Fast.EvQuit (Fast.driver s); Fast.EvSleep 2;
                  Fast.EvSetupDriver (Fast.sessions s)])
          with (((Fast.trace s ++ evs) ++ evs') ++
                [Fast.EvQuit (Fast.driver s); Fast.EvSleep 2;
                 Fast.EvSetupDriver (Fast.sessions s)])
          by (rewrite <- !app_assoc; reflexivity).
        apply fast_disc_recycle. repeat apply fast_disciplined_others; assumption.
      - rewrite app_nil_r, app_assoc.
        repeat apply fast_disciplined_others; assumption. }
    assert (Hn : ~ fast_final_saved
                   (Fast.trace s ++ evs ++ evs' ++
                    (if Z.of_nat (S (List.length (Fast.results s))) mod 500 =? 0
                     then [Fast.EvQuit (Fast.driver s); Fast.EvSleep 2;
                           Fast.EvSetupDriver (Fast.sessions s)]
                     else []))).
    { apply fast_final_saved_app; [exact Hfin|].
      repeat (apply Forall_app; split); try assumption.
      destruct (Z.of_nat (S (List.length (Fast.results s))) mod 500 =? 0);
        repeat constructor; discriminate. }
    split; [reflexivity|]. split; [exact Hmade|].
    split.
    { rewrite !fast_gets_app, Hgets, Hgets'.
      destruct (Z.of_nat (S (List.length (Fast.results s))) mod 500 =? 0); reflexivity. }
    split; [split; [exact Ha1|exact Ha2]|].
    split; [exact Hd|]. split; [exact Hn|].
    split; [reflexivity|].
    split; [exact Hd|]. split; [|split; [|exact Hn]].
    + cbn [Fast.trace Fast.results].
      rewrite !fast_acquire_count_app, Hcount, (Hacq _ Hset), (Hacq _ Hset').
      rewrite length_app. cbn [List.length].
      replace (List.length (Fast.results s) + 1)%nat
        with (S (List.length (Fast.results s))) by lia.
      rewrite (div_succ 500 (List.length (Fast.results s))) by lia.
      change (Z.of_nat 500) with 500.
      destruct (Z.of_nat (S (List.length (Fast.results s))) mod 500 =? 0); cbn; lia.
    + cbn [Fast.results]. rewrite forallb_app, Hcov. cbn [forallb].
      unfold has_cover. rewrite Ec. reflexivity.
  - destruct H as (e & E). rewrite E. cbn [fst snd].
    cbn [Fast.results Fast.trace Fast.driver Fast.failed_tracks].
    destruct (Hagree None eq_refl) as (Ha1 & Ha2). rewrite app_nil_r in Ha1.
    split; [reflexivity|]. split; [exact Hmade|].
    split; [rewrite fast_gets_app, Hgets; reflexivity|].
    split; [split; [exact Ha1|exact Ha2]|].
    split; [apply fast_disciplined_others; assumption|].
    split; [apply fast_final_saved_app; assumption|].
    split; [eexists; reflexivity|].
    rewrite fast_acquire_count_app, Hcount, (Hacq _ Hset). lia.
Qed.


(** The loop of [fast_scrape], from a scraper whose books are in order: it
    takes the rows from [start_index] on in their order, up to the end or up
    to the first cover that is [None]. *)
Lemma fast_loop browser start_index rows :
  forall i s,
    fast_books s ->
    fast_lists_agree s ->
    let run := Fast.for_rows (Fast.fast_step browser start_index)
                             (iterrows_from i rows) s in
    let rest := skipn (Z.to_nat (start_index - i)) rows in
    fast_lists_agree (snd run)
    /\ fast_disciplined (Fast.trace (snd run)) (Fast.driver (snd run))
    /\ Fast.acquire_count (Fast.trace (snd run))
       = (List.length (filter has_cover (Fast.results (snd run))) / 500 + 1)%nat
    /\ ~ fast_final_saved (Fast.trace (snd run))
    /\ exists k news,
         (k <= List.length rest)%nat
         /\ Fast.results (snd run) = Fast.results s ++ news
         /\ Forall2 Fast.made_for (firstn k rest) news
         /\ fast_gets (Fast.trace (snd run))
            = fast_gets (Fast.trace s) ++ map row_track_id (firstn k rest)
         /\ ((fst run = Returned tt /\ k = List.length rest
              /\ forallb has_cover (Fast.results (snd run)) = true)
             \/ ((exists e, fst run = Raised (PyException e))
                 /\ exists front r,
                      Fast.results (snd run) = front ++ [r]
                      /\ Fast.cover_image r = None
                      /\ forallb has_cover front = true)).
Proof.
  induction rows as [|row rows IH]; intros i s Hb Ha; cbv zeta.
  - cbn [iterrows_from Fast.for_rows fst snd]. rewrite skipn_nil.
    destruct Hb as (Hdisc & Hcount & Hcov & Hfin).
    split; [exact Ha|]. split; [exact Hdisc|].
    split; [rewrite filter_has_cover_all by exact Hcov; exact Hcount|].
    split; [exact Hfin|].
    exists 0%nat, []. cbn [firstn map List.length]. rewrite !app_nil_r.
    split; [lia|]. split; [reflexivity|]. split; [constructor|].
    split; [reflexivity|]. left. auto.
  - cbn [iterrows_from Fast.for_rows].
    destruct (Z.ltb_spec i start_index) as [Hskip|Htake].
    + rewrite fast_step_skipped by exact Hskip.
      specialize (IH (i + 1) s Hb Ha). cbv zeta in IH.
      replace (Z.to_nat (start_index - i))
        with (S (Z.to_nat (start_index - (i + 1)))) by lia.
      exact IH.
    + replace (Z.to_nat (start_index - i)) with 0%nat by lia. cbn [skipn].
      destruct (fast_step_taken browser start_index i row s Htake Hb Ha)
        as (r & Hres & Hmade & Hgets & Hagree & Hdisc & Hfin & Hcase).
      destruct (Fast.fast_step browser start_index (i, row) s) as [o s1].
      cbn [fst snd] in *.
      destruct (Fast.cover_image r) as [c|] eqn:Ec.
      * destruct Hcase as (-> & Hb1).
        specialize (IH (i + 1) s1 Hb1 Hagree). cbv zeta in IH.
        replace (Z.to_nat (start_index - (i + 1))) with 0%nat in IH by lia.
        cbn [skipn] in IH.
        destruct IH as (Ha' & Hd' & Hc' & Hf' & k & news & Hk & Hr' & Hall & Hg' & Hend).
        split; [exact Ha'|]. split; [exact Hd'|]. split; [exact Hc'|].
        split; [exact Hf'|].
        exists (S k), (r :: news). cbn [firstn map List.length].
        split; [lia|].
        split; [rewrite Hr', Hres, <- app_assoc; reflexivity|].
        split; [constructor; assumption|].
        split; [rewrite Hg', Hgets, <- app_assoc; reflexivity|].
        destruct Hend as [(Ho & Ek & Hcov)|Hcrash]; [left|right; exact Hcrash].
        split; [exact Ho|]. split; [congruence|exact Hcov].
      * destruct Hcase as ((e & ->) & Hcount). cbn [fst snd].
        destruct Hb as (_ & _ & Hcov & _).
        split; [exact Hagree|]. split; [exact Hdisc|].
        split.
        { rewrite Hres, (filter_has_cover_crashed _ _ Hcov Ec). exact Hcount. }
        split; [exact Hfin|].
        exists 1%nat, [r]. cbn [firstn map List.length].
        split; [lia|]. split; [exact Hres|].
        split; [constructor; [exact Hmade|constructor]|].
        split; [exact Hgets|].
        right. split; [eexists; reflexivity|].
        exists (Fast.results s), r. auto.
Qed.

Lemma fast_init_books : fast_books Fast.init /\ fast_lists_agree Fast.init.
Proof.
  split; [|split; [reflexivity|constructor]].
  split; [apply fast_disc_first|]. split; [reflexivity|]. split; [reflexivity|].
  intros (rows & [E|[]]). discriminate.
Qed.

(** A whole run of [fast_scrape] on a new scraper. *)
Lemma fast_run browser rows start_index :
  let run := Fast.fast_scrape browser rows start_index Fast.init in
  let rest := skipn (Z.to_nat start_index) rows in
  fast_lists_agree (snd run)
  /\ fast_disciplined (Fast.trace (snd run)) (Fast.driver (snd run))
  /\ Fast.acquire_count (Fast.trace (snd run))
     = (List.length (filter has_cover (Fast.results (snd run))) / 500 + 1)%nat
  /\ exists k,
       (k <= List.length rest)%nat
       /\ Forall2 Fast.made_for (firstn k rest) (Fast.results (snd run))
       /\ fast_gets (Fast.trace (snd run)) = map row_track_id (firstn k rest)
       /\ ((k = List.length rest
            /\ forallb has_cover (Fast.results (snd run)) = true
            /\ match Fast.results (snd run) with
               | [] => fst run = Raised (PyException "division by zero")
               | _ :: _ =>
                   fst run = Returned tt
                   /\ exists tr,
                        Fast.trace (snd run)
                        = tr ++ [Fast.EvSave "spotify_data_fast_final.csv"
                                             (Fast.results (snd run))]
               end)
           \/ ((exists e, fst run = Raised (PyException e))
               /\ fast_crashed (snd run))).
Proof.
  cbv zeta. unfold Fast.fast_scrape, iterrows.
  destruct fast_init_books as (Hb & Ha).
  destruct (fast_loop browser start_index rows 0 Fast.init Hb Ha)
    as (Ha' & Hd' & Hc' & Hf' & k & news & Hk & Hr' & Hall & Hg' & Hend).
  cbv zeta in *. rewrite Z.sub_0_r in *.
  destruct (Fast.for_rows (Fast.fast_step browser start_index)
              (iterrows_from 0 rows) Fast.init) as [o s1].
  cbn [fst snd] in *. cbn [Fast.results Fast.trace Fast.init app fast_gets] in Hr', Hg'.
  subst news.
  destruct Hend as [(-> & Ek & Hcov)|((e & ->) & front & r & Hres & Hr & Hfront)].
  - unfold Fast.save_progress.
    destruct (Fast.results s1) as [|r0 rs] eqn:Er.
    + rewrite ?Er. cbn [fst snd]. rewrite ?Er.
      split; [exact Ha'|]. split; [exact Hd'|]. split; [exact Hc'|].
      exists k. split; [exact Hk|]. split; [exact Hall|].
      split; [exact Hg'|]. left. auto.
    + cbn [Fast.log Fast.results]. rewrite ?Er.
      cbn [Fast.log Fast.results fst snd Fast.trace Fast.driver]. rewrite ?Er.
      split.
      { destruct Ha' as (H1 & H2). split; cbn [Fast.failed_tracks Fast.results];
          rewrite ?Er; assumption. }
      split; [apply fast_disc_other; [exact Hd'|reflexivity]|].
      split.
      { rewrite fast_acquire_count_app, Hc'. cbn. lia. }
      exists k. split; [exact Hk|]. split; [exact Hall|].
      split; [rewrite fast_gets_app, Hg'; cbn; apply app_nil_r|].
      left. split; [exact Ek|]. split; [exact Hcov|].
      split; [reflexivity|]. eexists. reflexivity.
  - cbn [fst snd].
    split; [exact Ha'|]. split; [exact Hd'|]. split; [exact Hc'|].
    exists k. split; [exact Hk|]. split; [exact Hall|].
    split; [exact Hg'|]. right. split; [eexists; reflexivity|].
    exists front, r. auto.
Qed.

(** ** Whole runs *)

(** C5 (as amended).  Over the [n] rows a run is to process, the browser is
    started [n / 300 + 1] times by [production_scrape] when nothing but the
    extractor fails, integer division: once by the constructor and once each
    time the number of results reaches a multiple of 300, and every later
    start comes right after the current browser was quit and a pause of ten
    seconds.  In every run of [fast_scrape] the browser is started
    [c / 500 + 1] times, where [c] is the number of rows the loop got
    through, and every later start comes right after the current browser
    was quit and a pause of two seconds; [c] is [n] unless a cover that is
    [None] raised the [TypeError] that ends the loop. *)
Theorem session_acquisitions ext max_retries rows start_index browser :
  let n := List.length (skipn (Z.to_nat start_index) rows) in
  (exists s' d,
     (init (quiet ext) ;;
      production_scrape (quiet ext) max_retries (Some rows) start_index) fresh
       = (Returned tt, s')
     /\ acquire_count (trace s') = (n / 300 + 1)%nat
     /\ driver s' = Some d
     /\ disciplined (trace s') d)
  /\ (let run := Fast.fast_scrape browser rows start_index Fast.init in
      let c := List.length (filter has_cover (Fast.results (snd run))) in
      Fast.acquire_count (Fast.trace (snd run)) = (c / 500 + 1)%nat
      /\ fast_disciplined (Fast.trace (snd run)) (Fast.driver (snd run))
      /\ ((c = n /\ List.length (Fast.results (snd run)) = n)
          \/ ((c < n)%nat
              /\ (exists e, fst run = Raised (PyException e))
              /\ fast_crashed (snd run)))).
Proof.
  cbv zeta. split.
  - destruct (production_run_quiet ext max_retries rows start_index)
      as (s' & d & E & Hall & Hdrv & Hdisc & Hcount & _).
    exists s', d. rewrite (Forall2_length Hall). auto.
  - destruct (fast_run browser rows start_index)
      as (_ & Hdisc & Hcount & k & Hk & Hall & _ & Hend).
    cbv zeta in *. split; [exact Hcount|]. split; [exact Hdisc|].
    pose proof (Forall2_length Hall) as Hlen.
    rewrite length_firstn, Nat.min_l in Hlen by exact Hk.
    destruct Hend as [(Ek & Hcov & _)|(Hraised & Hcrash)].
    + left. rewrite filter_has_cover_all by exact Hcov. lia.
    + right. split; [|split; assumption].
      destruct Hcrash as (front & r & Hres & Hr & Hfront & _).
      rewrite Hres, (filter_has_cover_crashed _ _ Hfront Hr).
      rewrite Hres, length_app in Hlen. cbn [List.length] in Hlen. lia.
Qed.

(** C5 as the specification words it fails: over one row the browser is
    started once, not [ceil(1/300) + 1 = 2] times. *)
Lemma session_acquisitions_counterexample :
  let s' := snd ((init (quiet always_fine) ;;
                  production_scrape (quiet always_fine) 3 (Some [mkRow "t1" "One"]) 0)
                   fresh) in
  List.length (results s') = 1%nat
  /\ acquire_count (trace s') = 1%nat
  /\ Z.of_nat (acquire_count (trace s')) <> ceil_div 1 300 + 1.
Proof. vm_compute. repeat split; discriminate. Qed.

Lemma nth_error_split_at {A} (l : list A) j x :
  nth_error l j = Some x -> l = firstn j l ++ x :: skipn (S j) l.
Proof.
  revert j. induction l as [|y l IH]; intros [|j] H; cbn in *; try discriminate.
  - congruence.
  - f_equal. apply IH, H.
Qed.

(** C4 (as amended).  When the attempts for a row of a run are exhausted and
    the last of them raised an exception, the entry made of the track id,
    the track name and the text of that exception is in [failed_tracks]
    when the run ends, and the run ends by writing [failed_tracks] to its
    own file.  The entry carries no attempt count. *)
Theorem exhausted_item_recorded ext max_retries rows start_index j row e :
  let w := quiet ext in
  let s_j := snd (for_each (production_step w max_retries start_index)
                           (iterrows (firstn j rows)) 0 at_loop_start) in
  let k := Z.to_nat (Z.max 1 max_retries) in
  nth_error rows j = Some row ->
  start_index <= Z.of_nat j ->
  (forall i, (i < k - 1)%nat ->
     retryable (ext (calls s_j + i)%nat (row_track_id row) (row_track_name row)) = true) ->
  ext (calls s_j + (k - 1))%nat (row_track_id row) (row_track_name row) = Failure e ->
  exists s',
    (init w ;; production_scrape w max_retries (Some rows) start_index) fresh
      = (Returned tt, s')
    /\ In (mkFailed (row_track_id row) (row_track_name row) e) (failed_tracks s')
    /\ exists tr, trace s' = tr ++ [EvSaveFailed (failed_tracks s')].
Proof.
  intros w s_j k Hnth Hidx Hpre Hlast.
  rewrite (bind_returned _ _ _ _ _ (init_quiet ext)).
  unfold production_scrape, read_csv.
  rewrite (bind_returned _ _ _ rows at_loop_start) by reflexivity.
  assert (Hsplit : iterrows rows =
            iterrows_from 0 (firstn j rows)
              ++ (Z.of_nat j, row) :: iterrows_from (Z.of_nat j + 1) (skipn (S j) rows)).
  { unfold iterrows. rewrite (nth_error_split_at rows j row Hnth) at 1.
    rewrite iterrows_from_app. cbn [iterrows_from].
    rewrite firstn_length_le; [reflexivity|].
    apply Nat.lt_le_incl, nth_error_Some. congruence. }
  rewrite Hsplit.
  pose proof at_loop_start_disciplined as Hstart.
  (* the rows before [j] *)
  destruct (production_loop_quiet ext max_retries start_index (firstn j rows) 0 0
              at_loop_start 0%nat eq_refl Hstart)
    as (accj & sj & newsj & dj & Ej & _ & _ & _ & Hdrvj & Hdiscj & _).
  assert (Esj : s_j = sj) by (unfold s_j, w, iterrows; rewrite Ej; reflexivity).
  rewrite Esj in Hpre, Hlast. clear s_j Esj.
  unfold bind at 1. rewrite for_each_app.
  fold w in Ej. rewrite (bind_returned _ _ _ _ _ Ej).
  (* the row at [j] *)
  cbn [for_each].
  destruct (production_step_quiet ext max_retries start_index (Z.of_nat j) row accj sj dj
              Hidx Hdrvj)
    as (r & acc1 & s1 & evs & E1 & _ & Hres1 & Hf1 & Hev & Hshape).
  destruct (production_step_session sj s1 dj r evs Hdiscj Hres1 Hev Hshape)
    as (d1 & Hdrv1 & Hdisc1 & _).
  destruct (retry_exhausted_by_exception ext max_retries
              (row_track_id row) (row_track_name row) 1 sj e) as (sx & Ex & Hfx & _).
  { replace (max_retries - 1 + 1) with max_retries by lia. exact Hpre. }
  { replace (max_retries - 1 + 1) with max_retries by lia. exact Hlast. }
  rewrite Ex in Hf1. cbn [snd] in Hf1. rewrite Hfx in Hf1.
  fold w in E1. rewrite (bind_returned _ _ _ _ _ E1).
  (* the rows after [j] *)
  destruct (production_loop_quiet ext max_retries start_index (skipn (S j) rows)
              (Z.of_nat j + 1) acc1 s1 d1 Hdrv1 Hdisc1)
    as (acc' & s2 & news & d2 & E2 & _ & _ & (fs & Hf2) & _).
  fold w in E2. rewrite E2.
  destruct (production_tail_quiet ext s2) as (s' & Et & _ & Hf' & _ & _ & Hsaved).
  fold w in Et. exists s'. split; [exact Et|].
  assert (Hin : In (mkFailed (row_track_id row) (row_track_name row) e) (failed_tracks s')).
  { rewrite Hf', Hf2, Hf1. apply in_or_app. left. apply in_or_app. right. left. reflexivity. }
  split; [exact Hin|].
  apply Hsaved. intros Hnil. rewrite Hnil in Hin. destruct Hin.
Qed.

(** The theorem above at a row whose three attempts all raise. *)
Lemma exhausted_item_recorded_witness :
  exists s',
    (init (quiet always_raises) ;;
     production_scrape (quiet always_raises) 3 (Some [mkRow "t1" "One"]) 0) fresh
      = (Returned tt, s')
    /\ In (mkFailed "t1" "One" "timeout") (failed_tracks s')
    /\ exists tr, trace s' = tr ++ [EvSaveFailed (failed_tracks s')].
Proof.
  apply (exhausted_item_recorded always_raises 3 [mkRow "t1" "One"] 0 0%nat
           (mkRow "t1" "One") "timeout").
  - reflexivity.
  - lia.
  - intros i Hi. reflexivity.
  - reflexivity.
Defined.

(** C4 as the specification words it fails.  A row whose three attempts
    all return fields with the marker is exhausted and counted as a failure,
    yet [failed_tracks] stays empty and no file of failed tracks is written;
    and the entries made after one attempt and after three are the same, so
    they carry no attempt count. *)
Lemma exhausted_item_recorded_counterexample :
  let run ext max_retries :=
    snd ((init (quiet ext) ;;
          production_scrape (quiet ext) max_retries (Some [mkRow "t1" "One"]) 0) fresh) in
  (calls (run always_marked 3) = 3%nat
   /\ map has_error (results (run always_marked 3)) = [true]
   /\ failed_tracks (run always_marked 3) = []
   /\ existsb is_failed_save (trace (run always_marked 3)) = false)
  /\ (calls (run always_raises 1) = 1%nat
      /\ calls (run always_raises 3) = 3%nat
      /\ failed_tracks (run always_raises 1) = failed_tracks (run always_raises 3)).
Proof. vm_compute. repeat split. Qed.

(** An extractor that raises nothing leaves [failed_tracks] as it is. *)
Lemma retry_records_nothing ext max_retries tid tname :
  (forall n, exists r, ext n tid tname = Extracted r) ->
  forall a s,
    failed_tracks (snd (scrape_track_with_retry (quiet ext) max_retries tid tname a s))
    = failed_tracks s.
Proof.
  intros Hext a. pattern a. apply (attempt_ind max_retries). clear a.
  intros a IH s. rewrite retry_quiet_eq. cbv zeta.
  destruct (Hext (calls s)) as (r & E). rewrite E.
  destruct (has_error r && (a <? max_retries)) eqn:Eb; [|reflexivity].
  apply andb_prop in Eb. destruct Eb as (_ & Hlt). apply Z.ltb_lt in Hlt.
  rewrite (IH Hlt). reflexivity.
Qed.

Lemma loop_records_nothing ext max_retries start_index rows :
  (forall n tid tname, exists r, ext n tid tname = Extracted r) ->
  forall i acc s d,
    driver s = Some d ->
    failed_tracks
      (snd (for_each (production_step (quiet ext) max_retries start_index)
                     (iterrows_from i rows) acc s))
    = failed_tracks s.
Proof.
  intros Hext. induction rows as [|row rest IH]; intros i acc s d Hdrv.
  - reflexivity.
  - cbn [iterrows_from for_each].
    destruct (Z.ltb_spec i start_index) as [Hskip|Htake].
    + rewrite (bind_returned _ _ s acc s).
      2:{ unfold production_step. rewrite (proj2 (Z.ltb_lt i start_index) Hskip).
          reflexivity. }
      apply (IH _ _ _ d Hdrv).
    + destruct (production_step_quiet ext max_retries start_index i row acc s d
                  Htake Hdrv)
        as (r & acc1 & s1 & evs & E1 & _ & _ & Hf1 & _ & Hshape).
      rewrite (bind_returned _ _ _ _ _ E1).
      rewrite retry_records_nothing in Hf1 by (intros n; apply Hext).
      assert (Hd1 : exists d1, driver s1 = Some d1).
      { destruct (Z.of_nat (S (List.length (results s))) mod 300 =? 0);
          destruct Hshape as (_ & Hd1 & _); eauto. }
      destruct Hd1 as (d1 & Hd1).
      rewrite (IH _ _ _ d1 Hd1). exact Hf1.
Qed.

(** With the [scrape_track] the production scraper inherits, which raises
    nothing, the branch that records a failed track is never taken: a run
    leaves [failed_tracks] empty whatever the pages are. *)
Remark inherited_extractor_records_nothing page max_retries rows start_index :
  let ext := base_scrape_track page in
  failed_tracks
    (snd ((init (quiet ext) ;;
           production_scrape (quiet ext) max_retries (Some rows) start_index) fresh))
  = [].
Proof.
  cbv zeta.
  rewrite (bind_returned _ _ _ _ _ (init_quiet _)).
  unfold production_scrape, read_csv.
  rewrite (bind_returned _ _ _ rows at_loop_start) by reflexivity.
  pose proof (loop_records_nothing (base_scrape_track page) max_retries start_index rows)
    as Hloop.
  specialize (Hloop (fun n tid tname => ltac:(unfold base_scrape_track;
                       destruct (page n tid); eauto)) 0 0 at_loop_start 0%nat eq_refl).
  destruct (production_loop_quiet (base_scrape_track page) max_retries start_index rows
              0 0 at_loop_start 0%nat eq_refl at_loop_start_disciplined)
    as (acc & s1 & _ & _ & E & _).
  unfold iterrows. rewrite E in Hloop. cbn [snd] in Hloop.
  rewrite (bind_returned _ _ _ _ _ E).
  destruct (production_tail_quiet (base_scrape_track page) s1) as (s' & Et & _ & Hf' & _).
  rewrite Et. cbn [snd]. rewrite Hf', Hloop. reflexivity.
Qed.

(** ** Runs that are cut short *)

Lemma live_after_app alive tr1 tr2 :
  live_after alive (tr1 ++ tr2) = live_after (live_after alive tr1) tr2.
Proof.
  revert alive. induction tr1 as [|ev tr1 IH]; intros alive; [reflexivity|].
  destruct ev; cbn [app live_after]; apply IH.
Qed.

Lemma live_after_others alive evs :
  Forall (fun ev => is_session ev = false) evs -> live_after alive evs = alive.
Proof.
  induction 1 as [|ev evs Hev _ IH]; [reflexivity|].
  destruct ev; cbn in *; try discriminate; exact IH.
Qed.

Lemma live_app_others tr evs :
  Forall (fun ev => is_session ev = false) evs -> live (tr ++ evs) = live tr.
Proof.
  intros H. unfold live. rewrite live_after_app. apply live_after_others, H.
Qed.

Lemma remove_all_equal d l :
  (forall x, In x l -> x = d) -> remove Nat.eq_dec d l = [].
Proof.
  induction l as [|x l IH]; intros H; [reflexivity|].
  cbn. destruct (Nat.eq_dec d x) as [_|Hne].
  - apply IH. intros y Hy. apply H. right. exact Hy.
  - exfalso. apply Hne. symmetry. apply H. left. reflexivity.
Qed.

Lemma live_quit tr d :
  (forall x, In x (live tr) -> x = d) -> live (tr ++ [EvQuit d]) = [].
Proof.
  intros H. unfold live. rewrite live_after_app. cbn [live_after].
  apply remove_all_equal, H.
Qed.

Lemma live_setup tr n : live (tr ++ [EvSetupDriver n]) = live tr ++ [n].
Proof. unfold live. rewrite live_after_app. reflexivity. Qed.

Lemma session_frame_refl s : session_frame s s.
Proof.
  split; [reflexivity|]. exists []. split; [symmetry; apply app_nil_r | constructor].
Qed.

Lemma session_frame_trans s1 s2 s3 :
  session_frame s1 s2 -> session_frame s2 s3 -> session_frame s1 s3.
Proof.
  intros (Hd & evs & Ht & Hev) (Hd' & evs' & Ht' & Hev').
  split; [congruence|]. exists (evs ++ evs'). split.
  - rewrite Ht', Ht, app_assoc. reflexivity.
  - apply Forall_app. split; assumption.
Qed.

Lemma frame_session_frame s s' : frame s s' -> session_frame s s'.
Proof. intros (Hd & _ & _ & _ & Hev). split; assumption. Qed.

Lemma one_session_stable s s' : session_frame s s' -> one_session s -> one_session s'.
Proof.
  intros (Hd & evs & Ht & Hev) ((d & Hdrv) & Hlive).
  split; [exists d; congruence|].
  intros x Hx. rewrite Ht, live_app_others in Hx by exact Hev.
  rewrite Hd. apply Hlive, Hx.
Qed.

Lemma released_stable s s' : session_frame s s' -> released s -> released s'.
Proof.
  intros (Hd & evs & Ht & Hev) ((d & Hdrv) & Hlive).
  split; [exists d; congruence|].
  rewrite Ht, live_app_others by exact Hev. exact Hlive.
Qed.

Lemma released_one_session s : released s -> one_session s.
Proof.
  intros (Hd & Hlive). split; [exact Hd|]. rewrite Hlive. intros x [].
Qed.

Lemma calmly_ret {A} (a : A) : calmly (ret a).
Proof. intros s. apply session_frame_refl. Qed.

Lemma calmly_raise {A} e : calmly (@raise A e).
Proof. intros s. apply session_frame_refl. Qed.

Lemma calmly_bind {A B} (m : M A) (k : A -> M B) :
  calmly m -> (forall a, calmly (k a)) -> calmly (bind m k).
Proof.
  intros Hm Hk s. unfold bind. specialize (Hm s).
  destruct (m s) as [[a|e] s1]; cbn [snd] in *.
  - eapply session_frame_trans; [exact Hm | apply Hk].
  - exact Hm.
Qed.

Lemma calmly_when b m : calmly m -> calmly (when b m).
Proof. intros H. destruct b; [exact H | apply calmly_ret]. Qed.

Lemma calmly_preserves {A} (m : M A) : preserves m -> calmly m.
Proof. intros H s. apply frame_session_frame, H. Qed.

Lemma calmly_effect w ev : is_session ev = false -> calmly (effect w ev).
Proof. intros H. apply calmly_preserves, preserves_effect, H. Qed.

Lemma calmly_results_append r : calmly (results_append r).
Proof.
  intros s. split; [reflexivity|].
  exists []. split; [symmetry; apply app_nil_r | constructor].
Qed.

Lemma calmly_len_results : calmly len_results.
Proof. intros s. apply session_frame_refl. Qed.

Lemma calmly_save_progress w filename : calmly (save_progress w filename).
Proof.
  intros s. unfold save_progress.
  destruct (results s); [apply session_frame_refl|].
  apply calmly_effect. reflexivity.
Qed.

Lemma calmly_save_failed_tracks w : calmly (save_failed_tracks w).
Proof.
  intros s. unfold save_failed_tracks.
  destruct (failed_tracks s); [apply session_frame_refl|].
  apply calmly_effect. reflexivity.
Qed.

Lemma calmly_adaptive_delay w rate lo hi : calmly (adaptive_delay w rate lo hi).
Proof.
  unfold adaptive_delay. destruct (adaptive_range rate lo hi).
  apply calmly_effect. reflexivity.
Qed.

Lemma calmly_read_csv w csv : calmly (read_csv w csv).
Proof.
  unfold read_csv. apply calmly_bind; [apply calmly_effect; reflexivity|].
  intros _. destruct csv; [apply calmly_ret | apply calmly_raise].
Qed.

Lemma keeps_calmly {A} (I : scraper -> Prop) (m : M A) :
  (forall s s', session_frame s s' -> I s -> I s') -> calmly m -> keeps I m.
Proof. intros Hst Hm s Hs. exact (Hst _ _ (Hm s) Hs). Qed.

Lemma keeps_bind {A B} (I : scraper -> Prop) (m : M A) (k : A -> M B) :
  keeps I m -> (forall a, keeps I (k a)) -> keeps I (bind m k).
Proof.
  intros Hm Hk s Hs. unfold bind. specialize (Hm s Hs).
  destruct (m s) as [[a|e] s1]; cbn [snd] in *; [apply Hk|]; exact Hm.
Qed.

Lemma keeps_for_each {X A} (I : scraper -> Prop) (body : X -> A -> M A) xs :
  (forall x acc, keeps I (body x acc)) -> forall acc, keeps I (for_each body xs acc).
Proof.
  intros Hbody. induction xs as [|x xs IH]; intros acc.
  - intros s Hs. exact Hs.
  - cbn [for_each]. apply keeps_bind; [apply Hbody | exact IH].
Qed.

(** The restart keeps a single browser, wherever it is cut short. *)
Lemma keeps_restart_browser w : keeps one_session (restart_browser w).
Proof.
  intros s ((d & Hdrv) & Hlive).
  assert (Hone : one_session s) by (split; eauto).
  unfold restart_browser, bind, driver_quit. rewrite Hdrv.
  unfold effect at 1.
  destruct (fault w (clock s)) as [e|] eqn:F1; cbn [snd].
  { eapply one_session_stable; [|exact Hone].
    apply frame_session_frame, frame_tick. }
  assert (Hrel : released (log (EvQuit d) (tick s))).
  { split; [exists d; exact Hdrv|]. cbn [log tick trace].
    apply live_quit. intros x Hx. specialize (Hlive x Hx). congruence. }
  pose proof (calmly_effect w (EvSleep 10) eq_refl (log (EvQuit d) (tick s))) as Hsl.
  unfold sleep.
  destruct (effect w (EvSleep 10) (log (EvQuit d) (tick s))) as [[[]|e] s2];
    cbn [snd] in *.
  2:{ apply released_one_session. eapply released_stable; eassumption. }
  pose proof (released_stable _ _ Hsl Hrel) as ((d2 & Hd2) & Hlive2).
  unfold setup_driver.
  destruct (fault w (clock s2)) as [e|] eqn:F2; cbn [snd].
  { apply released_one_session. eapply released_stable.
    - apply frame_session_frame, frame_tick.
    - split; eauto. }
  set (s3 := mkScraper (Some (sessions s2)) (results s2) (failed_tracks s2)
                       (S (sessions s2)) (calls s2) (S (clock s2))
                       (trace s2 ++ [EvSetupDriver (sessions s2)])).
  assert (H3 : one_session s3).
  { split; [eexists; reflexivity|]. cbn [trace driver s3].
    rewrite live_setup, Hlive2. intros x [<-|[]]. reflexivity. }
  pose proof (calmly_effect w EvExecuteScript eq_refl s3) as H4.
  destruct (effect w EvExecuteScript s3) as [[[]|e] s4]; cbn [snd] in *.
  - eapply one_session_stable; [apply (calmly_effect w (EvSleep 5) eq_refl)|].
    eapply one_session_stable; eassumption.
  - eapply one_session_stable; eassumption.
Qed.

Lemma keeps_production_step w max_retries start_index ir acc :
  keeps one_session (production_step w max_retries start_index ir acc).
Proof.
  destruct ir as [index row]. unfold production_step.
  destruct (index <? start_index).
  { intros s Hs. exact Hs. }
  pose proof one_session_stable as St.
  apply keeps_bind.
  { apply keeps_calmly; [exact St|]. intros s.
    apply calmly_preserves, preserves_retry. }
  intros r. apply keeps_bind; [apply keeps_calmly; [exact St | apply calmly_results_append]|].
  intros _. apply keeps_bind; [apply keeps_calmly; [exact St | apply calmly_len_results]|].
  intros completed.
  apply keeps_bind; [apply keeps_calmly; [exact St | apply calmly_adaptive_delay]|].
  intros _. apply keeps_bind.
  { apply keeps_calmly; [exact St|]. apply calmly_when, calmly_save_progress. }
  intros _. apply keeps_bind.
  { apply keeps_calmly; [exact St|]. apply calmly_when, calmly_effect. reflexivity. }
  intros _. apply keeps_bind.
  { destruct (completed mod 300 =? 0); [apply keeps_restart_browser|].
    intros s Hs. exact Hs. }
  intros _ s Hs. exact Hs.
Qed.

Lemma keeps_production_scrape w max_retries csv start_index :
  keeps one_session (production_scrape w max_retries csv start_index).
Proof.
  pose proof one_session_stable as St.
  unfold production_scrape.
  apply keeps_bind; [apply keeps_calmly; [exact St | apply calmly_read_csv]|].
  intros df. apply keeps_bind.
  { apply keeps_for_each. intros x acc. apply keeps_production_step. }
  intros _. apply keeps_bind.
  { apply keeps_calmly; [exact St | apply calmly_save_progress]. }
  intros _. apply keeps_calmly; [exact St | apply calmly_save_failed_tracks].
Qed.

Lemma last_saved_from_app seen tr1 tr2 :
  last_saved_from seen (tr1 ++ tr2) = last_saved_from (last_saved_from seen tr1) tr2.
Proof.
  revert seen. induction tr1 as [|ev tr1 IH]; intros seen; [reflexivity|].
  destruct ev; cbn [app last_saved_from]; apply IH.
Qed.

Lemma last_saved_app tr1 tr2 :
  last_saved (tr1 ++ tr2) = last_saved_from (last_saved tr1) tr2.
Proof. apply last_saved_from_app. Qed.

Lemma bind_inv {A B} (m : M A) (k : A -> M B) s b s' :
  bind m k s = (Returned b, s') ->
  exists a s1, m s = (Returned a, s1) /\ k a s1 = (Returned b, s').
Proof.
  unfold bind. destruct (m s) as [[a|e] s1]; intros H; [eauto | discriminate].
Qed.

(** A save that came back has put all results on the disk. *)
Lemma save_progress_returned w filename s s' :
  save_progress w filename s = (Returned tt, s') ->
  results s' = results s
  /\ (results s <> [] -> last_saved (trace s') = Some (results s)).
Proof.
  unfold save_progress. destruct (results s) as [|r rs] eqn:Er.
  - intros H. injection H as <-. split; [exact Er | congruence].
  - unfold effect. destruct (fault w (clock s)); [discriminate|].
    intros H. injection H as <-. cbn [results log tick trace].
    split; [exact Er|]. intros _. rewrite last_saved_app. reflexivity.
Qed.

Lemma save_failed_tracks_returned w s s' :
  save_failed_tracks w s = (Returned tt, s') ->
  results s' = results s /\ last_saved (trace s') = last_saved (trace s).
Proof.
  unfold save_failed_tracks. destruct (failed_tracks s).
  - intros H. injection H as <-. split; reflexivity.
  - unfold effect. destruct (fault w (clock s)); [discriminate|].
    intros H. injection H as <-. cbn [results log tick trace].
    split; [reflexivity|]. rewrite last_saved_app. reflexivity.
Qed.

(** A run of [production_scrape] that came back has saved all its results. *)
Lemma production_scrape_returned w max_retries csv start_index s s' :
  production_scrape w max_retries csv start_index s = (Returned tt, s') ->
  results s' <> [] -> last_saved (trace s') = Some (results s').
Proof.
  unfold production_scrape. intros H.
  apply bind_inv in H. destruct H as (df & s1 & _ & H).
  apply bind_inv in H. destruct H as (acc & s2 & _ & H).
  apply bind_inv in H. destruct H as ([] & s3 & Hsave & H).
  apply save_progress_returned in Hsave. destruct Hsave as (Hr3 & Hs3).
  apply save_failed_tracks_returned in H. destruct H as (Hr' & Hs').
  intros Hne. rewrite Hs', Hr', Hr3. apply Hs3. congruence.
Qed.

Lemma save_progress_calm w filename s :
  let s' := snd (save_progress (calm w) filename s) in
  session_frame s s'
  /\ results s' = results s
  /\ (results s <> [] -> last_saved (trace s') = Some (results s)).
Proof.
  cbv zeta. split; [apply calmly_save_progress|].
  unfold save_progress, calm. destruct (results s) as [|r rs] eqn:Er.
  - cbn [snd]. split; [exact Er | congruence].
  - rewrite effect_quiet. cbn [snd results log tick trace].
    split; [exact Er|]. intros _. rewrite last_saved_app. reflexivity.
Qed.

Lemma init_returned w s0 :
  init w fresh = (Returned tt, s0) ->
  s0 = mkScraper (Some 0%nat) [] [] 1 0 2 [EvSetupDriver 0; EvExecuteScript].
Proof.
  unfold init, setup_driver, effect. cbn.
  destruct (fault w 0%nat); [discriminate|].
  destruct (fault w 1%nat); [discriminate|].
  intros H. injection H as <-. reflexivity.
Qed.

(** A save that is not cut short puts all results on the disk; one that is
    cut short writes nothing. *)
Lemma save_progress_any w filename s :
  let s' := snd (save_progress w filename s) in
  session_frame s s'
  /\ results s' = results s
  /\ (fault w (clock s) = None ->
      results s <> [] -> last_saved (trace s') = Some (results s)).
Proof.
  cbv zeta. split; [apply calmly_save_progress|].
  unfold save_progress. destruct (results s) as [|r rs] eqn:Er.
  - cbn [snd]. split; [exact Er|]. intros _ H. contradiction H. reflexivity.
  - unfold effect. destruct (fault w (clock s)) as [e|]; cbn [snd results log tick trace].
    + split; [exact Er|]. discriminate.
    + split; [exact Er|]. intros _ _. rewrite last_saved_app. reflexivity.
Qed.

(** The [try] of [main] with its handlers, wherever it is cut short: the
    scraper holds one browser, the results are those the body gathered, and
    they are on the disk when the body came back or the save of the handler
    was not cut short. *)
Lemma main_guarded_any w csv s0 :
  init w fresh = (Returned tt, s0) ->
  let tried := main_try w csv s0 in
  let guarded := main_guarded w csv s0 in
  one_session (snd guarded)
  /\ results (snd guarded) = results (snd tried)
  /\ ((forall e, fst tried = Raised e -> fault w (clock (snd tried)) = None) ->
      results (snd guarded) <> [] ->
      last_saved (trace (snd guarded)) = Some (results (snd guarded))).
Proof.
  intros Hinit. cbv zeta.
  assert (H0 : one_session s0).
  { rewrite (init_returned w s0 Hinit).
    split; [eexists; reflexivity|]. intros d [<-|[]]. reflexivity. }
  assert (Hbody : one_session (snd (main_try w csv s0))
                  /\ (forall s1, main_try w csv s0 = (Returned tt, s1) ->
                        results s1 <> [] -> last_saved (trace s1) = Some (results s1))).
  { unfold main_try. destruct csv as [rows|].
    - split; [apply keeps_production_scrape, H0|].
      intros s1. apply production_scrape_returned.
    - split; [exact H0|].
      intros s1 H. injection H as <-. rewrite (init_returned w s0 Hinit).
      intros Hne. contradiction Hne. reflexivity. }
  destruct Hbody as (Hone1 & Hsaved1).
  unfold main_guarded.
  destruct (main_try w csv s0) as [[[]|[|msg]] s1]; cbn [fst snd] in *.
  - split; [exact Hone1|]. split; [reflexivity|]. intros _. apply Hsaved1. reflexivity.
  - destruct (save_progress_any w "spotify_data_interrupted.csv" s1) as (Hf & Hr & Hs).
    split; [eapply one_session_stable; eassumption|]. split; [exact Hr|].
    intros Hcut. rewrite Hr. apply Hs. eapply Hcut. reflexivity.
  - destruct (save_progress_any w "spotify_data_error.csv" s1) as (Hf & Hr & Hs).
    split; [eapply one_session_stable; eassumption|]. split; [exact Hr|].
    intros Hcut. rewrite Hr. apply Hs. eapply Hcut. reflexivity.
Qed.

(** C8 (as amended).  Once the scraper is built, however [main] ends -- the
    run came back, an exception came up or the operator interrupted, at any
    of the calls that leave the interpreter -- the last thing [main] does is
    to quit the browser the scraper holds, which is the only one alive; the
    results are those gathered by then.  When that call is not cut short, no
    browser is left alive.  When the run came back, or the save of the
    handler that caught its exception was not cut short, the results are the
    rows of the results file written last. *)
Theorem main_releases_and_saves w csv s0 :
  init w fresh = (Returned tt, s0) ->
  let tried := main_try w csv s0 in
  let guarded := main_guarded w csv s0 in
  let s := snd (main w csv) in
  (exists d,
     driver (snd guarded) = Some d
     /\ (forall x, In x (live (trace (snd guarded))) -> x = d)
     /\ s = snd (effect w (EvQuit d) (snd guarded))
     /\ (fault w (clock (snd guarded)) = None ->
         live (trace s) = []
         /\ driver s = Some d
         /\ trace s = trace (snd guarded) ++ [EvQuit d]))
  /\ results s = results (snd tried)
  /\ ((forall e, fst tried = Raised e -> fault w (clock (snd tried)) = None) ->
      results s <> [] -> last_saved (trace s) = Some (results s)).
Proof.
  intros Hinit. cbv zeta.
  destruct (main_guarded_any w csv s0 Hinit) as (((d & Hdrv) & Hlive) & Hres & Hsaved).
  cbv zeta in *.
  unfold main. rewrite (bind_returned _ _ _ _ _ Hinit).
  unfold try_finally.
  destruct (main_guarded w csv s0) as [r2 s2]. cbn [fst snd] in *.
  assert (Hlive' : forall x, In x (live (trace s2)) -> x = d).
  { intros x Hx. specialize (Hlive x Hx). congruence. }
  assert (Eclose : snd (let (o, s'') := close w s2 in
                        match o with
                        | Returned _ => (r2, s'')
                        | Raised e => (Raised e, s'')
                        end)
                   = snd (effect w (EvQuit d) s2)).
  { unfold close. rewrite Hdrv.
    destruct (effect w (EvQuit d) s2) as [[[]|e] s3]; reflexivity. }
  rewrite Eclose. clear Eclose.
  unfold effect. destruct (fault w (clock s2)) as [e|] eqn:F;
    cbn [snd trace results driver log tick].
  - split; [|split; [exact Hres|]].
    + exists d. split; [exact Hdrv|]. split; [exact Hlive'|]. split; [reflexivity|].
      discriminate.
    + exact Hsaved.
  - split; [|split; [exact Hres|]].
    + exists d. split; [exact Hdrv|]. split; [exact Hlive'|]. split; [reflexivity|].
      intros _. split; [apply live_quit, Hlive'|]. split; [exact Hdrv|reflexivity].
    + intros Hcut Hne. rewrite last_saved_app. cbn [last_saved_from].
      apply Hsaved; assumption.
Qed.

(** The theorem of C8 at a run of two rows that the operator interrupts
    while the second is scraped, with nothing else cut short. *)
Lemma main_releases_and_saves_witness :
  let w := mkWorld always_fine
             (fun n => if Nat.eqb n 5 then Some KeyboardInterrupt else None) in
  let s := snd (main w (Some [mkRow "t1" "One"; mkRow "t2" "Two"])) in
  List.length (results s) = 1%nat
  /\ live (trace s) = []
  /\ last_saved (trace s) = Some (results s).
Proof.
  cbv zeta.
  pose proof (main_releases_and_saves
                (mkWorld always_fine
                   (fun n => if Nat.eqb n 5 then Some KeyboardInterrupt else None))
                (Some [mkRow "t1" "One"; mkRow "t2" "Two"]) _ eq_refl) as H.
  cbv zeta in H. destruct H as ((d & _ & _ & _ & Hquit) & _ & Hsaved).
  split; [reflexivity|]. split; [apply Hquit; reflexivity|].
  apply Hsaved; [intros e _; reflexivity|vm_compute; discriminate].
Defined.

(** C8 as the specification words it fails.  In the first run the operator
    interrupts while the second row is scraped and the disk refuses the file
    of the handler: the scraper has a result, and no results file was
    written.  In the second the browser cannot be reached when [close]
    quits it: it is left alive.  In the third the constructor, which stands
    before the [try], is cut short between the start of the browser and the
    end of its set-up: [main] has no scraper to close, and the browser is
    left alive. *)
Lemma main_releases_and_saves_counterexample :
  (let w := mkWorld always_fine
              (fun n => if Nat.eqb n 5 then Some KeyboardInterrupt
                        else if Nat.eqb n 6
                             then Some (PyException "No space left on device")
                             else None) in
   let s := snd (main w (Some [mkRow "t1" "One"; mkRow "t2" "Two"])) in
   List.length (results s) = 1%nat
   /\ saved_files (trace s) = []
   /\ last_saved (trace s) <> Some (results s))
  /\ (let w := mkWorld always_fine
                 (fun n => if Nat.eqb n 5 then Some KeyboardInterrupt
                           else if Nat.eqb n 7
                                then Some (PyException "chrome not reachable")
                                else None) in
      let s := snd (main w (Some [mkRow "t1" "One"; mkRow "t2" "Two"])) in
      live (trace s) = [0%nat]
      /\ Forall (fun ev => is_session ev = true -> ev = EvSetupDriver 0) (trace s))
  /\ (let w := mkWorld always_fine
                 (fun n => if Nat.eqb n 1 then Some (PyException "script") else None) in
      main w (Some [mkRow "t1" "One"])
      = (Raised (PyException "script"),
         mkScraper (Some 0%nat) [] [] 1 0 2 [EvSetupDriver 0])
      /\ live (trace (snd (main w (Some [mkRow "t1" "One"])))) = [0%nat]).
Proof.
  vm_compute. repeat split; try discriminate.
  repeat constructor; discriminate.
Qed.

(** ** The loop of [add_lyrics_to_csv] *)

Lemma set_at_length rows j f : List.length (Lyrics.set_at rows j f) = List.length rows.
Proof.
  revert j. induction rows as [|r rows IH]; intros [|j]; cbn; auto.
Qed.

Lemma set_at_other rows j f k :
  k <> j -> nth_error (Lyrics.set_at rows j f) k = nth_error rows k.
Proof.
  revert j k. induction rows as [|r rows IH]; intros [|j] [|k] H; cbn; auto.
  congruence.
Qed.

Section LyricsLoop.

Variable extract_full_lyrics : nat -> string -> string -> string.
Variable elapsed : nat -> Q.
Variable start_index : Z.

Local Abbreviation step := (Lyrics.add_lyrics_step extract_full_lyrics elapsed start_index).

Lemma lyrics_step_kept s i r :
  Lyrics.needs_lyrics start_index (i, r) = false -> step s (i, r) = s.
Proof.
  unfold Lyrics.needs_lyrics, Lyrics.add_lyrics_step. cbn [fst snd].
  destruct (i <? start_index); [reflexivity|].
  destruct (Lyrics.has_lyrics r); [reflexivity | discriminate].
Qed.

Lemma lyrics_step_taken s i r :
  Lyrics.needs_lyrics start_index (i, r) = true ->
  exists f,
    Lyrics.df (step s (i, r)) = Lyrics.set_at (Lyrics.df s) (Z.to_nat i) f
    /\ Lyrics.calls (step s (i, r)) = S (Lyrics.calls s).
Proof.
  unfold Lyrics.needs_lyrics, Lyrics.add_lyrics_step. cbn [fst snd].
  destruct (i <? start_index); [discriminate|].
  destruct (Lyrics.has_lyrics r); [discriminate|]. intros _.
  eexists.
  destruct ((Lyrics.total_processed s + 1) mod 10 =? 0),
           ((Lyrics.total_processed s + 1) mod 100 =? 0);
    cbn; split; reflexivity.
Qed.

Lemma lyrics_loop rows :
  forall i s,
    0 <= i ->
    let s' := fold_left step (iterrows_from i rows) s in
    List.length (Lyrics.df s') = List.length (Lyrics.df s)
    /\ Lyrics.calls s'
       = (Lyrics.calls s
          + List.length (filter (Lyrics.needs_lyrics start_index) (iterrows_from i rows)))%nat
    /\ forall k,
         (forall r, i <= Z.of_nat k ->
                    nth_error rows (Z.to_nat (Z.of_nat k - i)) = Some r ->
                    Lyrics.needs_lyrics start_index (Z.of_nat k, r) = false) ->
         nth_error (Lyrics.df s') k = nth_error (Lyrics.df s) k.
Proof.
  induction rows as [|r rest IH]; intros i s Hi; cbv zeta.
  - cbn. repeat split; auto.
  - cbn [iterrows_from fold_left filter].
    destruct (IH (i + 1) (step s (i, r)) ltac:(lia)) as (Hlen & Hcalls & Hkeep).
    cbv zeta in *.
    assert (Hrest : forall k,
      (forall r0, i <= Z.of_nat k ->
                  nth_error (r :: rest) (Z.to_nat (Z.of_nat k - i)) = Some r0 ->
                  Lyrics.needs_lyrics start_index (Z.of_nat k, r0) = false) ->
      forall r0, i + 1 <= Z.of_nat k ->
                 nth_error rest (Z.to_nat (Z.of_nat k - (i + 1))) = Some r0 ->
                 Lyrics.needs_lyrics start_index (Z.of_nat k, r0) = false).
    { intros k H r0 Hk Hn. apply H; [lia|].
      replace (Z.to_nat (Z.of_nat k - i)) with (S (Z.to_nat (Z.of_nat k - (i + 1)))) by lia.
      exact Hn. }
    destruct (Lyrics.needs_lyrics start_index (i, r)) eqn:En.
    + destruct (lyrics_step_taken s i r En) as (f & Edf & Ecalls).
      rewrite Hlen, Hcalls, Edf, Ecalls, set_at_length. cbn [List.length].
      split; [reflexivity|]. split; [lia|].
      intros k H. rewrite (Hkeep k (Hrest k H)), Edf.
      apply set_at_other. intros ->.
      specialize (H r ltac:(lia)).
      rewrite Z2Nat.id, Z.sub_diag in H by lia.
      specialize (H eq_refl). congruence.
    + rewrite (lyrics_step_kept s i r En) in *.
      split; [exact Hlen|]. split; [exact Hcalls|].
      intros k H. apply Hkeep, Hrest, H.
Qed.

End LyricsLoop.

Lemma placeholder_spec l :
  Lyrics.placeholder l = false <->
  l <> "Skipped for speed"%string /\ l <> "No lyrics available"%string.
Proof.
  unfold Lyrics.placeholder. rewrite orb_false_iff, !String.eqb_neq. reflexivity.
Qed.

(** C10.  A row that already has lyrics, other than one of the two
    placeholders, comes out of [add_lyrics_to_csv] as it went in and no
    extraction is made for it; a row that comes out changed had no lyrics or
    a placeholder, and lies at or after [start_index]. *)
Theorem lyrics_rows_untouched extract_full_lyrics elapsed input start_index max_tracks :
  let frame := Lyrics.loaded input start_index max_tracks in
  let final := Lyrics.add_lyrics_to_csv extract_full_lyrics elapsed
                 input start_index max_tracks in
  List.length (Lyrics.df final) = List.length frame
  /\ (forall i r l,
        nth_error frame i = Some r ->
        Lyrics.lyrics r = Some l ->
        l <> "Skipped for speed"%string ->
        l <> "No lyrics available"%string ->
        nth_error (Lyrics.df final) i = Some r)
  /\ (forall i r r',
        nth_error frame i = Some r ->
        nth_error (Lyrics.df final) i = Some r' ->
        r' <> r ->
        start_index <= Z.of_nat i
        /\ (Lyrics.lyrics r = None
            \/ Lyrics.lyrics r = Some "Skipped for speed"%string
            \/ Lyrics.lyrics r = Some "No lyrics available"%string))
  /\ Lyrics.calls final
     = List.length (filter (Lyrics.needs_lyrics start_index) (iterrows frame)).
Proof.
  cbv zeta. unfold Lyrics.add_lyrics_to_csv. cbn [Lyrics.df Lyrics.log Lyrics.calls].
  set (frame := Lyrics.loaded input start_index max_tracks).
  destruct (lyrics_loop extract_full_lyrics elapsed start_index frame 0
              (Lyrics.mkState frame 0 0 0 []) ltac:(lia))
    as (Hlen & Hcalls & Hkeep).
  cbv zeta in *. fold (iterrows frame) in *.
  cbn [Lyrics.df Lyrics.calls] in *.
  assert (Hsame : forall i r,
            nth_error frame i = Some r ->
            Lyrics.needs_lyrics start_index (Z.of_nat i, r) = false ->
            nth_error
              (Lyrics.df (fold_left
                 (Lyrics.add_lyrics_step extract_full_lyrics elapsed start_index)
                 (iterrows frame) (Lyrics.mkState frame 0 0 0 []))) i = Some r).
  { intros i r Hn Hneed. rewrite Hkeep; [exact Hn|].
    intros r0 _ Hn0. rewrite Z.sub_0_r, Nat2Z.id in Hn0. congruence. }
  split; [exact Hlen|]. split; [|split; [|exact Hcalls]].
  - intros i r l Hn Hl H1 H2. apply Hsame; [exact Hn|].
    unfold Lyrics.needs_lyrics, Lyrics.has_lyrics. cbn [fst snd]. rewrite Hl.
    rewrite (proj2 (placeholder_spec l) (conj H1 H2)). cbn.
    apply andb_false_r.
  - intros i r r' Hn Hout Hdiff.
    destruct (Lyrics.needs_lyrics start_index (Z.of_nat i, r)) eqn:En.
    + unfold Lyrics.needs_lyrics in En. cbn [fst snd] in En.
      apply andb_prop in En. destruct En as (Hge & Hno).
      apply negb_true_iff in Hge, Hno. apply Z.ltb_ge in Hge.
      split; [exact Hge|].
      unfold Lyrics.has_lyrics in Hno.
      destruct (Lyrics.lyrics r) as [l|]; [|left; reflexivity].
      apply negb_false_iff in Hno. unfold Lyrics.placeholder in Hno.
      apply orb_prop in Hno. destruct Hno as [E|E]; apply String.eqb_eq in E; subst; auto.
    + rewrite (Hsame i r Hn En) in Hout. congruence.
Qed.

(** The theorem of C10 at a frame of three rows: one without lyrics, one
    with lyrics and one with a placeholder. *)
Lemma lyrics_rows_untouched_witness :
  let input := [Lyrics.mkRow "t1" "One" None None;
                Lyrics.mkRow "t2" "Two" (Some "la la la"%string) None;
                Lyrics.mkRow "t3" "Three" (Some "Skipped for speed"%string) None] in
  nth_error (Lyrics.df (Lyrics.add_lyrics_to_csv
                          (fun _ _ _ => "do re mi"%string) (fun _ => 2%Q) input 0 None)) 1
  = Some (Lyrics.mkRow "t2" "Two" (Some "la la la"%string) None).
Proof.
  cbv zeta.
  refine (proj1 (proj2 (lyrics_rows_untouched (fun _ _ _ => "do re mi"%string)
                          (fun _ => 2%Q) _ 0 None)) 1%nat _ "la la la"%string _ _ _ _);
    [reflexivity | reflexivity | discriminate | discriminate].
Defined.

(** ** The words of a Python string *)

Lemma sapp_nil_r (s : string) : (s ++ "")%string = s.
Proof. induction s as [|c s IH]; cbn; [reflexivity|now rewrite IH]. Qed.

Lemma sapp_assoc (a b c : string) : ((a ++ b) ++ c)%string = (a ++ b ++ c)%string.
Proof. induction a as [|x a IH]; cbn; [reflexivity|now rewrite IH]. Qed.

Lemma sapp_empty (a b : string) : (a ++ b)%string = EmptyString -> a = EmptyString /\ b = EmptyString.
Proof. destruct a; cbn; [auto|discriminate]. Qed.

Lemma all_chars_app p (a b : string) :
  all_chars p (a ++ b)%string = all_chars p a && all_chars p b.
Proof.
  induction a as [|x a IH]; cbn; [reflexivity|].
  now rewrite IH, andb_assoc.
Qed.

(** [s.split()] from a run already read: nothing when the run is empty and
    only white space follows; else the first word is the run carried on to
    the next white space. *)
Lemma split_from_first (s : string) :
  forall word,
    match PyStr.split_from word s with
    | [] => word = EmptyString /\ blank s = true
    | w :: _ =>
        exists pre run post,
          s = (pre ++ run ++ post)%string
          /\ w = (word ++ run)%string
          /\ w <> EmptyString
          /\ blank pre = true
          /\ spaceless run = true
          /\ (word <> EmptyString -> pre = EmptyString)
          /\ match post with
             | EmptyString => True
             | String c _ => PyStr.isspace c = true
             end
    end.
Proof.
  induction s as [|c rest IH]; intros word; cbn [PyStr.split_from].
  - destruct word as [|x word]; [cbn; split; reflexivity|].
    exists EmptyString, EmptyString, EmptyString.
    repeat split; try reflexivity; try discriminate; auto;
    symmetry; apply sapp_nil_r.
  - destruct (PyStr.isspace c) eqn:Hc.
    + destruct word as [|x word].
      * specialize (IH EmptyString).
        destruct (PyStr.split_from EmptyString rest) as [|w ws].
        -- destruct IH as [_ Hb]. split; [reflexivity|].
           unfold blank in *. cbn. now rewrite Hc, Hb.
        -- destruct IH as (pre & run & post & Es & Ew & Hw & Hpre & Hrun & _ & Hpost).
           exists (String c pre), run, post. cbn [String.append].
           rewrite <- Es. repeat split; try assumption.
           ++ unfold blank in *. cbn. now rewrite Hc, Hpre.
           ++ intros H. now contradiction H.
      * exists EmptyString, EmptyString, (String c rest).
        repeat split; try reflexivity; try assumption; try discriminate.
        symmetry; apply sapp_nil_r.
    + specialize (IH (word ++ String c EmptyString)%string).
      destruct (PyStr.split_from (word ++ String c EmptyString) rest) as [|w ws].
      * destruct IH as [E _]. apply sapp_empty in E. destruct E; discriminate.
      * destruct IH as (pre & run & post & Es & Ew & Hw & Hpre & Hrun & Hnil & Hpost).
        assert (pre = EmptyString) as ->.
        { apply Hnil. intros E. apply sapp_empty in E. destruct E; discriminate. }
        exists EmptyString, (String c run), post. cbn [String.append] in *.
        rewrite <- Es. rewrite sapp_assoc in Ew. cbn [String.append] in Ew.
        repeat split; try assumption; try reflexivity.
        unfold spaceless in *. cbn. now rewrite Hc, Hrun.
Qed.

Lemma split_first (s : string) :
  match PyStr.split s with
  | [] => blank s = true
  | w :: _ => first_token s w /\ blank s = false
  end.
Proof.
  unfold PyStr.split. pose proof (split_from_first s EmptyString) as H.
  destruct (PyStr.split_from EmptyString s) as [|w ws]; [apply H|].
  destruct H as (pre & run & post & Es & Ew & Hw & Hpre & Hrun & _ & Hpost).
  cbn [String.append] in Ew. subst w.
  split.
  - split; [exact Hw|]. split; [exact Hrun|]. exists pre, post. auto.
  - subst s. unfold blank in *. rewrite !all_chars_app, Hpre. cbn [andb].
    destruct run as [|c run]; [now contradiction Hw|].
    unfold spaceless in Hrun. cbn in *.
    destruct (PyStr.isspace c); [discriminate|reflexivity].
Qed.

Lemma first_marked_picked (urls : list string) :
  match Page.first_marked urls with
  | Some url =>
      exists before after,
        urls = before ++ url :: after
        /\ Page.marked url = true
        /\ Forall (fun v => Page.marked v = false) before
  | None => Forall (fun v => Page.marked v = false) urls
  end.
Proof.
  induction urls as [|u rest IH]; cbn [Page.first_marked]; [constructor|].
  destruct (Page.marked u) eqn:Hu.
  - exists [], rest. auto.
  - destruct (Page.first_marked rest) as [url|].
    + destruct IH as (before & after & E & Hm & Hb).
      exists (u :: before), after. subst rest. auto.
    + constructor; assumption.
Qed.

Lemma picked_exists (urls : list string) :
  urls <> [] -> exists url, picked urls url.
Proof.
  intros Hne. pose proof (first_marked_picked urls) as Hp.
  destruct (Page.first_marked urls) as [url|].
  - exists url. left. exact Hp.
  - exists (last urls EmptyString). right. auto.
Qed.

Lemma first_marked_app (before : list string) url after :
  Forall (fun v => Page.marked v = false) before ->
  Page.marked url = true ->
  Page.first_marked (before ++ url :: after) = Some url.
Proof.
  induction 1 as [|v before Hv _ IH]; intros Hu; cbn [app Page.first_marked].
  - now rewrite Hu.
  - rewrite Hv. auto.
Qed.

Lemma first_marked_none (urls : list string) :
  Forall (fun v => Page.marked v = false) urls -> Page.first_marked urls = None.
Proof.
  induction 1 as [|v urls Hv _ IH]; cbn [Page.first_marked]; [reflexivity|].
  now rewrite Hv.
Qed.

(** What [get_high_quality_image_url] returns, from the url it goes by. *)
Lemma high_quality_url_picked (urls : list string) (url : string) :
  picked urls url ->
  Page.get_high_quality_image_url urls =
  match PyStr.split url with
  | [] => Raised (PyException "list index out of range")
  | word :: _ => Returned (Some word)
  end.
Proof.
  intros [(before & after & E & Hm & Hb)|(Hne & Hall & E)].
  - subst urls. unfold Page.get_high_quality_image_url.
    rewrite (first_marked_app before url after Hb Hm).
    destruct before; cbn [app]; unfold Page.first_word;
      destruct (PyStr.split url); reflexivity.
  - unfold Page.get_high_quality_image_url.
    rewrite (first_marked_none urls Hall), <- E.
    destruct urls as [|u rest]; [now contradiction Hne|].
    unfold Page.first_word. destruct (PyStr.split url); reflexivity.
Qed.

Lemma split_from_blank (pre s word : string) :
  blank pre = true ->
  word = EmptyString ->
  PyStr.split_from word (pre ++ s) = PyStr.split_from word s.
Proof.
  intros Hpre ->. induction pre as [|c pre IH]; cbn [String.append]; [reflexivity|].
  unfold blank in Hpre. cbn in Hpre. apply andb_true_iff in Hpre as [Hc Hpre].
  cbn [PyStr.split_from]. rewrite Hc. apply IH, Hpre.
Qed.

Lemma split_from_run (run : string) :
  forall word post,
    spaceless run = true ->
    PyStr.split_from word (run ++ post) = PyStr.split_from (word ++ run) post.
Proof.
  induction run as [|c run IH]; intros word post Hrun; cbn [String.append].
  - now rewrite sapp_nil_r.
  - unfold spaceless in Hrun. cbn in Hrun. apply andb_true_iff in Hrun as [Hc Hrun].
    apply negb_true_iff in Hc.
    cbn [PyStr.split_from]. rewrite Hc, (IH _ _ Hrun), sapp_assoc. reflexivity.
Qed.

(** The first word of [s.split()] is the first run without white space. *)
Lemma first_token_split (s w : string) :
  first_token s w -> exists ws, PyStr.split s = w :: ws.
Proof.
  intros (Hw & Hrun & pre & post & -> & Hpre & Hpost).
  unfold PyStr.split.
  rewrite (split_from_blank pre _ EmptyString Hpre eq_refl).
  rewrite (split_from_run w EmptyString post Hrun). cbn [String.append].
  destruct post as [|c post]; cbn [PyStr.split_from].
  - destruct w; [now contradiction Hw|eauto].
  - rewrite Hpost. destruct w; [now contradiction Hw|eauto].
Qed.

Lemma blank_split (s : string) : blank s = true -> PyStr.split s = [].
Proof.
  intros Hb. pose proof (split_first s) as H.
  destruct (PyStr.split s); [reflexivity|].
  destruct H as [_ H]. congruence.
Qed.

(** X1. [get_high_quality_image_url]: [None] for the empty list and for it
    only; else the first word of the url it goes by, and an [IndexError]
    when that url is empty or white space. *)
Theorem high_quality_url_cases (urls : list string) :
  Page.get_high_quality_image_url [] = Returned None
  /\ match Page.get_high_quality_image_url urls with
     | Returned None => urls = []
     | Returned (Some word) => exists url, picked urls url /\ first_token url word
     | Raised e =>
         e = PyException "list index out of range"
         /\ exists url, picked urls url /\ blank url = true
     end.
Proof.
  split; [reflexivity|].
  destruct urls as [|u rest]; [reflexivity|].
  destruct (picked_exists (u :: rest)) as (url & Hp); [discriminate|].
  rewrite (high_quality_url_picked _ _ Hp).
  pose proof (split_first url) as Hs.
  destruct (PyStr.split url) as [|w ws].
  - split; [reflexivity|]. exists url. auto.
  - exists url. split; [exact Hp|apply Hs].
Qed.

(** ** The cover image *)

Lemma first_cover_none (imgs : list Page.img) :
  Forall (fun i => cover_src i = false) imgs ->
  Page.first_cover imgs = Returned "No image available"%string.
Proof.
  induction 1 as [|i imgs Hi _ IH]; cbn [Page.first_cover]; [reflexivity|].
  unfold cover_src in Hi. destruct (Page.src i) as [s|]; [|exact IH].
  rewrite Hi. exact IH.
Qed.

Lemma first_cover_skip (before : list Page.img) rest :
  Forall (fun i => cover_src i = false) before ->
  Page.first_cover (before ++ rest) = Page.first_cover rest.
Proof.
  induction 1 as [|i imgs Hi _ IH]; cbn [app Page.first_cover]; [reflexivity|].
  unfold cover_src in Hi. destruct (Page.src i) as [s|]; [|exact IH].
  rewrite Hi. exact IH.
Qed.

(** What the loop returns is the text for no image, the [src] of a cover or
    a word without white space. *)
Lemma first_cover_cases (imgs : list Page.img) :
  match Page.first_cover imgs with
  | Returned u =>
      (u = "No image available"%string /\ Forall (fun i => cover_src i = false) imgs)
      \/ (Exists (fun i => cover_src i = true) imgs
          /\ u <> EmptyString
          /\ (PyStr.contains "scdn.co/image" u = true \/ spaceless u = true))
  | Raised _ => Exists (fun i => cover_src i = true) imgs
  end.
Proof.
  induction imgs as [|i imgs IH]; cbn [Page.first_cover]; [left; split; auto|].
  assert (Hskip : cover_src i = false ->
            match Page.first_cover imgs with
            | Returned u =>
                (u = "No image available"%string
                 /\ Forall (fun i => cover_src i = false) (i :: imgs))
                \/ (Exists (fun i => cover_src i = true) (i :: imgs)
                    /\ u <> EmptyString
                    /\ (PyStr.contains "scdn.co/image" u = true \/ spaceless u = true))
            | Raised _ => Exists (fun i => cover_src i = true) (i :: imgs)
            end).
  { intros Hi. destruct (Page.first_cover imgs) as [u|e].
    - destruct IH as [[Eu Hall]|(Hex & Hu)]; [left|right]; auto.
    - auto. }
  unfold cover_src in Hskip |- * at 1.
  destruct (Page.src i) as [s|] eqn:Es; [|apply Hskip; reflexivity].
  destruct (negb (s =? "")%string && PyStr.contains "scdn.co/image" s) eqn:Hs;
    [|apply Hskip; reflexivity].
  clear Hskip IH.
  assert (Hi : cover_src i = true) by (unfold cover_src; now rewrite Es).
  apply andb_true_iff in Hs as [Hne Hc]. apply negb_true_iff, String.eqb_neq in Hne.
  assert (Hsrc : (s = "No image available"%string
                  /\ Forall (fun i => cover_src i = false) (i :: imgs))
                 \/ (Exists (fun i => cover_src i = true) (i :: imgs)
                     /\ s <> EmptyString
                     /\ (PyStr.contains "scdn.co/image" s = true \/ spaceless s = true)))
    by (right; auto).
  destruct (Page.srcset i) as [ss|]; [|exact Hsrc].
  destruct (ss =? "")%string; [exact Hsrc|].
  destruct (PyStr.split_on "," ss) as [|p ps] eqn:Ep; [exact Hsrc|].
  destruct (picked_exists (p :: ps)) as (url & Hp); [discriminate|].
  rewrite (high_quality_url_picked _ _ Hp).
  pose proof (split_first url) as Hsp.
  destruct (PyStr.split url) as [|w ws]; [auto|].
  destruct Hsp as [(Hw & Hrun & _) _].
  destruct (w =? "")%string eqn:Ew; [exact Hsrc|].
  right. auto.
Qed.

(** X2. [extract_cover_image] answers "No image available" exactly when no
    image of the page has a [src] on the image host, and never answers with
    the empty text. *)
Theorem cover_image_missing (imgs : list Page.img) :
  (Page.extract_cover_image (Page.Images imgs) = "No image available"%string
   <-> Forall (fun i => cover_src i = false) imgs)
  /\ (Page.extract_cover_image (Page.Images imgs) =? "")%string = false.
Proof.
  unfold Page.extract_cover_image.
  pose proof (first_cover_cases imgs) as H.
  split; [split|].
  - intros E. destruct (Page.first_cover imgs) as [u|e]; [|discriminate].
    destruct H as [[_ H]|(_ & _ & [Hc|Hs])]; [exact H| |]; subst u; discriminate.
  - intros Hall. now rewrite (first_cover_none imgs Hall).
  - destruct (Page.first_cover imgs) as [u|e]; [|reflexivity].
    apply String.eqb_neq.
    destruct H as [[-> _]|(_ & Hu & _)]; [discriminate|exact Hu].
Qed.

(** X3. The cover of a page is read from the [srcset] of the first image on
    the image host: the first word of the entry picked among those between
    the commas, and the text for an error when that entry is empty or white
    space, as the one after a closing comma is. *)
Theorem cover_image_from_srcset (before after : list Page.img) (s ss url : string) :
  Forall (fun i => cover_src i = false) before ->
  cover_src (Page.mkImg (Some s) (Some ss)) = true ->
  ss <> EmptyString ->
  picked (PyStr.split_on "," ss) url ->
  (blank url = true ->
   Page.extract_cover_image
     (Page.Images (before ++ Page.mkImg (Some s) (Some ss) :: after))
   = "Error extracting image"%string)
  /\ (forall word,
        first_token url word ->
        Page.extract_cover_image
          (Page.Images (before ++ Page.mkImg (Some s) (Some ss) :: after))
        = word).
Proof.
  intros Hb Hs Hss Hp.
  unfold Page.extract_cover_image. rewrite (first_cover_skip before _ Hb).
  cbn [Page.first_cover Page.src Page.srcset].
  unfold cover_src in Hs. cbn [Page.src] in Hs. rewrite Hs.
  apply String.eqb_neq in Hss. rewrite Hss.
  rewrite (high_quality_url_picked _ _ Hp).
  split.
  - intros Hbl. now rewrite (blank_split url Hbl).
  - intros word Hw. destruct (first_token_split url word Hw) as (ws & ->).
    destruct Hw as (Hne & _). apply String.eqb_neq in Hne. now rewrite Hne.
Qed.

Lemma cover_image_from_srcset_witness :
  Page.extract_cover_image
    (Page.Images [Page.mkImg None None;
                  Page.mkImg (Some "https://i.scdn.co/image/ab67") 
                             (Some "https://i.scdn.co/image/ab67 300w,")])
  = "Error extracting image"%string.
Proof.
  apply (proj1 (cover_image_from_srcset
                  [Page.mkImg None None] []
                  "https://i.scdn.co/image/ab67"
                  "https://i.scdn.co/image/ab67 300w," EmptyString
                  ltac:(repeat constructor) eq_refl ltac:(discriminate)
                  ltac:(right; split; [discriminate|];
                        split; [repeat constructor|reflexivity]))).
  reflexivity.
Defined.

(** ** Lines of lyrics *)

Lemma mem_In (x : string) (l : list string) : PyStr.mem x l = true <-> In x l.
Proof.
  unfold PyStr.mem. rewrite existsb_exists. split.
  - intros (y & Hy & E). apply String.eqb_eq in E. now subst.
  - intros H. exists x. split; [exact H|apply String.eqb_refl].
Qed.

Lemma mem_app (x : string) (a b : list string) :
  PyStr.mem x (a ++ b) = PyStr.mem x a || PyStr.mem x b.
Proof. apply existsb_app. Qed.

Lemma filter_filter {A} (f g : A -> bool) (l : list A) :
  filter f (filter g l) = filter (fun y => g y && f y) l.
Proof.
  induction l as [|x l IH]; cbn; [reflexivity|].
  destruct (g x); cbn; [destruct (f x)|]; now rewrite IH.
Qed.

Lemma first_occurrences_In (l : list string) (x : string) :
  In x (first_occurrences l) <-> In x l.
Proof.
  induction l as [|y l IH]; cbn [first_occurrences]; [reflexivity|].
  cbn [In]. rewrite filter_In, IH, negb_true_iff, String.eqb_neq.
  destruct (String.eqb_spec x y) as [->|Hne]; intuition.
Qed.

Lemma first_occurrences_NoDup (l : list string) : NoDup (first_occurrences l).
Proof.
  induction l as [|y l IH]; cbn [first_occurrences]; constructor.
  - rewrite filter_In, String.eqb_refl. intros [_ H]. discriminate.
  - apply NoDup_filter, IH.
Qed.

(** The loop that keeps a line unless the list holds it already. *)
Lemma lyrics_lines_from (texts : list string) :
  forall acc,
    fold_left Page.add_line texts acc
    = acc ++ filter (fun y => negb (PyStr.mem y acc))
               (first_occurrences (LyricsPage.visible_lyrics texts)).
Proof.
  unfold LyricsPage.visible_lyrics.
  induction texts as [|t texts IH]; intros acc; cbn [fold_left map filter].
  - cbn. now rewrite app_nil_r.
  - rewrite IH. unfold Page.add_line, LyricsPage.nonempty at 2.
    set (x := PyStr.strip t).
    destruct (x =? "")%string eqn:Ex; cbn [negb andb]; [reflexivity|].
    cbn [first_occurrences filter].
    destruct (PyStr.mem x acc) eqn:Hx; cbn [negb].
    + f_equal. rewrite filter_filter. apply filter_ext_in. intros y _.
      destruct (String.eqb_spec y x) as [->|_]; cbn [negb andb]; [now rewrite Hx|reflexivity].
    + rewrite <- app_assoc. cbn [app]. do 2 f_equal.
      rewrite filter_filter. apply filter_ext. intros y.
      rewrite mem_app. cbn [PyStr.mem existsb]. rewrite orb_false_r, negb_orb.
      apply andb_comm.
Qed.

(** The loop that keeps a line unless the set has seen it. *)
Lemma unique_lyrics_from (lines : list string) :
  forall seen unique,
    (forall y, PyStr.mem y seen = PyStr.mem y unique) ->
    snd (fold_left LyricsPage.keep_unseen lines (seen, unique))
    = unique ++ filter (fun y => negb (PyStr.mem y unique)) (first_occurrences lines).
Proof.
  induction lines as [|x lines IH]; intros seen unique Hsame; cbn [fold_left].
  - cbn. now rewrite app_nil_r.
  - change (LyricsPage.keep_unseen (seen, unique) x)
      with (if PyStr.mem x seen then (seen, unique)
            else (x :: seen, unique ++ [x])).
    cbn [first_occurrences filter].
    rewrite Hsame. destruct (PyStr.mem x unique) eqn:Hx; cbn [negb].
    + rewrite (IH _ _ Hsame). f_equal.
      rewrite filter_filter. apply filter_ext_in. intros y _.
      destruct (String.eqb_spec y x) as [->|_]; cbn [negb andb]; [now rewrite Hx|reflexivity].
    + rewrite IH.
      * rewrite <- app_assoc. cbn [app]. do 2 f_equal.
        rewrite filter_filter. apply filter_ext. intros y.
        rewrite mem_app. cbn [PyStr.mem existsb]. rewrite orb_false_r, negb_orb.
        apply andb_comm.
      * intros y. rewrite mem_app, <- Hsame. cbn [PyStr.mem existsb].
        rewrite orb_false_r. apply orb_comm.
Qed.

Lemma filter_all {A} (f : A -> bool) (l : list A) :
  (forall x, In x l -> f x = true) -> filter f l = l.
Proof.
  induction l as [|x l IH]; intros H; cbn; [reflexivity|].
  rewrite (H x (or_introl eq_refl)), IH; [reflexivity|].
  intros y Hy. apply H. now right.
Qed.

Lemma visible_lyrics_In (texts : list string) (x : string) :
  In x (LyricsPage.visible_lyrics texts) <-> line_of texts x.
Proof.
  unfold LyricsPage.visible_lyrics, line_of, LyricsPage.nonempty.
  rewrite filter_In, in_map_iff, negb_true_iff, String.eqb_neq.
  split.
  - intros [(t & E & Ht) Hx]. split; [exact Hx|]. exists t. auto.
  - intros [Hx (t & Ht & E)]. split; [exists t; auto|exact Hx].
Qed.

Lemma unique_lyrics_eq (lines : list string) :
  LyricsPage.unique_lyrics lines = first_occurrences lines.
Proof.
  unfold LyricsPage.unique_lyrics.
  rewrite unique_lyrics_from by reflexivity. cbn [app].
  apply filter_all. reflexivity.
Qed.

Lemma lyrics_lines_eq (texts : list string) :
  Page.lyrics_lines texts = first_occurrences (LyricsPage.visible_lyrics texts).
Proof.
  unfold Page.lyrics_lines. rewrite lyrics_lines_from. cbn [app].
  apply filter_all. reflexivity.
Qed.

Lemma lyrics_lines_In (texts : list string) (x : string) :
  In x (Page.lyrics_lines texts) <-> line_of texts x.
Proof. rewrite lyrics_lines_eq, first_occurrences_In. apply visible_lyrics_In. Qed.

(** X4. The lines [extract_lyrics] joins are the distinct stripped texts
    that are not empty, each once, in the order of their first occurrence:
    a line that comes again is left out. *)
Theorem lyrics_lines_first_occurrences (texts : list string) :
  Page.lyrics_lines texts = first_occurrences (LyricsPage.visible_lyrics texts)
  /\ NoDup (Page.lyrics_lines texts)
  /\ (forall x, In x (Page.lyrics_lines texts) <-> line_of texts x).
Proof.
  split; [apply lyrics_lines_eq|]. split; [|apply lyrics_lines_In].
  rewrite lyrics_lines_eq. apply first_occurrences_NoDup.
Qed.

(** X5. The set [seen] of [extract_full_lyrics] does what the list test of
    [extract_lyrics] does: the two extractors keep the same lines of the
    same visible texts, the first occurrence of each. *)
Theorem unique_lyrics_agree (texts lines : list string) :
  LyricsPage.unique_lyrics lines = first_occurrences lines
  /\ LyricsPage.unique_lyrics (LyricsPage.visible_lyrics texts)
     = Page.lyrics_lines texts.
Proof.
  split; [apply unique_lyrics_eq|].
  now rewrite unique_lyrics_eq, lyrics_lines_eq.
Qed.

Lemma join_empty (sep : string) (parts : list string) :
  Forall (fun x => x <> EmptyString) parts ->
  PyStr.join sep parts = EmptyString -> parts = [].
Proof.
  unfold PyStr.join. intros Hall E.
  destruct Hall as [|x parts Hx Hall]; [reflexivity|].
  cbn [String.concat] in E. destruct parts as [|y parts].
  - now contradiction Hx.
  - apply sapp_empty in E. destruct E as [E _]. now contradiction Hx.
Qed.

Lemma first_occurrences_nil (l : list string) : first_occurrences l = [] -> l = [].
Proof. destruct l; [reflexivity|discriminate]. Qed.

(** X6. What [extract_lyrics] joins may be nothing at all: it answers with
    the empty text exactly when the lyrics container is there and every text
    in it is empty or white space. *)
Theorem lyrics_empty_text (v : Page.lyrics_view) :
  Page.extract_lyrics v = EmptyString
  <-> exists texts,
        v = Page.Lines texts
        /\ Forall (fun t => PyStr.strip t = EmptyString) texts.
Proof.
  split.
  - destruct v as [e| |texts]; cbn [Page.extract_lyrics]; try discriminate.
    intros E. exists texts. split; [reflexivity|].
    pose proof (lyrics_lines_In texts) as Hin.
    apply join_empty in E.
    + apply Forall_forall. intros t Ht.
      destruct (String.eqb_spec (PyStr.strip t) EmptyString) as [|Hne]; [assumption|].
      assert (Hx : In (PyStr.strip t) (Page.lyrics_lines texts))
        by (apply Hin; split; [exact Hne|exists t; auto]).
      rewrite E in Hx. destruct Hx.
    + apply Forall_forall. intros x Hx. apply Hin in Hx. apply Hx.
  - intros (texts & -> & Hall). cbn [Page.extract_lyrics].
    pose proof (lyrics_lines_In texts) as Hin.
    destruct (Page.lyrics_lines texts) as [|x l] eqn:El; [reflexivity|].
    destruct (proj1 (Hin x) (or_introl eq_refl)) as (Hx & t & Ht & E).
    rewrite Forall_forall in Hall. rewrite (Hall t Ht) in E. now contradiction Hx.
Qed.

Lemma all_lyrics_nonempty (visible_texts : list string) (more : LyricsPage.expansion) :
  Forall (fun x => x <> EmptyString) (LyricsPage.all_lyrics visible_texts more).
Proof.
  apply Forall_forall. intros x Hx.
  assert (H : LyricsPage.nonempty x = true).
  { destruct more; cbn [LyricsPage.all_lyrics] in Hx;
      unfold LyricsPage.visible_lyrics in Hx; apply filter_In in Hx as [_ Hx];
      [exact Hx| |exact Hx].
    apply andb_true_iff in Hx. apply Hx. }
  unfold LyricsPage.nonempty in H. now apply negb_true_iff, String.eqb_neq in H.
Qed.

(** X7. [extract_full_lyrics] never answers with the empty text.  With
    lines to show it answers with the distinct ones, joined; the text for a
    page that cannot be read starts with the marker of an error, and the
    text for a page without lyrics is one of the two placeholders. *)
Theorem full_lyrics_text (v : LyricsPage.view) :
  (LyricsPage.extract_full_lyrics v =? "")%string = false
  /\ match v with
     | LyricsPage.Visible visible_texts more =>
         LyricsPage.extract_full_lyrics v
         = match LyricsPage.all_lyrics visible_texts more with
           | [] => "No lyrics found"%string
           | lines => PyStr.join " | " (first_occurrences lines)
           end
     | LyricsPage.LoadFailed _ =>
         PyStr.startswith (LyricsPage.extract_full_lyrics v) "Error" = true
     | LyricsPage.NoLyrics =>
         Lyrics.placeholder (LyricsPage.extract_full_lyrics v) = true
     end.
Proof.
  destruct v as [e| |visible_texts more]; cbn [LyricsPage.extract_full_lyrics];
    try (split; reflexivity).
  pose proof (unique_lyrics_eq (LyricsPage.all_lyrics visible_texts more)) as E.
  pose proof (all_lyrics_nonempty visible_texts more) as Hne.
  destruct (LyricsPage.all_lyrics visible_texts more) as [|x l] eqn:El.
  - split; reflexivity.
  - rewrite E. split; [|reflexivity].
    apply String.eqb_neq. intros Ej. apply join_empty in Ej; [discriminate|].
    apply Forall_forall. intros y Hy. rewrite first_occurrences_In in Hy.
    rewrite Forall_forall in Hne. auto.
Qed.

(** ** What [add_lyrics_to_csv] writes *)

Lemma set_at_same rows j f :
  nth_error (Lyrics.set_at rows j f) j = option_map f (nth_error rows j).
Proof.
  revert j. induction rows as [|r rows IH]; intros [|j]; cbn; auto.
Qed.

Lemma lyrics_count_app (p : Lyrics.event -> bool) tr1 tr2 :
  List.length (filter p (tr1 ++ tr2))
  = (List.length (filter p tr1) + List.length (filter p tr2))%nat.
Proof. now rewrite filter_app, length_app. Qed.

(** The rows from [start_index] on are the only ones that can need lyrics. *)
Lemma needs_lyrics_count start_index rows :
  forall i,
    Z.of_nat (List.length (filter (Lyrics.needs_lyrics start_index) (iterrows_from i rows)))
    <= Z.max 0 (i + Z.of_nat (List.length rows) - Z.max i start_index).
Proof.
  induction rows as [|r rows IH]; intros i; cbn [iterrows_from filter List.length].
  - lia.
  - specialize (IH (i + 1)).
    destruct (Lyrics.needs_lyrics start_index (i, r)) eqn:En; cbn [List.length].
    + unfold Lyrics.needs_lyrics in En. cbn [fst] in En.
      apply andb_prop in En. destruct En as [En _].
      apply negb_true_iff, Z.ltb_ge in En. lia.
    + lia.
Qed.

Lemma head_length rows n :
  0 <= n -> Z.of_nat (List.length (Lyrics.head rows n)) <= n.
Proof.
  intros Hn. unfold Lyrics.head. rewrite (proj2 (Z.leb_le 0 n) Hn).
  rewrite length_firstn. lia.
Qed.

Section LyricsWritten.

Variable extract_full_lyrics : nat -> string -> string -> string.
Variable elapsed : nat -> Q.
Variable start_index : Z.

Local Abbreviation step := (Lyrics.add_lyrics_step extract_full_lyrics elapsed start_index).
Local Abbreviation needs := (Lyrics.needs_lyrics start_index).

(** One turn of the loop on a row that needs lyrics. *)
Lemma lyrics_step_exact s i r :
  needs (i, r) = true ->
  let text := extract_full_lyrics (Lyrics.calls s) (Lyrics.track_id r) (Lyrics.track_name r) in
  let total := Lyrics.total_processed s + 1 in
  let s' := step s (i, r) in
  Lyrics.df s'
  = Lyrics.set_at (Lyrics.df s) (Z.to_nat i)
      (fun old => Lyrics.mkRow (Lyrics.track_id old) (Lyrics.track_name old)
                    (Some text) (Some (elapsed (Lyrics.calls s))))
  /\ Lyrics.calls s' = S (Lyrics.calls s)
  /\ Lyrics.total_processed s' = total
  /\ Lyrics.success_count s'
     = (if negb (PyStr.startswith text "Error")
           && negb (String.eqb text "No lyrics available")
        then Lyrics.success_count s + 1 else Lyrics.success_count s)
  /\ Lyrics.trace s'
     = Lyrics.trace s
         ++ [Lyrics.EvExtract (Lyrics.track_id r) (Lyrics.track_name r)]
         ++ (if total mod 10 =? 0 then [Lyrics.EvSave (Lyrics.df s')] else [])
         ++ [Lyrics.EvSleepUniform 1 3]
         ++ (if total mod 100 =? 0
             then [Lyrics.EvQuit; Lyrics.EvSleep 5; Lyrics.EvSetupDriver] else []).
Proof.
  unfold Lyrics.needs_lyrics, Lyrics.add_lyrics_step. cbn [fst snd].
  destruct (i <? start_index); [discriminate|].
  destruct (Lyrics.has_lyrics r); [discriminate|]. intros _. cbv zeta.
  destruct ((Lyrics.total_processed s + 1) mod 10 =? 0),
           ((Lyrics.total_processed s + 1) mod 100 =? 0);
    cbn [Lyrics.log Lyrics.df Lyrics.calls Lyrics.total_processed
         Lyrics.success_count Lyrics.trace];
    rewrite <- ?app_assoc; cbn [app]; repeat split; reflexivity.
Qed.

Lemma lyrics_loop_idle l :
  forall s, Forall (fun ir => needs ir = false) l -> fold_left step l s = s.
Proof.
  induction l as [|[i r] l IH]; intros s Hl; cbn [fold_left]; [reflexivity|].
  inversion Hl as [|? ? Hir Hrest]; subst.
  rewrite (lyrics_step_kept extract_full_lyrics elapsed start_index s i r Hir).
  apply IH, Hrest.
Qed.

Lemma lyrics_step_books s ir : lyrics_books s -> lyrics_books (step s ir).
Proof.
  destruct ir as [i r]. intros (Ht & Hs & Hsave & Hre).
  destruct (needs (i, r)) eqn:En.
  2:{ rewrite (lyrics_step_kept extract_full_lyrics elapsed start_index s i r En).
      repeat split; assumption || apply Hs. }
  destruct (lyrics_step_exact s i r En) as (_ & Ec & Et & Es & Etr).
  cbv zeta in *. unfold lyrics_books.
  rewrite Ec, Et, Es, Etr. clear Ec Et Es Etr.
  unfold lyrics_save_count, lyrics_restart_count in *.
  rewrite !lyrics_count_app, Hsave, Hre.
  rewrite (div_succ 10 (Lyrics.calls s)), (div_succ 100 (Lyrics.calls s)) by lia.
  replace (Z.of_nat (S (Lyrics.calls s))) with (Lyrics.total_processed s + 1) by lia.
  change (Z.of_nat 10) with 10. change (Z.of_nat 100) with 100.
  split; [lia|]. split.
  { destruct (negb _ && negb _); lia. }
  destruct ((Lyrics.total_processed s + 1) mod 10 =? 0),
           ((Lyrics.total_processed s + 1) mod 100 =? 0); cbn; split; lia.
Qed.

Lemma lyrics_loop_books l : forall s, lyrics_books s -> lyrics_books (fold_left step l s).
Proof.
  induction l as [|ir l IH]; intros s Hs; cbn [fold_left]; [exact Hs|].
  apply IH, lyrics_step_books, Hs.
Qed.

(** The loop writes to the row of each position that needs lyrics what the
    extractor answered at the call made for it. *)
Lemma lyrics_loop_written rows :
  forall i s,
    0 <= i ->
    (forall j r, nth_error rows j = Some r ->
                 nth_error (Lyrics.df s) (Z.to_nat i + j) = Some r) ->
    let s' := fold_left step (iterrows_from i rows) s in
    forall j r,
      nth_error rows j = Some r ->
      needs (i + Z.of_nat j, r) = true ->
      nth_error (Lyrics.df s') (Z.to_nat i + j)
      = Some (with_lyrics extract_full_lyrics elapsed
                (Lyrics.calls s
                 + List.length (filter needs (iterrows_from i (firstn j rows)))) r).
Proof.
  induction rows as [|r0 rest IH]; intros i s Hi Hrows; cbv zeta;
    intros j r Hj Hneed.
  - destruct j; discriminate.
  - cbn [iterrows_from fold_left].
    assert (Hrows' : forall j r,
              nth_error rest j = Some r ->
              nth_error (Lyrics.df (step s (i, r0))) (Z.to_nat (i + 1) + j) = Some r).
    { intros j' r' Hj'.
      replace (Z.to_nat (i + 1) + j')%nat with (Z.to_nat i + S j')%nat by lia.
      destruct (needs (i, r0)) eqn:En.
      - destruct (lyrics_step_exact s i r0 En) as (Edf & _). cbv zeta in Edf.
        rewrite Edf, set_at_other by lia. apply Hrows. exact Hj'.
      - rewrite (lyrics_step_kept extract_full_lyrics elapsed start_index s i r0 En).
        apply Hrows. exact Hj'. }
    destruct j as [|j].
    + cbn [nth_error] in Hj. injection Hj as <-.
      rewrite Z.add_0_r in Hneed. rewrite Nat.add_0_r.
      destruct (lyrics_loop extract_full_lyrics elapsed start_index rest (i + 1)
                  (step s (i, r0)) ltac:(lia)) as (_ & _ & Hkeep).
      cbv zeta in Hkeep. rewrite (Hkeep (Z.to_nat i)) by (intros; lia).
      destruct (lyrics_step_exact s i r0 Hneed) as (Edf & _). cbv zeta in Edf.
      rewrite Edf, set_at_same.
      specialize (Hrows 0%nat r0 eq_refl). rewrite Nat.add_0_r in Hrows.
      rewrite Hrows. cbn [option_map firstn iterrows_from filter List.length].
      rewrite Nat.add_0_r. reflexivity.
    + cbn [nth_error] in Hj.
      specialize (IH (i + 1) (step s (i, r0)) ltac:(lia) Hrows' j r Hj).
      cbv zeta in IH.
      replace (i + 1 + Z.of_nat j) with (i + Z.of_nat (S j)) in IH by lia.
      specialize (IH Hneed).
      replace (Z.to_nat (i + 1) + j)%nat with (Z.to_nat i + S j)%nat in IH by lia.
      rewrite IH. cbn [firstn iterrows_from filter]. do 2 f_equal.
      destruct (needs (i, r0)) eqn:En.
      * destruct (lyrics_step_exact s i r0 En) as (_ & Ec & _). cbv zeta in Ec.
        rewrite Ec. cbn [List.length]. lia.
      * rewrite (lyrics_step_kept extract_full_lyrics elapsed start_index s i r0 En).
        reflexivity.
Qed.

End LyricsWritten.

Lemma iterrows_from_In {R} (rows : list R) :
  forall i k r, In (k, r) (iterrows_from i rows) ->
                i <= k /\ nth_error rows (Z.to_nat (k - i)) = Some r.
Proof.
  induction rows as [|r0 rows IH]; intros i k r Hin; cbn [iterrows_from] in Hin.
  - destruct Hin.
  - destruct Hin as [E|Hin].
    + injection E as <- <-. rewrite Z.sub_diag. split; [lia|reflexivity].
    + apply IH in Hin. destruct Hin as [Hle Hn]. split; [lia|].
      replace (Z.to_nat (k - i)) with (S (Z.to_nat (k - (i + 1)))) by lia.
      exact Hn.
Qed.

(** X8. With [max_tracks] given, and the frame cut from its front,
    [add_lyrics_to_csv] makes no more than [max_tracks] extractions, and the
    frame it writes has the first [start_index + max_tracks] rows of the
    input and no more: the rows beyond are not written; [max_tracks = 0] is
    no limit at all. *)
Theorem lyrics_extraction_bound extract_full_lyrics elapsed input start_index m :
  (m <> 0 -> 0 <= start_index + m ->
   let final := Lyrics.add_lyrics_to_csv extract_full_lyrics elapsed
                  input start_index (Some m) in
   Z.of_nat (Lyrics.calls final) <= Z.max 0 m
   /\ Z.of_nat (List.length (Lyrics.df final))
      = Z.min (Z.of_nat (List.length input)) (start_index + m))
  /\ Lyrics.add_lyrics_to_csv extract_full_lyrics elapsed input start_index (Some 0)
     = Lyrics.add_lyrics_to_csv extract_full_lyrics elapsed input start_index None.
Proof.
  split; [|reflexivity].
  intros Hm Hcut. cbv zeta. unfold Lyrics.add_lyrics_to_csv.
  cbn [Lyrics.calls Lyrics.df Lyrics.log].
  set (frame := Lyrics.loaded input start_index (Some m)).
  destruct (lyrics_loop extract_full_lyrics elapsed start_index frame 0
              (Lyrics.mkState frame 0 0 0 []) ltac:(lia)) as (Hlen & Hcalls & _).
  cbv zeta in Hcalls, Hlen. unfold iterrows. rewrite Hcalls.
  cbn [Lyrics.calls Lyrics.df Nat.add] in *.
  pose proof (needs_lyrics_count start_index frame 0) as Hcount.
  assert (Hframe : Z.of_nat (List.length frame)
                   = Z.min (Z.of_nat (List.length input)) (start_index + m)).
  { unfold frame, Lyrics.loaded, Lyrics.head.
    rewrite (proj2 (Z.eqb_neq m 0) Hm), (proj2 (Z.leb_le 0 (start_index + m)) Hcut).
    rewrite length_firstn. lia. }
  split; [lia|]. rewrite Hlen. exact Hframe.
Qed.

Lemma lyrics_extraction_bound_witness :
  let final := Lyrics.add_lyrics_to_csv (fun _ _ _ => "do re mi"%string) (fun _ => 2%Q)
                 [Lyrics.mkRow "t1" "One" None None;
                  Lyrics.mkRow "t2" "Two" None None;
                  Lyrics.mkRow "t3" "Three" None None] 1 (Some 1) in
  Z.of_nat (Lyrics.calls final) <= Z.max 0 1
  /\ Z.of_nat (List.length (Lyrics.df final)) = Z.min (Z.of_nat 3) (1 + 1).
Proof.
  apply (proj1 (lyrics_extraction_bound (fun _ _ _ => "do re mi"%string) (fun _ => 2%Q)
                  [Lyrics.mkRow "t1" "One" None None;
                   Lyrics.mkRow "t2" "Two" None None;
                   Lyrics.mkRow "t3" "Three" None None] 1 1)); lia.
Defined.

(** X9. The books of [add_lyrics_to_csv]: [total_processed] counts the
    extractions and [success_count] never exceeds it; the frame is written
    after every tenth extraction and once more at the end, which is the
    frame returned; the browser is started again after every hundredth. *)
Theorem lyrics_accounting extract_full_lyrics elapsed input start_index max_tracks :
  let final := Lyrics.add_lyrics_to_csv extract_full_lyrics elapsed
                 input start_index max_tracks in
  Lyrics.total_processed final = Z.of_nat (Lyrics.calls final)
  /\ 0 <= Lyrics.success_count final <= Lyrics.total_processed final
  /\ lyrics_save_count (Lyrics.trace final) = (Lyrics.calls final / 10 + 1)%nat
  /\ lyrics_restart_count (Lyrics.trace final) = (Lyrics.calls final / 100)%nat
  /\ exists tr, Lyrics.trace final = tr ++ [Lyrics.EvSave (Lyrics.df final)].
Proof.
  cbv zeta. unfold Lyrics.add_lyrics_to_csv.
  set (frame := Lyrics.loaded input start_index max_tracks).
  destruct (lyrics_loop_books extract_full_lyrics elapsed start_index
              (iterrows frame) (Lyrics.mkState frame 0 0 0 []))
    as (Ht & Hs & Hsave & Hre).
  { repeat split; cbn; lia. }
  cbn [Lyrics.log Lyrics.total_processed Lyrics.calls Lyrics.success_count
       Lyrics.trace Lyrics.df].
  split; [exact Ht|]. split; [exact Hs|].
  unfold lyrics_save_count, lyrics_restart_count in *.
  rewrite !lyrics_count_app, Hsave, Hre. cbn [filter List.length].
  split; [reflexivity|]. split; [lia|]. eexists. reflexivity.
Qed.

(** X10. A row that needs lyrics comes out of [add_lyrics_to_csv] with the
    text and the time of the extraction made for it, under its old
    identifiers; the extractions are numbered in the order of the rows. *)
Theorem lyrics_rows_written extract_full_lyrics elapsed input start_index max_tracks :
  let frame := Lyrics.loaded input start_index max_tracks in
  let final := Lyrics.add_lyrics_to_csv extract_full_lyrics elapsed
                 input start_index max_tracks in
  forall k r,
    nth_error frame k = Some r ->
    Lyrics.needs_lyrics start_index (Z.of_nat k, r) = true ->
    nth_error (Lyrics.df final) k
    = Some (with_lyrics extract_full_lyrics elapsed
              (List.length (filter (Lyrics.needs_lyrics start_index)
                                   (iterrows (firstn k frame)))) r).
Proof.
  cbv zeta. intros k r Hk Hneed. unfold Lyrics.add_lyrics_to_csv.
  cbn [Lyrics.log Lyrics.df].
  set (frame := Lyrics.loaded input start_index max_tracks) in *.
  pose proof (lyrics_loop_written extract_full_lyrics elapsed start_index frame 0
                (Lyrics.mkState frame 0 0 0 []) ltac:(lia)) as H.
  cbv zeta in H. cbn [Lyrics.df Lyrics.calls Z.to_nat Nat.add] in H.
  apply (H (fun j r Hj => Hj) k r Hk). exact Hneed.
Qed.

Lemma lyrics_rows_written_witness :
  nth_error
    (Lyrics.df (Lyrics.add_lyrics_to_csv
                  (fun n _ _ => ("text " ++ PyStr.of_Z (Z.of_nat n))%string) (fun _ => 2%Q)
                  [Lyrics.mkRow "t1" "One" None None;
                   Lyrics.mkRow "t2" "Two" (Some "la la la"%string) None;
                   Lyrics.mkRow "t3" "Three" (Some "Skipped for speed"%string) None]
                  0 None)) 2
  = Some (Lyrics.mkRow "t3" "Three" (Some "text 1"%string) (Some 2%Q)).
Proof.
  apply (lyrics_rows_written
           (fun n _ _ => ("text " ++ PyStr.of_Z (Z.of_nat n))%string) (fun _ => 2%Q)
           [Lyrics.mkRow "t1" "One" None None;
            Lyrics.mkRow "t2" "Two" (Some "la la la"%string) None;
            Lyrics.mkRow "t3" "Three" (Some "Skipped for speed"%string) None]
           0 None 2%nat (Lyrics.mkRow "t3" "Three" (Some "Skipped for speed"%string) None));
    reflexivity.
Defined.

(** Every row of the frame [add_lyrics_to_csv] returns is the row it loaded
    at that place, with the answer of the extractor written into it when the
    row needed lyrics. *)
Lemma lyrics_output_rows extract_full_lyrics elapsed input start_index max_tracks k r' :
  let frame := Lyrics.loaded input start_index max_tracks in
  let out := Lyrics.df (Lyrics.add_lyrics_to_csv extract_full_lyrics elapsed
                          input start_index max_tracks) in
  nth_error out k = Some r' ->
  exists r,
    nth_error frame k = Some r
    /\ ((Lyrics.needs_lyrics start_index (Z.of_nat k, r) = true
         /\ exists n, r' = with_lyrics extract_full_lyrics elapsed n r)
        \/ (Lyrics.needs_lyrics start_index (Z.of_nat k, r) = false /\ r' = r)).
Proof.
  cbv zeta. set (frame := Lyrics.loaded input start_index max_tracks).
  unfold Lyrics.add_lyrics_to_csv. cbn [Lyrics.log Lyrics.df]. fold frame.
  unfold iterrows. intros Hn.
  destruct (lyrics_loop extract_full_lyrics elapsed start_index frame 0
              (Lyrics.mkState frame 0 0 0 []) ltac:(lia)) as (Hlen & _ & Hkeep).
  cbv zeta in Hlen, Hkeep. cbn [Lyrics.df] in Hlen, Hkeep.
  destruct (nth_error frame k) as [r|] eqn:Hr.
  2:{ apply nth_error_None in Hr.
      assert (Hsome : nth_error
                (Lyrics.df (fold_left
                   (Lyrics.add_lyrics_step extract_full_lyrics elapsed start_index)
                   (iterrows_from 0 frame) (Lyrics.mkState frame 0 0 0 []))) k <> None)
        by congruence.
      apply nth_error_Some in Hsome. lia. }
  exists r. split; [reflexivity|].
  destruct (Lyrics.needs_lyrics start_index (Z.of_nat k, r)) eqn:En.
  - left. split; [reflexivity|].
    pose proof (lyrics_loop_written extract_full_lyrics elapsed start_index frame 0
                  (Lyrics.mkState frame 0 0 0 []) ltac:(lia)
                  (fun j r Hj => Hj) k r Hr) as Hw.
    cbv zeta in Hw. rewrite Z.add_0_l in Hw.
    specialize (Hw En). cbn [Z.to_nat Nat.add Lyrics.df] in Hw.
    rewrite Hw in Hn. injection Hn as <-. eexists. reflexivity.
  - right. split; [reflexivity|].
    rewrite (Hkeep k) in Hn.
    + rewrite Hr in Hn. injection Hn as <-. reflexivity.
    + intros r0 _ Hr0. rewrite Z.sub_0_r, Nat2Z.id in Hr0.
      rewrite Hr in Hr0. injection Hr0 as <-. exact En.
Qed.

Lemma lyrics_loaded_incl input start_index max_tracks r :
  In r (Lyrics.loaded input start_index max_tracks) -> In r input.
Proof.
  assert (Hfirst : forall n, In r (firstn n input) -> In r input).
  { intros n H. rewrite <- (firstn_skipn n input). apply in_or_app. left. exact H. }
  unfold Lyrics.loaded, Lyrics.head.
  destruct max_tracks as [m|]; [|auto].
  destruct (m =? 0); [auto|].
  destruct (0 <=? start_index + m); apply Hfirst.
Qed.

(** A row whose lyrics are no text for a missing value is read as it was
    written. *)
Lemma read_csv_fixed rows :
  Forall (fun r => forall t, Lyrics.lyrics r = Some t -> Lyrics.is_na t = false) rows ->
  Lyrics.read_csv rows = rows.
Proof.
  unfold Lyrics.read_csv.
  induction 1 as [|r rows Hr _ IH]; cbn [map]; [reflexivity|].
  rewrite IH. f_equal. destruct r as [tid tname [t|] time]; cbn in *; [|reflexivity].
  rewrite (Hr t eq_refl). reflexivity.
Qed.

Lemma read_csv_no_na file :
  Forall (fun r => forall t, Lyrics.lyrics r = Some t -> Lyrics.is_na t = false)
         (Lyrics.read_csv file).
Proof.
  unfold Lyrics.read_csv. apply Forall_forall. intros r Hin.
  apply in_map_iff in Hin. destruct Hin as (r0 & <- & _).
  cbn [Lyrics.lyrics]. intros t.
  destruct (Lyrics.lyrics r0) as [cell|]; [|discriminate].
  destruct (Lyrics.is_na cell) eqn:E; [discriminate|].
  intros H. injection H as <-. exact E.
Qed.

(** X11. Run again on the file it wrote, [add_lyrics_to_csv] makes no
    extraction and returns the frame of the first run, provided the
    extractor never answers with one of the two placeholders nor with a
    text that [pd.read_csv] reads as a missing value: the texts of errors
    and of pages without lines are final. *)
Theorem lyrics_second_pass extract_full_lyrics elapsed file start_index max_tracks
    extract' elapsed' :
  (forall n tid tname,
      Lyrics.placeholder (extract_full_lyrics n tid tname) = false
      /\ Lyrics.is_na (extract_full_lyrics n tid tname) = false) ->
  let out := Lyrics.df (Lyrics.add_lyrics_to_csv extract_full_lyrics elapsed
                          (Lyrics.read_csv file) start_index max_tracks) in
  let again := Lyrics.add_lyrics_to_csv extract' elapsed'
                                        (Lyrics.read_csv out) start_index None in
  Lyrics.calls again = 0%nat /\ Lyrics.df again = out.
Proof.
  intros Hex. cbv zeta.
  set (out := Lyrics.df (Lyrics.add_lyrics_to_csv extract_full_lyrics elapsed
                           (Lyrics.read_csv file) start_index max_tracks)).
  assert (Hrows : forall k r', nth_error out k = Some r' ->
            (forall t, Lyrics.lyrics r' = Some t -> Lyrics.is_na t = false)
            /\ Lyrics.needs_lyrics start_index (Z.of_nat k, r') = false).
  { intros k r' Hn.
    destruct (lyrics_output_rows extract_full_lyrics elapsed (Lyrics.read_csv file)
                start_index max_tracks k r' Hn)
      as (r & Hr & [(En & n & ->)|(En & ->)]).
    - destruct (Hex n (Lyrics.track_id r) (Lyrics.track_name r)) as (Hp & Hna).
      split.
      + cbn [with_lyrics Lyrics.lyrics]. intros t H. injection H as <-. exact Hna.
      + unfold Lyrics.needs_lyrics, Lyrics.has_lyrics, with_lyrics.
        cbn [fst snd Lyrics.lyrics]. rewrite Hp. cbn. apply andb_false_r.
    - split; [|exact En].
      pose proof (read_csv_no_na file) as Hfile. rewrite Forall_forall in Hfile.
      apply Hfile. eapply lyrics_loaded_incl. eapply nth_error_In. exact Hr. }
  assert (Hback : Lyrics.read_csv out = out).
  { apply read_csv_fixed. apply Forall_forall. intros r' Hin.
    apply In_nth_error in Hin. destruct Hin as (k & Hk). exact (proj1 (Hrows k r' Hk)). }
  rewrite Hback.
  assert (Hdone : Forall (fun ir => Lyrics.needs_lyrics start_index ir = false)
                         (iterrows out)).
  { apply Forall_forall. intros [k r'] Hin.
    apply iterrows_from_In in Hin. destruct Hin as [Hk Hn].
    rewrite Z.sub_0_r in Hn.
    pose proof (proj2 (Hrows _ _ Hn)) as H. rewrite Z2Nat.id in H by lia. exact H. }
  unfold Lyrics.add_lyrics_to_csv at 1 2. cbn [Lyrics.loaded].
  rewrite (lyrics_loop_idle extract' elapsed' start_index _ _ Hdone).
  split; reflexivity.
Qed.

Lemma lyrics_second_pass_witness :
  let out := Lyrics.df (Lyrics.add_lyrics_to_csv
                          (fun _ _ _ => "Error: timeout"%string) (fun _ => 2%Q)
                          (Lyrics.read_csv
                             [Lyrics.mkRow "t1" "One" None None;
                              Lyrics.mkRow "t2" "Two" (Some "N/A"%string) None;
                              Lyrics.mkRow "t3" "Three" (Some "Skipped for speed"%string)
                                           None])
                          0 None) in
  Lyrics.calls (Lyrics.add_lyrics_to_csv
                  (fun _ _ _ => "do re mi"%string) (fun _ => 3%Q)
                  (Lyrics.read_csv out) 0 None)
  = 0%nat.
Proof.
  cbv zeta.
  apply (proj1 (lyrics_second_pass
                  (fun _ _ _ => "Error: timeout"%string) (fun _ => 2%Q)
                  [Lyrics.mkRow "t1" "One" None None;
                   Lyrics.mkRow "t2" "Two" (Some "N/A"%string) None;
                   Lyrics.mkRow "t3" "Three" (Some "Skipped for speed"%string) None]
                  0 None (fun _ _ _ => "do re mi"%string) (fun _ => 3%Q)
                  (fun _ _ _ => conj eq_refl eq_refl))).
Defined.

(** A text the file does not keep: lyrics that read "None" are a missing
    value in the frame of the second run, and are extracted again. *)
Remark lyrics_missing_value_extracted_again :
  let out := Lyrics.df (Lyrics.add_lyrics_to_csv
                          (fun _ _ _ => "None"%string) (fun _ => 2%Q)
                          (Lyrics.read_csv [Lyrics.mkRow "t1" "One" None None])
                          0 None) in
  Lyrics.calls (Lyrics.add_lyrics_to_csv
                  (fun _ _ _ => "do re mi"%string) (fun _ => 3%Q)
                  (Lyrics.read_csv out) 0 None)
  = 1%nat.
Proof. reflexivity. Qed.

(** ** The lists of [fast_scrape] *)

(** X12. In every run of [fast_scrape], also in the state the [TypeError]
    of a cover that is [None] leaves, the list of failures is the list of
    the results whose cover carries the marker, in their order; every result
    that has not the placeholder for its lyrics is one of them. *)
Theorem fast_failed_tracks browser rows start_index :
  let s' := snd (Fast.fast_scrape browser rows start_index Fast.init) in
  Fast.failed_tracks s' = filter fast_error (Fast.results s')
  /\ Forall (fun r => Fast.lyrics r = "Skipped for speed"%string
                      \/ In r (Fast.failed_tracks s'))
            (Fast.results s').
Proof.
  cbv zeta.
  destruct (fast_run browser rows start_index) as ((Hf & Hl) & _).
  cbv zeta in *. split; [exact Hf|].
  rewrite Hf. rewrite Forall_forall in *. intros r Hr.
  destruct (Hl r Hr) as [Hs|He]; [left; exact Hs|right].
  apply filter_In. auto.
Qed.


(** A page whose image has no [src]: the run ends in the [TypeError], the
    result is in the list and on no file. *)
Remark fast_scrape_cover_none :
  let run := Fast.fast_scrape (fun _ _ => Fast.Loaded None 1) [mkRow "t1" "One"] 0
                              Fast.init in
  fst run = Raised (PyException "argument of type 'NoneType' is not iterable")
  /\ List.length (Fast.results (snd run)) = 1%nat
  /\ Fast.trace (snd run)
     = [Fast.EvSetupDriver 0; Fast.EvGet "t1"; Fast.EvSleep 1].
Proof. vm_compute. repeat split. Qed.

(** ** The files [production_scrape] writes *)

Lemma saved_files_app tr1 tr2 :
  saved_files (tr1 ++ tr2) = saved_files tr1 ++ saved_files tr2.
Proof.
  induction tr1 as [|ev tr1 IH]; cbn [app saved_files]; [reflexivity|].
  destruct ev; rewrite ?IH; reflexivity.
Qed.

Lemma saved_files_others evs :
  Forall (fun ev => is_save ev = false) evs -> saved_files evs = [].
Proof.
  induction 1 as [|ev evs Hev _ IH]; [reflexivity|].
  destruct ev; cbn in *; try discriminate; exact IH.
Qed.

Lemma retry_no_save n tid tname :
  Forall (fun ev => is_save ev = false)
         (EvScrape tid tname ::
          List.concat (repeat [EvSleepUniform 5 10; EvScrape tid tname] n)).
Proof.
  constructor; [reflexivity|].
  induction n as [|n IH]; cbn [repeat List.concat app]; repeat constructor. exact IH.
Qed.

(** One turn of the loop on a row that is not skipped, event by event. *)
Lemma production_step_quiet_exact ext max_retries start_index index row acc s d :
  start_index <= index ->
  driver s = Some d ->
  exists r s1,
    scrape_track_with_retry (quiet ext) max_retries
      (row_track_id row) (row_track_name row) 1 s = (Returned r, s1)
    /\ let completed := Z.of_nat (S (List.length (results s))) in
       let acc' := if clean_lyrics r then acc + 1 else acc in
       let window := adaptive_range (inject_Z acc' / inject_Z completed) 2 5 in
       exists s',
         production_step (quiet ext) max_retries start_index (index, row) acc s
         = (Returned acc', s')
         /\ results s' = results s ++ [r]
         /\ (exists d', driver s' = Some d')
         /\ trace s'
            = trace s1
                ++ [EvSleepUniform (fst window) (snd window)]
                ++ (if completed mod 25 =? 0
                    then [EvSave ("spotify_data_progress_" ++ PyStr.of_Z completed ++ ".csv")
                                 (results s ++ [r])]
                    else [])
                ++ (if completed mod 100 =? 0 then [EvSleepUniform 60 120] else [])
                ++ (if completed mod 300 =? 0
                    then [EvQuit d; EvSleep 10; EvSetupDriver (sessions s);
                          EvExecuteScript; EvSleep 5]
                    else []).
Proof.
  intros Hidx Hdrv.
  destruct (retry_quiet_answers ext max_retries row 1 s) as (r & s1 & E & _).
  exists r, s1. split; [exact E|]. cbv zeta.
  pose proof (preserves_retry (quiet ext) max_retries
                (row_track_id row) (row_track_name row) 1 s) as Hfr.
  rewrite E in Hfr. cbn [snd] in Hfr.
  destruct Hfr as (Hd & Hr & Hs & _ & _).
  unfold production_step.
  rewrite (proj2 (Z.ltb_ge index start_index) Hidx).
  rewrite (bind_returned _ _ _ _ _ E).
  erewrite bind_returned by reflexivity.
  erewrite bind_returned by reflexivity.
  cbn [results].
  assert (Elen : Z.of_nat (List.length (results s1 ++ [r]))
                 = Z.of_nat (S (List.length (results s)))).
  { rewrite length_app, Hr. cbn [List.length]. f_equal. lia. }
  rewrite Elen.
  set (completed := Z.of_nat (S (List.length (results s)))).
  assert (Hpos : (0 <? completed) = true) by (apply Z.ltb_lt; unfold completed; lia).
  rewrite Hpos. fold (clean_lyrics r).
  unfold adaptive_delay, random_delay, sleep_uniform.
  destruct (adaptive_range _ 2 5) as [lo hi]. cbn [fst snd].
  erewrite bind_returned by apply effect_quiet.
  erewrite bind_returned.
  2:{ apply when_save_quiet. cbn.
      intros El. apply app_eq_nil in El. destruct El; discriminate. }
  erewrite bind_returned by apply when_quiet.
  destruct (completed mod 300 =? 0).
  - erewrite bind_returned.
    2:{ unfold when. apply (restart_quiet ext _ d).
        destruct (completed mod 25 =? 0), (completed mod 100 =? 0); cbn; congruence. }
    eexists. split; [reflexivity|].
    destruct (completed mod 25 =? 0), (completed mod 100 =? 0);
      cbn [results failed_tracks trace driver sessions log tick];
      rewrite ?Hr, ?Hs;
      (split; [reflexivity|]); (split; [eexists; reflexivity|]);
      rewrite <- ?app_assoc; cbn [app]; reflexivity.
  - eexists. split; [reflexivity|].
    destruct (completed mod 25 =? 0), (completed mod 100 =? 0);
      cbn [when ret results failed_tracks trace driver sessions log tick fst snd];
      rewrite ?Hr, ?Hs, ?Hd;
      (split; [reflexivity|]); (split; [exists d; assumption|]);
      rewrite <- ?app_assoc; cbn [app]; rewrite ?app_nil_r; reflexivity.
Qed.

Lemma checkpoints_succ a rs n :
  checkpoints a rs (S n)
  = checkpoints a rs n
      ++ (if Z.of_nat (S (a + n)) mod 25 =? 0
          then [(("spotify_data_progress_" ++ PyStr.of_Z (Z.of_nat (S (a + n))) ++ ".csv")%string,
                 firstn (S (a + n)) rs)]
          else []).
Proof.
  unfold checkpoints. rewrite seq_S, flat_map_app. cbn [flat_map Nat.add].
  now rewrite app_nil_r.
Qed.

Lemma checkpoints_app a rs more n :
  (a + n <= List.length rs)%nat -> checkpoints a (rs ++ more) n = checkpoints a rs n.
Proof.
  induction n as [|n IH]; intros Hn; [reflexivity|].
  rewrite !checkpoints_succ, IH by lia.
  rewrite firstn_app. replace (S (a + n) - List.length rs)%nat with 0%nat by lia.
  cbn [firstn]. now rewrite app_nil_r.
Qed.

Lemma production_step_books ext max_retries start_index index row
    before initial base acc s :
  production_books before initial base acc s ->
  exists acc' s',
    production_step (quiet ext) max_retries start_index (index, row) acc s
    = (Returned acc', s')
    /\ production_books before initial base acc' s'.
Proof.
  intros ((d & Hdrv) & news & Hnews & Hfiles & Hacc).
  destruct (Z.ltb_spec index start_index) as [Hskip|Htake].
  { exists acc, s. split.
    - unfold production_step. now rewrite (proj2 (Z.ltb_lt index start_index) Hskip).
    - split; [eauto|]. exists news. auto. }
  destruct (production_step_quiet_exact ext max_retries start_index index row acc s d
              Htake Hdrv) as (r & s1 & E & H).
  cbv zeta in H. destruct H as (s' & Estep & Hres & Hd' & Htrace).
  eexists _, s'. split; [exact Estep|].
  split; [exact Hd'|]. exists (news ++ [r]).
  split; [rewrite Hres, Hnews, app_assoc; reflexivity|]. split.
  - pose proof (retry_trace_shape ext max_retries (row_track_id row) (row_track_name row)
                  1 s) as Hshape.
    cbv zeta in Hshape. rewrite E in Hshape. cbn [snd] in Hshape.
    rewrite Htrace, Hshape, !saved_files_app, Hfiles.
    rewrite (saved_files_others _ (retry_no_save _ _ _)).
    assert (Hlen : List.length (results s) = (List.length initial + List.length news)%nat)
      by (rewrite Hnews; apply length_app).
    rewrite Hres, (length_app news). cbn [List.length]. rewrite Nat.add_1_r.
    rewrite checkpoints_succ, checkpoints_app by lia.
    rewrite firstn_all2 by (rewrite length_app; cbn [List.length]; lia).
    rewrite Hlen.
    rewrite app_nil_r, <- app_assoc. f_equal.
    destruct (Z.of_nat (S (List.length initial + List.length news)) mod 25 =? 0),
             (Z.of_nat (S (List.length initial + List.length news)) mod 100 =? 0),
             (Z.of_nat (S (List.length initial + List.length news)) mod 300 =? 0);
      reflexivity.
  - rewrite filter_app, length_app. cbn [filter].
    destruct (clean_lyrics r); cbn [List.length]; lia.
Qed.

Lemma production_loop_books ext max_retries start_index before initial base l :
  forall acc s,
    production_books before initial base acc s ->
    exists acc' s',
      for_each (production_step (quiet ext) max_retries start_index) l acc s
      = (Returned acc', s')
      /\ production_books before initial base acc' s'.
Proof.
  induction l as [|[index row] l IH]; intros acc s Hs; cbn [for_each].
  - exists acc, s. split; [reflexivity|exact Hs].
  - destruct (production_step_books ext max_retries start_index index row
                before initial base acc s Hs) as (acc1 & s1 & E1 & H1).
    rewrite (bind_returned _ _ _ _ _ E1). apply IH, H1.
Qed.

Lemma production_books_start s d acc :
  driver s = Some d ->
  production_books (saved_files (trace s)) (results s) acc acc s.
Proof.
  intros Hd. split; [eauto|]. exists [].
  rewrite !app_nil_r. cbn. split; [reflexivity|]. split; [reflexivity|lia].
Qed.


(** X15. The results files of a run of [production_scrape] in which nothing
    but the extractor fails: one checkpoint at every 25th result, named by
    the count and holding the results up to it, then the final file with all
    of them; no final file when there is no result. *)
Theorem checkpoint_files ext max_retries rows start_index :
  exists s',
    (init (quiet ext) ;;
     production_scrape (quiet ext) max_retries (Some rows) start_index) fresh
    = (Returned tt, s')
    /\ saved_files (trace s')
       = checkpoints 0 (results s') (List.length (results s'))
           ++ match results s' with
              | [] => []
              | _ :: _ => [("spotify_data_final.csv"%string, results s')]
              end.
Proof.
  rewrite (bind_returned _ _ _ _ _ (init_quiet ext)).
  unfold production_scrape, read_csv.
  rewrite (bind_returned _ _ _ rows at_loop_start) by reflexivity.
  destruct (production_loop_books ext max_retries start_index _ _ _ (iterrows rows)
              _ _ (production_books_start at_loop_start 0%nat 0 eq_refl))
    as (acc' & s1 & E & _ & news & Hres & Hfiles & _).
  rewrite (bind_returned _ _ _ _ _ E).
  destruct (production_tail_quiet ext s1) as (s' & Et & Hr' & _).
  exists s'. split; [exact Et|].
  unfold bind, save_progress, save_failed_tracks in Et.
  cbn [at_loop_start results log tick app List.length] in Hres, Hfiles.
  change (saved_files (trace at_loop_start)) with (@nil (string * list result)) in Hfiles.
  cbn [app] in Hfiles. rewrite <- Hres in Hfiles.
  rewrite Hr'. clear Hres news.
  destruct (results s1) as [|r rs] eqn:Er.
  - destruct (failed_tracks s1) eqn:Ef.
    + injection Et as <-. rewrite Hfiles. reflexivity.
    + rewrite effect_quiet in Et. injection Et as <-.
      cbn [trace log tick]. rewrite saved_files_app, Hfiles. reflexivity.
  - rewrite effect_quiet in Et. cbn [failed_tracks log tick] in Et.
    destruct (failed_tracks s1) eqn:Ef.
    + injection Et as <-. cbn [trace log tick].
      rewrite saved_files_app, Hfiles. reflexivity.
    + rewrite effect_quiet in Et. injection Et as <-.
      cbn [trace log tick]. rewrite !saved_files_app, Hfiles.
      cbn [saved_files]. now rewrite app_nil_r.
Qed.


(** ** The rows a run visits *)

Lemma retry_quiet_answered ext max_retries row a s :
  exists r s',
    scrape_track_with_retry (quiet ext) max_retries
      (row_track_id row) (row_track_name row) a s = (Returned r, s')
    /\ answered ext max_retries row r.
Proof.
  revert s. pattern a. apply (attempt_ind max_retries). clear a.
  intros a IH s. rewrite retry_quiet_eq. cbv zeta.
  destruct (ext (calls s) (row_track_id row) (row_track_name row)) as [r|e] eqn:Eo.
  - destruct (has_error r && (a <? max_retries)) eqn:Eb.
    + apply IH. apply andb_prop in Eb. apply Z.ltb_lt, Eb.
    + eexists _, _. split; [reflexivity|]. left. eauto.
  - destruct (a <? max_retries) eqn:Eb.
    + apply IH. apply Z.ltb_lt, Eb.
    + eexists _, _. split; [reflexivity|]. right. eauto.
Qed.

Lemma visits_app tr1 tr2 : visits (tr1 ++ tr2) = visits tr1 ++ visits tr2.
Proof.
  induction tr1 as [|ev tr1 IH]; cbn [app visits]; [reflexivity|].
  destruct ev; rewrite ?IH; reflexivity.
Qed.

Lemma visits_retry tid tname n :
  visits (EvScrape tid tname ::
          List.concat (repeat [EvSleepUniform 5 10; EvScrape tid tname] n))
  = repeat (tid, tname) (S n).
Proof.
  cbn [visits repeat]. f_equal.
  induction n as [|n IH]; cbn [repeat List.concat app visits]; [reflexivity|].
  rewrite IH. reflexivity.
Qed.

(** One turn of the loop on a row that is not skipped: a result that
    answers the row, after calls of [scrape_track] for that row only. *)
Lemma production_step_visits ext max_retries start_index index row acc s d :
  start_index <= index ->
  driver s = Some d ->
  exists r acc' s' k,
    production_step (quiet ext) max_retries start_index (index, row) acc s
    = (Returned acc', s')
    /\ results s' = results s ++ [r]
    /\ answered ext max_retries row r
    /\ (exists d', driver s' = Some d')
    /\ (1 <= k)%nat
    /\ Z.of_nat k <= Z.max 1 max_retries
    /\ visits (trace s')
       = visits (trace s) ++ repeat (row_track_id row, row_track_name row) k.
Proof.
  intros Hidx Hdrv.
  destruct (production_step_quiet_exact ext max_retries start_index index row acc s d
              Hidx Hdrv) as (r & s1 & E & H).
  cbv zeta in H. destruct H as (s' & Estep & Hres & Hd' & Htrace).
  destruct (retry_quiet_answered ext max_retries row 1 s) as (r0 & s0 & E0 & Hans).
  rewrite E in E0. injection E0 as <- <-.
  destruct (retry_calls ext max_retries (row_track_id row) (row_track_name row) 1 s)
    as (r1 & s1' & E1 & Hcalls & Hmost & _).
  rewrite E in E1. injection E1 as <- <-.
  pose proof (retry_trace_shape ext max_retries (row_track_id row) (row_track_name row)
                1 s) as Hshape.
  cbv zeta in Hshape. rewrite E in Hshape. cbn [snd] in Hshape.
  eexists r, _, s', (attempts s s1).
  split; [exact Estep|]. split; [exact Hres|]. split; [exact Hans|].
  split; [exact Hd'|].
  split; [unfold attempts; lia|].
  split; [replace (max_retries - 1 + 1) with max_retries in Hmost by lia; exact Hmost|].
  rewrite Htrace, Hshape, !visits_app, visits_retry.
  replace (S (attempts s s1 - 1)) with (attempts s s1) by (unfold attempts; lia).
  rewrite <- app_assoc. f_equal.
  match goal with
  | |- ?a ++ ?b = ?a => replace b with (@nil (string * string)); [apply app_nil_r|]
  end.
  destruct (Z.of_nat (S (List.length (results s))) mod 25 =? 0),
           (Z.of_nat (S (List.length (results s))) mod 100 =? 0),
           (Z.of_nat (S (List.length (results s))) mod 300 =? 0); reflexivity.
Qed.

(** The whole loop, from a scraper that holds a browser. *)
Lemma production_loop_visits ext max_retries start_index rows :
  forall i acc s d,
    driver s = Some d ->
    exists acc' s' news vs,
      for_each (production_step (quiet ext) max_retries start_index)
               (iterrows_from i rows) acc s = (Returned acc', s')
      /\ results s' = results s ++ news
      /\ Forall2 (answered ext max_retries)
                 (skipn (Z.to_nat (start_index - i)) rows) news
      /\ visits (trace s') = visits (trace s) ++ vs
      /\ visited_in_order (Z.max 1 max_retries)
                          (skipn (Z.to_nat (start_index - i)) rows) vs.
Proof.
  induction rows as [|row rest IH]; intros i acc s d Hdrv.
  - exists acc, s, [], []. cbn [iterrows_from for_each].
    rewrite skipn_nil, !app_nil_r. repeat split; constructor.
  - cbn [iterrows_from for_each].
    destruct (Z.ltb_spec i start_index) as [Hskip|Htake].
    + rewrite (bind_returned _ _ s acc s).
      2:{ unfold production_step. rewrite (proj2 (Z.ltb_lt i start_index) Hskip).
          reflexivity. }
      replace (Z.to_nat (start_index - i))
        with (S (Z.to_nat (start_index - (i + 1)))) by lia.
      exact (IH (i + 1) acc s d Hdrv).
    + destruct (production_step_visits ext max_retries start_index i row acc s d
                  Htake Hdrv)
        as (r & acc1 & s1 & k & E1 & Hres1 & Hans & (d1 & Hdrv1) & Hk1 & Hk2 & Hv1).
      rewrite (bind_returned _ _ _ _ _ E1).
      destruct (IH (i + 1) acc1 s1 d1 Hdrv1)
        as (acc' & s' & news & vs & E & Hres & Hall & Hv & Hord).
      replace (Z.to_nat (start_index - i)) with 0%nat by lia.
      replace (Z.to_nat (start_index - (i + 1))) with 0%nat in Hall, Hord by lia.
      cbn [skipn] in *.
      exists acc', s', (r :: news),
        (repeat (row_track_id row, row_track_name row) k ++ vs).
      split; [exact E|].
      split; [rewrite Hres, Hres1, <- app_assoc; reflexivity|].
      split; [constructor; assumption|].
      split; [rewrite Hv, Hv1, <- app_assoc; reflexivity|].
      constructor; assumption.
Qed.

(** A whole run of [production_scrape] on a new scraper. *)
Lemma production_run_visits ext max_retries rows start_index :
  exists s',
    (init (quiet ext) ;;
     production_scrape (quiet ext) max_retries (Some rows) start_index) fresh
      = (Returned tt, s')
    /\ Forall2 (answered ext max_retries) (skipn (Z.to_nat start_index) rows) (results s')
    /\ visited_in_order (Z.max 1 max_retries) (skipn (Z.to_nat start_index) rows)
                        (visits (trace s')).
Proof.
  rewrite (bind_returned _ _ _ _ _ (init_quiet ext)).
  unfold production_scrape, read_csv.
  rewrite (bind_returned _ _ _ rows at_loop_start) by reflexivity.
  destruct (production_loop_visits ext max_retries start_index rows 0 0
              at_loop_start 0%nat eq_refl)
    as (acc & s1 & news & vs & E & Hres & Hall & Hv & Hord).
  unfold iterrows. rewrite (bind_returned _ _ _ _ _ E).
  rewrite Z.sub_0_r in *. cbn [results log tick app at_loop_start] in Hres.
  change (visits (trace at_loop_start)) with (@nil (string * string)) in Hv.
  cbn [app] in Hv. subst news vs.
  unfold bind, save_progress, save_failed_tracks.
  destruct (results s1) eqn:Er; destruct (failed_tracks s1) eqn:Ef;
    rewrite ?effect_quiet; cbn [failed_tracks log tick]; rewrite ?Ef;
    rewrite ?effect_quiet; eexists; (split; [reflexivity|]);
    cbn [results trace log tick]; rewrite ?Er, ?visits_app; cbn [visits];
    rewrite ?app_nil_r; split; assumption.
Qed.

(** C7 (as amended).  A run of [production_scrape] in which nothing but the
    extractor fails processes the rows at the positions from [start_index]
    on and no others: [scrape_track] is called for those rows only, row
    after row in the order of the file, and the results stand, one for one
    and in that order, for exactly those rows.  A run of [fast_scrape]
    asks for the pages of those rows only, once each and in the order of the
    file, and its results stand one for one for the rows it asked for: all
    the rows from [start_index] on, unless the [TypeError] of a cover that
    is [None] ended the loop at the row of the last result.  No row before
    [start_index] is visited or gets a result. *)
Theorem resume_processes_suffix ext max_retries rows start_index browser :
  let rest := skipn (Z.to_nat start_index) rows in
  (exists s',
     (init (quiet ext) ;;
      production_scrape (quiet ext) max_retries (Some rows) start_index) fresh
       = (Returned tt, s')
     /\ Forall2 (answered ext max_retries) rest (results s')
     /\ visited_in_order (Z.max 1 max_retries) rest (visits (trace s')))
  /\ (let run := Fast.fast_scrape browser rows start_index Fast.init in
      exists k,
        (k <= List.length rest)%nat
        /\ Forall2 Fast.made_for (firstn k rest) (Fast.results (snd run))
        /\ fast_gets (Fast.trace (snd run)) = map row_track_id (firstn k rest)
        /\ (k = List.length rest
            \/ ((exists e, fst run = Raised (PyException e))
                /\ fast_crashed (snd run)))).
Proof.
  cbv zeta. split.
  - apply production_run_visits.
  - destruct (fast_run browser rows start_index)
      as (_ & _ & _ & k & Hk & Hall & Hgets & Hend).
    cbv zeta in *. exists k.
    split; [exact Hk|]. split; [exact Hall|]. split; [exact Hgets|].
    destruct Hend as [(Ek & _)|Hcrash]; [left; exact Ek|right; exact Hcrash].
Qed.

(** C7 as the specification words it fails.  Of two rows to process,
    [fast_scrape] leaves the second unvisited when the image of the first
    has no [src], and so does [production_scrape] when the operator
    interrupts before the second is scraped. *)
Lemma resume_processes_suffix_counterexample :
  let rows := [mkRow "t1" "One"; mkRow "t2" "Two"] in
  map row_track_id (skipn (Z.to_nat 0) rows) = ["t1"%string; "t2"%string]
  /\ (let run := Fast.fast_scrape (fun _ _ => Fast.Loaded None 1) rows 0 Fast.init in
      fst run = Raised (PyException "argument of type 'NoneType' is not iterable")
      /\ fast_gets (Fast.trace (snd run)) = ["t1"%string]
      /\ map Fast.track_id (Fast.results (snd run)) = ["t1"%string])
  /\ (let w := mkWorld always_fine
                 (fun n => if Nat.eqb n 5 then Some KeyboardInterrupt else None) in
      let run := (init w ;; production_scrape w 3 (Some rows) 0) fresh in
      fst run = Raised KeyboardInterrupt
      /\ visits (trace (snd run)) = [("t1"%string, "One"%string)]
      /\ map track_id (results (snd run)) = ["t1"%string]).
Proof. vm_compute. repeat split. Qed.

(** ** The files of a run that is cut short *)

Lemma keeps_try_except {A} (I : scraper -> Prop) (m : M A) (h : string -> M A) :
  keeps I m -> (forall e, keeps I (h e)) -> keeps I (try_except m h).
Proof.
  intros Hm Hh s Hs. unfold try_except. specialize (Hm s Hs).
  destruct (m s) as [[a|[|e]] s1]; cbn [snd] in *; try exact Hm.
  apply Hh, Hm.
Qed.

Lemma keeps_ret {A} (I : scraper -> Prop) (a : A) : keeps I (ret a).
Proof. intros s Hs. exact Hs. Qed.

Lemma keeps_when (I : scraper -> Prop) b m : keeps I m -> keeps I (when b m).
Proof. intros H. destruct b; [exact H|apply keeps_ret]. Qed.

(** A step that only adds results, and events other than saves. *)
Lemma checkpoints_sound_grows s s' more evs :
  results s' = results s ++ more ->
  trace s' = trace s ++ evs ->
  Forall (fun ev => is_save ev = false) evs ->
  checkpoints_sound s -> checkpoints_sound s'.
Proof.
  intros Hr Ht Hev Hs filename rows Hin.
  rewrite Ht in Hin. apply in_app_or in Hin. destruct Hin as [Hin|Hin].
  - destruct (Hs filename rows Hin) as (Hne & rest & E).
    split; [exact Hne|]. exists (rest ++ more). rewrite Hr, E, app_assoc. reflexivity.
  - rewrite Forall_forall in Hev. specialize (Hev _ Hin). discriminate.
Qed.

Lemma sound_effect w ev :
  is_save ev = false -> keeps checkpoints_sound (effect w ev).
Proof.
  intros Hev s Hs. unfold effect.
  destruct (fault w (clock s)); cbn [snd]; [exact Hs|].
  apply (checkpoints_sound_grows s _ [] [ev]); cbn;
    [now rewrite app_nil_r|reflexivity|repeat constructor; exact Hev|exact Hs].
Qed.

Lemma sound_scrape_track w tid tname : keeps checkpoints_sound (scrape_track w tid tname).
Proof.
  intros s Hs. unfold scrape_track.
  destruct (fault w (clock s)); cbn [snd]; [exact Hs|].
  assert (H : checkpoints_sound
                (mkScraper (driver s) (results s) (failed_tracks s) (sessions s)
                           (S (calls s)) (S (clock s)) (trace s ++ [EvScrape tid tname]))).
  { apply (checkpoints_sound_grows s _ [] [EvScrape tid tname]); cbn;
      [now rewrite app_nil_r|reflexivity|repeat constructor|exact Hs]. }
  destruct (extractor w (calls s) tid tname); exact H.
Qed.

Lemma sound_failed_tracks_append f : keeps checkpoints_sound (failed_tracks_append f).
Proof. intros s Hs. exact Hs. Qed.

Lemma sound_results_append r : keeps checkpoints_sound (results_append r).
Proof.
  intros s Hs.
  apply (checkpoints_sound_grows s _ [r] []); cbn;
    [reflexivity|now rewrite app_nil_r|constructor|exact Hs].
Qed.

Lemma sound_save_progress w filename : keeps checkpoints_sound (save_progress w filename).
Proof.
  intros s Hs. unfold save_progress.
  destruct (results s) as [|r rs] eqn:Er; [exact Hs|].
  unfold effect. destruct (fault w (clock s)); cbn [snd]; [exact Hs|].
  intros f rows Hin. cbn [trace results log tick] in *.
  apply in_app_or in Hin. destruct Hin as [Hin|[E|[]]].
  - exact (Hs f rows Hin).
  - injection E as _ <-. split; [discriminate|].
    exists []. rewrite app_nil_r. exact Er.
Qed.

Lemma sound_save_failed_tracks w : keeps checkpoints_sound (save_failed_tracks w).
Proof.
  intros s Hs. unfold save_failed_tracks.
  destruct (failed_tracks s); [exact Hs|]. apply sound_effect; [reflexivity|exact Hs].
Qed.

Lemma sound_setup_driver w : keeps checkpoints_sound (setup_driver w).
Proof.
  intros s Hs. unfold setup_driver.
  destruct (fault w (clock s)); cbn [snd]; [exact Hs|].
  apply sound_effect; [reflexivity|].
  apply (checkpoints_sound_grows s _ [] [EvSetupDriver (sessions s)]); cbn;
    [now rewrite app_nil_r|reflexivity|repeat constructor|exact Hs].
Qed.

Lemma sound_driver_quit w : keeps checkpoints_sound (driver_quit w).
Proof.
  intros s Hs. unfold driver_quit.
  destruct (driver s); [|exact Hs]. apply sound_effect; [reflexivity|exact Hs].
Qed.

Lemma sound_close w : keeps checkpoints_sound (close w).
Proof.
  intros s Hs. unfold close.
  destruct (driver s); [|exact Hs]. apply sound_effect; [reflexivity|exact Hs].
Qed.

Lemma sound_restart_browser w : keeps checkpoints_sound (restart_browser w).
Proof.
  unfold restart_browser, sleep.
  apply keeps_bind; [apply sound_driver_quit|]. intros _.
  apply keeps_bind; [apply sound_effect; reflexivity|]. intros _.
  apply keeps_bind; [apply sound_setup_driver|]. intros _.
  apply sound_effect; reflexivity.
Qed.

Lemma sound_retry w max_retries tid tname a :
  keeps checkpoints_sound (scrape_track_with_retry w max_retries tid tname a).
Proof.
  pattern a. apply (attempt_ind max_retries). clear a.
  intros a IH s. rewrite scrape_track_with_retry_equation_1.
  revert s. apply keeps_try_except.
  - apply keeps_bind; [apply sound_scrape_track|].
    intros r. destruct (has_error r); [|apply keeps_ret].
    destruct (Z_lt_dec a max_retries) as [Hlt|Hge]; [|apply keeps_ret].
    apply keeps_bind; [apply sound_effect; reflexivity|].
    intros _ s. apply IH, Hlt.
  - intros e. destruct (Z_lt_dec a max_retries) as [Hlt|Hge].
    + apply keeps_bind; [apply sound_effect; reflexivity|].
      intros _ s. apply IH, Hlt.
    + apply keeps_bind; [apply sound_failed_tracks_append|].
      intros _. apply keeps_ret.
Qed.

Lemma sound_production_step w max_retries start_index ir acc :
  keeps checkpoints_sound (production_step w max_retries start_index ir acc).
Proof.
  destruct ir as [index row]. unfold production_step.
  destruct (index <? start_index); [apply keeps_ret|].
  apply keeps_bind; [apply sound_retry|]. intros r.
  apply keeps_bind; [apply sound_results_append|]. intros _.
  apply keeps_bind; [intros s Hs; exact Hs|]. intros completed.
  apply keeps_bind.
  { unfold adaptive_delay. destruct (adaptive_range _ 2 5).
    apply sound_effect. reflexivity. }
  intros _. apply keeps_bind; [apply keeps_when, sound_save_progress|].
  intros _. apply keeps_bind; [apply keeps_when, sound_effect; reflexivity|].
  intros _. apply keeps_bind; [apply keeps_when, sound_restart_browser|].
  intros _. apply keeps_ret.
Qed.

Lemma sound_production_scrape w max_retries csv start_index :
  keeps checkpoints_sound (production_scrape w max_retries csv start_index).
Proof.
  unfold production_scrape, read_csv.
  apply keeps_bind.
  { apply keeps_bind; [apply sound_effect; reflexivity|].
    intros _. destruct csv; [apply keeps_ret|intros s Hs; exact Hs]. }
  intros df. apply keeps_bind.
  { apply keeps_for_each. intros x acc. apply sound_production_step. }
  intros _. apply keeps_bind; [apply sound_save_progress|].
  intros _. apply sound_save_failed_tracks.
Qed.

Lemma sound_main_guarded w csv : keeps checkpoints_sound (main_guarded w csv).
Proof.
  intros s Hs. unfold main_guarded.
  assert (H : checkpoints_sound (snd (main_try w csv s))).
  { unfold main_try. destruct csv; [apply sound_production_scrape, Hs|exact Hs]. }
  destruct (main_try w csv s) as [[[]|[|e]] s1]; cbn [snd] in H.
  - exact H.
  - apply sound_save_progress, H.
  - apply sound_save_progress, H.
Qed.

(** X16. Whatever cuts a run of [main] short, and wherever -- in the
    constructor, in the loop, in a handler or in [close] -- a results file
    that was written is not empty, and holds the results the scraper had at
    some point, which are the first of those it has in the end. *)
Theorem saved_files_are_prefixes w csv filename rows :
  In (EvSave filename rows) (trace (snd (main w csv))) ->
  rows <> [] /\ exists rest, results (snd (main w csv)) = rows ++ rest.
Proof.
  revert filename rows. change (checkpoints_sound (snd (main w csv))).
  unfold main, bind, init.
  assert (H0 : checkpoints_sound (snd (setup_driver w fresh))).
  { apply sound_setup_driver. intros f rows []. }
  destruct (setup_driver w fresh) as [[[]|e] s0]; cbn [snd] in *; [|exact H0].
  unfold try_finally.
  pose proof (sound_main_guarded w csv s0 H0) as H1.
  destruct (main_guarded w csv s0) as [o s1]. cbn [snd] in H1.
  pose proof (sound_close w s1 H1) as H2.
  destruct (close w s1) as [[[]|e] s2]; exact H2.
Qed.

Lemma saved_files_are_prefixes_witness :
  let w := mkWorld always_fine
             (fun n => if Nat.eqb n 5 then Some KeyboardInterrupt else None) in
  let s := snd (main w (Some [mkRow "t1" "One"; mkRow "t2" "Two"])) in
  exists rest, results s = firstn 1 (results s) ++ rest.
Proof.
  cbv zeta.
  refine (proj2 (saved_files_are_prefixes
                   (mkWorld always_fine
                      (fun n => if Nat.eqb n 5 then Some KeyboardInterrupt else None))
                   (Some [mkRow "t1" "One"; mkRow "t2" "Two"])
                   "spotify_data_interrupted.csv" _ _)).
  vm_compute. repeat (first [left; reflexivity | right]).
Defined.

(** ** Runs on the pages of the tracks *)

(** Where the extractor raises nothing, the controller returns one of its
    answers. *)
Lemma retry_quiet_extracted ext max_retries tid tname :
  (forall n, exists r, ext n tid tname = Extracted r) ->
  forall a s,
    exists n r s',
      scrape_track_with_retry (quiet ext) max_retries tid tname a s = (Returned r, s')
      /\ ext n tid tname = Extracted r.
Proof.
  intros Hext a. pattern a. apply (attempt_ind max_retries). clear a.
  intros a IH s. rewrite retry_quiet_eq. cbv zeta.
  destruct (Hext (calls s)) as (r & E). rewrite E.
  destruct (has_error r && (a <? max_retries)) eqn:Eb.
  - apply andb_prop in Eb. destruct Eb as (_ & Hlt). apply Z.ltb_lt in Hlt.
    apply (IH Hlt).
  - exists (calls s), r. eexists. split; [reflexivity|exact E].
Qed.

(** What holds of every answer of the controller holds of the results of
    the loop, row by row. *)
Lemma production_loop_each ext max_retries start_index (P : track_row -> result -> Prop) :
  (forall row s r s1,
      scrape_track_with_retry (quiet ext) max_retries
        (row_track_id row) (row_track_name row) 1 s = (Returned r, s1) ->
      P row r) ->
  forall rows i acc s d,
    driver s = Some d ->
    exists acc' s' news,
      for_each (production_step (quiet ext) max_retries start_index)
               (iterrows_from i rows) acc s = (Returned acc', s')
      /\ results s' = results s ++ news
      /\ Forall2 P (skipn (Z.to_nat (start_index - i)) rows) news.
Proof.
  intros HP. induction rows as [|row rest IH]; intros i acc s d Hdrv.
  - exists acc, s, []. cbn [iterrows_from for_each]. rewrite skipn_nil, app_nil_r.
    repeat split. constructor.
  - cbn [iterrows_from for_each].
    destruct (Z.ltb_spec i start_index) as [Hskip|Htake].
    + rewrite (bind_returned _ _ s acc s).
      2:{ unfold production_step. rewrite (proj2 (Z.ltb_lt i start_index) Hskip).
          reflexivity. }
      destruct (IH (i + 1) acc s d Hdrv) as (acc' & s' & news & E & Hres & Hall).
      exists acc', s', news. split; [exact E|]. split; [exact Hres|].
      replace (Z.to_nat (start_index - i))
        with (S (Z.to_nat (start_index - (i + 1)))) by lia.
      exact Hall.
    + destruct (production_step_quiet_exact ext max_retries start_index i row acc s d
                  Htake Hdrv) as (r & s1 & E1 & H).
      cbv zeta in H. destruct H as (s2 & Estep & Hres2 & (d2 & Hd2) & _).
      rewrite (bind_returned _ _ _ _ _ Estep).
      destruct (IH (i + 1) (if clean_lyrics r then acc + 1 else acc) s2 d2 Hd2)
        as (acc' & s' & news & E & Hres & Hall).
      exists acc', s', (r :: news). split; [exact E|].
      split; [rewrite Hres, Hres2, <- app_assoc; reflexivity|].
      replace (Z.to_nat (start_index - i)) with 0%nat by lia.
      replace (Z.to_nat (start_index - (i + 1))) with 0%nat in Hall by lia.
      cbn [skipn] in *. constructor; [|exact Hall].
      exact (HP row s r s1 E1).
Qed.

(** X17. A run of the production scraper with the [scrape_track] it
    inherits, on any pages: the results stand for the rows from
    [start_index] on, one for one and in their order, each with the
    identifiers of its row and what was read off one of the pages shown for
    it; no track is recorded as failed. *)
Theorem results_read_from_pages pages max_retries rows start_index :
  exists s',
    (init (quiet (Page.extractor pages)) ;;
     production_scrape (quiet (Page.extractor pages)) max_retries (Some rows) start_index)
      fresh
    = (Returned tt, s')
    /\ Forall2 (read_from pages) (skipn (Z.to_nat start_index) rows) (results s')
    /\ failed_tracks s' = [].
Proof.
  set (ext := Page.extractor pages).
  assert (Hext : forall n tid tname, exists r, ext n tid tname = Extracted r).
  { intros n tid tname. unfold ext, Page.extractor.
    destruct (pages n tid). eauto. }
  rewrite (bind_returned _ _ _ _ _ (init_quiet ext)).
  unfold production_scrape, read_csv.
  rewrite (bind_returned _ _ _ rows at_loop_start) by reflexivity.
  destruct (production_loop_each ext max_retries start_index (read_from pages))
    with (rows := rows) (i := 0) (acc := 0) (s := at_loop_start) (d := 0%nat)
    as (acc' & s1 & news & E & Hres & Hall).
  { intros row s r s1 E.
    destruct (retry_quiet_extracted ext max_retries (row_track_id row) (row_track_name row)
                (fun n => Hext n _ _) 1 s) as (n & r' & s' & E' & Hn).
    rewrite E in E'. injection E' as <- <-.
    exists n. unfold ext, Page.extractor in Hn.
    destruct (pages n (row_track_id row)) as [v found]. cbn [fst snd].
    now injection Hn as <-. }
  { reflexivity. }
  pose proof (loop_records_nothing ext max_retries start_index rows Hext
                0 0 at_loop_start 0%nat eq_refl) as Hfailed.
  unfold iterrows. rewrite E in Hfailed. cbn [snd] in Hfailed.
  rewrite (bind_returned _ _ _ _ _ E).
  destruct (production_tail_quiet ext s1) as (s' & Et & Hr' & Hf' & _).
  exists s'. split; [exact Et|].
  rewrite Hr', Hf', Hres, Hfailed. rewrite Z.sub_0_r in Hall.
  split; [exact Hall|reflexivity].
Qed.

(** ** The text of the estimate *)

Lemma Qfloor_unique (y : Q) (z : Z) :
  (inject_Z z <= y)%Q -> (y < inject_Z (z + 1))%Q -> Qfloor y = z.
Proof.
  intros Hle Hlt.
  pose proof (Qfloor_le y) as H1. pose proof (Qlt_floor y) as H2.
  assert (Ha : (inject_Z z < inject_Z (Qfloor y + 1))%Q) by (eapply Qle_lt_trans; eassumption).
  assert (Hb : (inject_Z (Qfloor y) < inject_Z (z + 1))%Q) by (eapply Qle_lt_trans; eassumption).
  rewrite <- Zlt_Qlt in Ha, Hb. lia.
Qed.

(** X18. Whatever double the two divisions of [calculate_eta] gave for the
    seconds left, when it is not negative and below 2^53 the text written
    shows its whole minutes as hours and minutes: the hours are not
    negative and the minutes lie between 0 and 59. *)
Theorem calculate_eta_text (eta_seconds : Q) :
  (0 <= eta_seconds)%Q ->
  (eta_seconds < inject_Z (2 ^ 53))%Q ->
  exists hours minutes,
    eta_text eta_seconds
    = (PyStr.of_Z hours ++ "h " ++ PyStr.of_Z minutes ++ "m")%string
    /\ 0 <= hours
    /\ 0 <= minutes <= 59
    /\ 60 * hours + minutes = Qfloor (eta_seconds / 60).
Proof.
  intros Hx _. set (x := eta_seconds) in *.
  exists (py_floordiv x 3600), (py_floordiv (py_mod x 3600) 60).
  split; [reflexivity|].
  unfold py_mod, py_floordiv.
  set (h := Qfloor (x / 3600)).
  pose proof (Qfloor_le (x / 3600)) as Hh1. pose proof (Qlt_floor (x / 3600)) as Hh2.
  fold h in Hh1, Hh2.
  set (y := ((x - 3600 * inject_Z h) / 60)%Q).
  pose proof (Qfloor_le y) as Hm1. pose proof (Qlt_floor y) as Hm2.
  set (m := Qfloor y) in *.
  rewrite inject_Z_plus in Hh2, Hm2. change (inject_Z 1) with 1%Q in Hh2, Hm2.
  unfold y, Qdiv in Hh1, Hh2, Hm1, Hm2.
  change (/ 3600)%Q with (1 # 3600)%Q in Hh1, Hh2.
  change (/ 60)%Q with (1 # 60)%Q in Hm1, Hm2.
  assert (Hh0 : 0 <= h).
  { change 0 with (Qfloor 0). apply Qfloor_resp_le.
    unfold Qdiv. change (/ 3600)%Q with (1 # 3600)%Q. lra. }
  assert (Hm0 : 0 <= m).
  { change 0 with (Qfloor 0). apply Qfloor_resp_le.
    unfold y, Qdiv. change (/ 60)%Q with (1 # 60)%Q. lra. }
  assert (Hm59 : m < 60).
  { rewrite Zlt_Qlt. change (inject_Z 60) with 60%Q. lra. }
  split; [exact Hh0|]. split; [lia|].
  symmetry. apply Qfloor_unique.
  - rewrite inject_Z_plus, inject_Z_mult. change (inject_Z 60) with 60%Q.
    unfold Qdiv. change (/ 60)%Q with (1 # 60)%Q. lra.
  - rewrite !inject_Z_plus, inject_Z_mult. change (inject_Z 60) with 60%Q.
    change (inject_Z 1) with 1%Q.
    unfold Qdiv. change (/ 60)%Q with (1 # 60)%Q. lra.
Qed.

(** The theorem of X18 at the double next below 120, which the two divisions
    give for 25 tracks of 275 completed in 12 seconds: one minute, not two. *)
Lemma calculate_eta_text_witness :
  eta_text (8444249301319679 # 70368744177664) = "0h 1m"%string
  /\ exists hours minutes,
       eta_text (8444249301319679 # 70368744177664)
       = (PyStr.of_Z hours ++ "h " ++ PyStr.of_Z minutes ++ "m")%string
       /\ 0 <= hours
       /\ 0 <= minutes <= 59
       /\ 60 * hours + minutes = Qfloor ((8444249301319679 # 70368744177664) / 60).
Proof.
  split; [reflexivity|].
  apply (calculate_eta_text (8444249301319679 # 70368744177664)).
  - unfold Qle; cbn; lia.
  - unfold Qlt; cbn; lia.
Defined.

(** ** The loop of [scrape_all_tracks] *)

Lemma base_scrape_track_quiet ext tid tname s :
  Base.scrape_track (quiet ext) tid tname s
  = (Returned (match ext (calls s) tid tname with
               | Extracted r => r
               | Failure e => Base.error_result tid tname e
               end),
     after_scrape tid tname s).
Proof.
  unfold Base.scrape_track, try_except, scrape_track, after_scrape. cbn.
  destruct (ext (calls s) tid tname); reflexivity.
Qed.

Lemma base_restart_quiet ext s d :
  driver s = Some d ->
  Base.restart_browser (quiet ext) s =
  (Returned tt,
   mkScraper (Some (sessions s)) (results s) (failed_tracks s)
             (S (sessions s)) (calls s) (4 + clock s)
             (trace s ++ [EvQuit d; EvSleep 5; EvSetupDriver (sessions s); EvExecuteScript])).
Proof.
  intros Hd. unfold Base.restart_browser, driver_quit, sleep, setup_driver, bind.
  rewrite Hd. cbn. unfold log, tick. cbn. rewrite <- !app_assoc. reflexivity.
Qed.

(** One turn of the loop on a row that is not skipped, event by event. *)
Lemma base_step_quiet_exact ext start_index batch_size index row batch_count s d :
  start_index <= index ->
  driver s = Some d ->
  batch_size <> 0 ->
  let tid := row_track_id row in
  let tname := row_track_name row in
  let r := match ext (calls s) tid tname with
           | Extracted r => r
           | Failure e => Base.error_result tid tname e
           end in
  let completed := S (List.length (results s)) in
  let batch_count' := if ends_batch batch_size completed
                      then batch_count + 1 else batch_count in
  exists s',
    Base.scrape_all_step (quiet ext) start_index batch_size (index, row) batch_count s
    = (Returned batch_count', s')
    /\ results s' = results s ++ [r]
    /\ calls s' = S (calls s)
    /\ (exists d', driver s' = Some d')
    /\ trace s'
       = trace s
           ++ [EvScrape tid tname; EvSleepUniform 2 5]
           ++ (if ends_batch batch_size completed
               then [EvSave "spotify_data_progress.csv" (results s ++ [r])]
                      ++ (if (batch_count + 1) mod 5 =? 0
                          then [EvSleepUniform 30 60] else [])
                      ++ (if Z.of_nat completed mod 200 =? 0
                          then [EvQuit d; EvSleep 5; EvSetupDriver (sessions s);
                                EvExecuteScript]
                          else [])
               else []).
Proof.
  intros Hidx Hdrv Hb. cbv zeta.
  unfold Base.scrape_all_step.
  rewrite (proj2 (Z.ltb_ge index start_index) Hidx).
  rewrite (bind_returned _ _ _ _ _ (base_scrape_track_quiet ext _ _ s)).
  set (r := match ext (calls s) (row_track_id row) (row_track_name row) with
            | Extracted r => r
            | Failure e => Base.error_result (row_track_id row) (row_track_name row) e
            end).
  erewrite bind_returned by reflexivity.
  unfold random_delay, sleep_uniform.
  erewrite bind_returned by apply effect_quiet.
  erewrite bind_returned by reflexivity.
  cbn [results log tick after_scrape].
  assert (Elen : Z.of_nat (List.length (results s ++ [r]))
                 = Z.of_nat (S (List.length (results s)))).
  { rewrite length_app. cbn [List.length]. f_equal. lia. }
  rewrite Elen. unfold ends_batch.
  set (completed := Z.of_nat (S (List.length (results s)))).
  unfold Base.py_mod_int. rewrite (proj2 (Z.eqb_neq batch_size 0) Hb).
  erewrite bind_returned by reflexivity.
  destruct (completed mod batch_size =? 0).
  2:{ eexists. split; [reflexivity|].
      cbn [results calls driver trace log tick after_scrape].
      rewrite <- !app_assoc. cbn [app].
      repeat split; try reflexivity. exists d. exact Hdrv. }
  erewrite bind_returned.
  2:{ apply (when_save_quiet ext true). cbn.
      intros El. apply app_eq_nil in El. destruct El; discriminate. }
  erewrite bind_returned by apply when_quiet.
  destruct (completed mod 200 =? 0).
  - erewrite bind_returned.
    2:{ unfold when. apply (base_restart_quiet ext _ d).
        destruct ((batch_count + 1) mod 5 =? 0); cbn; exact Hdrv. }
    eexists. split; [reflexivity|].
    destruct ((batch_count + 1) mod 5 =? 0);
      cbn [results calls driver trace log tick after_scrape sessions];
      rewrite <- ?app_assoc; cbn [app];
      repeat split; try reflexivity; eexists; reflexivity.
  - eexists. split; [reflexivity|].
    destruct ((batch_count + 1) mod 5 =? 0);
      cbn [when ret results calls driver trace log tick after_scrape sessions fst snd];
      rewrite <- ?app_assoc; cbn [app];
      repeat split; try reflexivity; exists d; exact Hdrv.
Qed.

Lemma base_checkpoints_succ batch_size a rs n :
  base_checkpoints batch_size a rs (S n)
  = base_checkpoints batch_size a rs n
      ++ (if ends_batch batch_size (S (a + n))
          then [("spotify_data_progress.csv"%string, firstn (S (a + n)) rs)]
          else []).
Proof.
  unfold base_checkpoints. rewrite seq_S, flat_map_app. cbn [flat_map Nat.add].
  now rewrite app_nil_r.
Qed.

Lemma base_checkpoints_app batch_size a rs more n :
  (a + n <= List.length rs)%nat ->
  base_checkpoints batch_size a (rs ++ more) n = base_checkpoints batch_size a rs n.
Proof.
  induction n as [|n IH]; intros Hn; [reflexivity|].
  rewrite !base_checkpoints_succ, IH by lia.
  rewrite firstn_app. replace (S (a + n) - List.length rs)%nat with 0%nat by lia.
  cbn [firstn]. now rewrite app_nil_r.
Qed.

Lemma count_seq_succ (p : nat -> bool) a n :
  List.length (filter p (seq (S a) (S n)))
  = (List.length (filter p (seq (S a) n)) + (if p (S (a + n)) then 1 else 0))%nat.
Proof.
  rewrite seq_S, filter_app, length_app. cbn [filter Nat.add].
  destruct (p (S (a + n))); reflexivity.
Qed.

Lemma base_step_books ext start_index batch_size index row
    before initial started called base batch_count s :
  batch_size <> 0 ->
  start_index <= index ->
  base_books batch_size before initial started called base batch_count s ->
  exists batch_count' s',
    Base.scrape_all_step (quiet ext) start_index batch_size (index, row) batch_count s
    = (Returned batch_count', s')
    /\ results s' = results s ++ [match ext (calls s) (row_track_id row) (row_track_name row) with
                                  | Extracted r => r
                                  | Failure e =>
                                      Base.error_result (row_track_id row) (row_track_name row) e
                                  end]
    /\ base_books batch_size before initial started called base batch_count' s'.
Proof.
  intros Hb Htake ((d & Hdrv) & news & Hnews & Hcalls & Hfiles & Hacq & Hcount).
  destruct (base_step_quiet_exact ext start_index batch_size index row batch_count s d
              Htake Hdrv Hb) as (s' & Estep & Hres & Hc' & Hd' & Htrace).
  cbv zeta in *.
  set (r := match ext (calls s) (row_track_id row) (row_track_name row) with
            | Extracted r => r
            | Failure e => Base.error_result (row_track_id row) (row_track_name row) e
            end) in *.
  eexists _, s'. split; [exact Estep|]. split; [exact Hres|].
  split; [exact Hd'|]. exists (news ++ [r]).
  assert (Hlen : List.length (results s) = (List.length initial + List.length news)%nat)
    by (rewrite Hnews; apply length_app).
  rewrite (length_app news). cbn [List.length]. rewrite Nat.add_1_r.
  rewrite !count_seq_succ, base_checkpoints_succ.
  rewrite Hlen in Htrace |- *.
  split; [rewrite Hres, Hnews, app_assoc; reflexivity|].
  split; [lia|].
  assert (Hrs : firstn (S (List.length initial + List.length news)) (results s')
                = results s ++ [r]).
  { rewrite Hres. apply firstn_all2. rewrite length_app. cbn [List.length]. lia. }
  split; [|split].
  - rewrite Hres at 1. rewrite base_checkpoints_app by lia.
    rewrite Htrace, !saved_files_app, Hfiles, Hrs, <- app_assoc. f_equal.
    destruct (ends_batch batch_size (S (List.length initial + List.length news)));
      [|reflexivity].
    destruct ((batch_count + 1) mod 5 =? 0),
             (Z.of_nat (S (List.length initial + List.length news)) mod 200 =? 0);
      reflexivity.
  - rewrite Htrace, !acquire_count_app, Hacq. unfold ends_session.
    destruct (ends_batch batch_size (S (List.length initial + List.length news)));
      [|cbn; lia].
    destruct ((batch_count + 1) mod 5 =? 0),
             (Z.of_nat (S (List.length initial + List.length news)) mod 200 =? 0);
      cbn; lia.
  - destruct (ends_batch batch_size (S (List.length initial + List.length news)));
      cbn [List.length]; lia.
Qed.

Lemma base_loop_books ext start_index batch_size before initial started called base rows :
  batch_size <> 0 ->
  forall i batch_count s,
    base_books batch_size before initial started called base batch_count s ->
    exists batch_count' s' added,
      for_each (Base.scrape_all_step (quiet ext) start_index batch_size)
               (iterrows_from i rows) batch_count s
      = (Returned batch_count', s')
      /\ results s' = results s ++ added
      /\ Forall2 (base_answers ext) (skipn (Z.to_nat (start_index - i)) rows) added
      /\ base_books batch_size before initial started called base batch_count' s'.
Proof.
  intros Hb. induction rows as [|row rest IH]; intros i b s Hs.
  - exists b, s, []. cbn [iterrows_from for_each]. rewrite skipn_nil, app_nil_r.
    split; [reflexivity|]. split; [reflexivity|]. split; [constructor|exact Hs].
  - cbn [iterrows_from for_each].
    destruct (Z.ltb_spec i start_index) as [Hskip|Htake].
    + rewrite (bind_returned _ _ s b s).
      2:{ unfold Base.scrape_all_step.
          rewrite (proj2 (Z.ltb_lt i start_index) Hskip). reflexivity. }
      destruct (IH (i + 1) b s Hs) as (b' & s' & added & E & Hres & Hall & Hbooks).
      exists b', s', added. split; [exact E|]. split; [exact Hres|].
      split; [|exact Hbooks].
      replace (Z.to_nat (start_index - i))
        with (S (Z.to_nat (start_index - (i + 1)))) by lia.
      exact Hall.
    + destruct (base_step_books ext start_index batch_size i row
                  before initial started called base b s Hb Htake Hs)
        as (b1 & s1 & E1 & Hres1 & Hbooks1).
      rewrite (bind_returned _ _ _ _ _ E1).
      destruct (IH (i + 1) b1 s1 Hbooks1) as (b' & s' & added & E & Hres & Hall & Hbooks).
      eexists b', s', (_ :: added). split; [exact E|].
      split; [rewrite Hres, Hres1, <- app_assoc; reflexivity|].
      split; [|exact Hbooks].
      replace (Z.to_nat (start_index - i)) with 0%nat by lia.
      replace (Z.to_nat (start_index - (i + 1))) with 0%nat in Hall by lia.
      cbn [skipn] in *. constructor; [|exact Hall].
      exists (calls s).
      destruct (ext (calls s) (row_track_id row) (row_track_name row)); reflexivity.
Qed.

(** X19. A run of [scrape_all_tracks] in which nothing but the extractor
    fails, with a batch size other than zero: every row from [start_index]
    on is scraped once and gives one result, an exception of the extraction
    ending in the dictionary of its error; the progress file is written
    anew at the end of every batch and the final file at the end; the
    browser is started again only after a batch that ends on a multiple of
    200 results. *)
Theorem base_run_cadence ext rows start_index batch_size :
  batch_size <> 0 ->
  exists s',
    (init (quiet ext) ;;
     Base.scrape_all_tracks (quiet ext) (Some rows) start_index batch_size) fresh
    = (Returned tt, s')
    /\ Forall2 (base_answers ext) (skipn (Z.to_nat start_index) rows) (results s')
    /\ calls s' = List.length (results s')
    /\ saved_files (trace s')
       = base_checkpoints batch_size 0 (results s') (List.length (results s'))
           ++ match results s' with
              | [] => []
              | _ :: _ => [("spotify_data_final.csv"%string, results s')]
              end
    /\ acquire_count (trace s')
       = (1 + count_upto (ends_session batch_size) (List.length (results s')))%nat.
Proof.
  intros Hb.
  rewrite (bind_returned _ _ _ _ _ (init_quiet ext)).
  unfold Base.scrape_all_tracks, read_csv.
  rewrite (bind_returned _ _ _ rows at_loop_start) by reflexivity.
  destruct (base_loop_books ext start_index batch_size [] [] 1 0 0 rows Hb
              0 0 at_loop_start)
    as (b' & s1 & added & E & Hres & Hall & _ & news & Hnews & Hcalls & Hfiles & Hacq & _).
  { split; [exists 0%nat; reflexivity|]. exists []. repeat split. }
  unfold iterrows. rewrite (bind_returned _ _ _ _ _ E).
  cbn [app List.length Nat.add] in Hnews, Hcalls, Hfiles, Hacq.
  cbn [at_loop_start results log tick app] in Hres. subst added.
  rewrite Z.sub_0_r in Hall. rewrite <- Hnews in Hcalls, Hfiles, Hacq.
  unfold save_progress. destruct (results s1) as [|r rs] eqn:Er.
  - exists s1. split; [reflexivity|]. rewrite Er.
    split; [exact Hall|]. split; [exact Hcalls|].
    split; [rewrite Hfiles; reflexivity|exact Hacq].
  - rewrite effect_quiet. eexists. split; [reflexivity|].
    cbn [results calls trace log tick]. rewrite Er.
    split; [exact Hall|]. split; [exact Hcalls|].
    rewrite saved_files_app, acquire_count_app, Hfiles, Hacq.
    split; [reflexivity|]. cbn. unfold count_upto. lia.
Qed.

Lemma base_run_cadence_witness :
  exists s',
    (init (quiet always_raises) ;;
     Base.scrape_all_tracks (quiet always_raises)
       (Some [mkRow "t1" "One"; mkRow "t2" "Two"]) 0 2) fresh
    = (Returned tt, s')
    /\ calls s' = List.length (results s')
    /\ saved_files (trace s')
       = [("spotify_data_progress.csv"%string, results s');
          ("spotify_data_final.csv"%string, results s')].
Proof.
  destruct (base_run_cadence always_raises [mkRow "t1" "One"; mkRow "t2" "Two"] 0 2
              ltac:(discriminate)) as (s' & E & _ & Hcalls & Hfiles & _).
  exists s'. split; [exact E|]. split; [exact Hcalls|].
  rewrite Hfiles. vm_compute in E. injection E as <-. reflexivity.
Defined.

Lemma base_loop_raises ext start_index rows :
  forall i batch_count s row rest,
    skipn (Z.to_nat (start_index - i)) rows = row :: rest ->
    exists e s',
      for_each (Base.scrape_all_step (quiet ext) start_index 0)
               (iterrows_from i rows) batch_count s
      = (Raised (PyException e), s')
      /\ List.length (results s') = S (List.length (results s))
      /\ saved_files (trace s') = saved_files (trace s)
      /\ driver s' = driver s.
Proof.
  induction rows as [|row0 rows IH]; intros i b s row rest Hskipn.
  - rewrite skipn_nil in Hskipn. discriminate.
  - cbn [iterrows_from for_each].
    destruct (Z.ltb_spec i start_index) as [Hskip|Htake].
    + rewrite (bind_returned _ _ s b s).
      2:{ unfold Base.scrape_all_step.
          rewrite (proj2 (Z.ltb_lt i start_index) Hskip). reflexivity. }
      apply (IH (i + 1) b s row rest).
      replace (Z.to_nat (start_index - i))
        with (S (Z.to_nat (start_index - (i + 1)))) in Hskipn by lia.
      exact Hskipn.
    + unfold bind at 1. unfold Base.scrape_all_step.
      rewrite (proj2 (Z.ltb_ge i start_index) Htake).
      rewrite (bind_returned _ _ _ _ _ (base_scrape_track_quiet ext _ _ s)).
      erewrite bind_returned by reflexivity.
      unfold random_delay, sleep_uniform.
      erewrite bind_returned by apply effect_quiet.
      erewrite bind_returned by reflexivity.
      unfold Base.py_mod_int. cbn [Z.eqb bind raise].
      eexists _, _. split; [reflexivity|].
      cbn [results trace driver log tick after_scrape].
      rewrite length_app, !saved_files_app. cbn. rewrite !app_nil_r.
      repeat split. lia.
Qed.

(** X20. With [batch_size = 0] and a row to scrape, [scrape_all_tracks]
    ends in the exception of its test for the end of a batch, after the
    first track: one result is held, no file is written and the browser is
    still the scraper's. *)
Theorem base_batch_size_zero ext rows start_index row rest :
  skipn (Z.to_nat start_index) rows = row :: rest ->
  exists e s',
    (init (quiet ext) ;;
     Base.scrape_all_tracks (quiet ext) (Some rows) start_index 0) fresh
    = (Raised (PyException e), s')
    /\ List.length (results s') = 1%nat
    /\ saved_files (trace s') = []
    /\ driver s' = Some 0%nat.
Proof.
  intros Hskipn.
  rewrite (bind_returned _ _ _ _ _ (init_quiet ext)).
  unfold Base.scrape_all_tracks, read_csv.
  rewrite (bind_returned _ _ _ rows at_loop_start) by reflexivity.
  destruct (base_loop_raises ext start_index rows 0 0 at_loop_start row rest)
    as (e & s' & E & Hlen & Hfiles & Hdrv).
  { rewrite Z.sub_0_r. exact Hskipn. }
  exists e, s'. unfold iterrows, bind at 1. rewrite E.
  split; [reflexivity|]. split; [exact Hlen|]. split; [exact Hfiles|exact Hdrv].
Qed.

Lemma base_batch_size_zero_witness :
  exists e s',
    (init (quiet always_fine) ;;
     Base.scrape_all_tracks (quiet always_fine)
       (Some [mkRow "t1" "One"; mkRow "t2" "Two"]) 1 0) fresh
    = (Raised (PyException e), s')
    /\ List.length (results s') = 1%nat
    /\ saved_files (trace s') = []
    /\ driver s' = Some 0%nat.
Proof.
  exact (base_batch_size_zero always_fine [mkRow "t1" "One"; mkRow "t2" "Two"] 1
           (mkRow "t2" "Two") [] eq_refl).
Defined.

(** ** [main] of [spotify_scraper.py], cut short or not *)

Lemma keeps_base_restart_browser w : keeps one_session (Base.restart_browser w).
Proof.
  intros s ((d & Hdrv) & Hlive).
  assert (Hone : one_session s) by (split; eauto).
  unfold Base.restart_browser, bind, driver_quit. rewrite Hdrv.
  unfold effect at 1.
  destruct (fault w (clock s)) as [e|] eqn:F1; cbn [snd].
  { eapply one_session_stable; [|exact Hone].
    apply frame_session_frame, frame_tick. }
  assert (Hrel : released (log (EvQuit d) (tick s))).
  { split; [exists d; exact Hdrv|]. cbn [log tick trace].
    apply live_quit. intros x Hx. specialize (Hlive x Hx). congruence. }
  pose proof (calmly_effect w (EvSleep 5) eq_refl (log (EvQuit d) (tick s))) as Hsl.
  unfold sleep.
  destruct (effect w (EvSleep 5) (log (EvQuit d) (tick s))) as [[[]|e] s2];
    cbn [snd] in *.
  2:{ apply released_one_session. eapply released_stable; eassumption. }
  pose proof (released_stable _ _ Hsl Hrel) as ((d2 & Hd2) & Hlive2).
  unfold setup_driver.
  destruct (fault w (clock s2)) as [e|] eqn:F2; cbn [snd].
  { apply released_one_session. eapply released_stable.
    - apply frame_session_frame, frame_tick.
    - split; eauto. }
  set (s3 := mkScraper (Some (sessions s2)) (results s2) (failed_tracks s2)
                       (S (sessions s2)) (calls s2) (S (clock s2))
                       (trace s2 ++ [EvSetupDriver (sessions s2)])).
  assert (H3 : one_session s3).
  { split; [eexists; reflexivity|]. cbn [trace driver s3].
    rewrite live_setup, Hlive2. intros x [<-|[]]. reflexivity. }
  eapply one_session_stable; [apply (calmly_effect w EvExecuteScript eq_refl)|exact H3].
Qed.

Lemma calmly_base_scrape_track w tid tname : calmly (Base.scrape_track w tid tname).
Proof.
  apply calmly_preserves. unfold Base.scrape_track.
  apply preserves_try_except; [apply preserves_scrape_track|].
  intros e. apply preserves_ret.
Qed.

Lemma calmly_py_mod_int a b : calmly (Base.py_mod_int a b).
Proof.
  unfold Base.py_mod_int. destruct (b =? 0); [apply calmly_raise|apply calmly_ret].
Qed.

Lemma keeps_base_step w start_index batch_size ir batch_count :
  keeps one_session (Base.scrape_all_step w start_index batch_size ir batch_count).
Proof.
  destruct ir as [index row]. unfold Base.scrape_all_step.
  destruct (index <? start_index).
  { intros s Hs. exact Hs. }
  pose proof one_session_stable as St.
  apply keeps_bind; [apply keeps_calmly; [exact St | apply calmly_base_scrape_track]|].
  intros r. apply keeps_bind; [apply keeps_calmly; [exact St | apply calmly_results_append]|].
  intros _. apply keeps_bind.
  { apply keeps_calmly; [exact St|]. apply calmly_effect. reflexivity. }
  intros _. apply keeps_bind; [apply keeps_calmly; [exact St | apply calmly_len_results]|].
  intros completed.
  apply keeps_bind; [apply keeps_calmly; [exact St | apply calmly_py_mod_int]|].
  intros remainder. destruct (remainder =? 0); [|intros s Hs; exact Hs].
  apply keeps_bind; [apply keeps_calmly; [exact St | apply calmly_save_progress]|].
  intros _. apply keeps_bind.
  { apply keeps_calmly; [exact St|]. apply calmly_when, calmly_effect. reflexivity. }
  intros _. apply keeps_bind.
  { destruct (completed mod 200 =? 0); [apply keeps_base_restart_browser|].
    intros s Hs. exact Hs. }
  intros _ s Hs. exact Hs.
Qed.

Lemma keeps_scrape_all_tracks w csv start_index batch_size :
  keeps one_session (Base.scrape_all_tracks w csv start_index batch_size).
Proof.
  pose proof one_session_stable as St.
  unfold Base.scrape_all_tracks.
  apply keeps_bind; [apply keeps_calmly; [exact St | apply calmly_read_csv]|].
  intros df. apply keeps_bind.
  { apply keeps_for_each. intros x acc. apply keeps_base_step. }
  intros _. apply keeps_calmly; [exact St | apply calmly_save_progress].
Qed.

Lemma scrape_all_tracks_returned w csv start_index batch_size s s' :
  Base.scrape_all_tracks w csv start_index batch_size s = (Returned tt, s') ->
  results s' <> [] -> last_saved (trace s') = Some (results s').
Proof.
  unfold Base.scrape_all_tracks. intros H.
  apply bind_inv in H. destruct H as (df & s1 & _ & H).
  apply bind_inv in H. destruct H as (acc & s2 & _ & H).
  apply save_progress_returned in H. destruct H as (Hr & Hs).
  rewrite Hr. exact Hs.
Qed.

Lemma sound_base_restart_browser w : keeps checkpoints_sound (Base.restart_browser w).
Proof.
  unfold Base.restart_browser, sleep.
  apply keeps_bind; [apply sound_driver_quit|]. intros _.
  apply keeps_bind; [apply sound_effect; reflexivity|]. intros _.
  apply sound_setup_driver.
Qed.

Lemma sound_base_step w start_index batch_size ir batch_count :
  keeps checkpoints_sound (Base.scrape_all_step w start_index batch_size ir batch_count).
Proof.
  destruct ir as [index row]. unfold Base.scrape_all_step.
  destruct (index <? start_index); [apply keeps_ret|].
  apply keeps_bind.
  { unfold Base.scrape_track. apply keeps_try_except; [apply sound_scrape_track|].
    intros e. apply keeps_ret. }
  intros r. apply keeps_bind; [apply sound_results_append|].
  intros _. apply keeps_bind; [apply sound_effect; reflexivity|].
  intros _. apply keeps_bind; [intros s Hs; exact Hs|].
  intros completed. apply keeps_bind.
  { unfold Base.py_mod_int. destruct (batch_size =? 0); intros s Hs; exact Hs. }
  intros remainder. destruct (remainder =? 0); [|apply keeps_ret].
  apply keeps_bind; [apply sound_save_progress|].
  intros _. apply keeps_bind; [apply keeps_when, sound_effect; reflexivity|].
  intros _. apply keeps_bind; [apply keeps_when, sound_base_restart_browser|].
  intros _. apply keeps_ret.
Qed.

Lemma sound_scrape_all_tracks w csv start_index batch_size :
  keeps checkpoints_sound (Base.scrape_all_tracks w csv start_index batch_size).
Proof.
  unfold Base.scrape_all_tracks, read_csv.
  apply keeps_bind.
  { apply keeps_bind; [apply sound_effect; reflexivity|].
    intros _. destruct csv; [apply keeps_ret|intros s Hs; exact Hs]. }
  intros df. apply keeps_bind.
  { apply keeps_for_each. intros x acc. apply sound_base_step. }
  intros _. apply sound_save_progress.
Qed.

(** X21. Once the scraper is built, however [main] of [spotify_scraper.py]
    ends, at any of the calls that leave the interpreter: no browser is left
    alive, the last thing done is to quit the one the scraper holds, the
    results gathered are the rows of the results file written last, and
    every results file written holds the first of them. *)
Theorem base_main_releases_and_saves w csv s0 :
  init w fresh = (Returned tt, s0) ->
  let s := snd (Base.main w csv) in
  live (trace s) = []
  /\ (exists d tr, driver s = Some d /\ trace s = tr ++ [EvQuit d])
  /\ (results s <> [] -> last_saved (trace s) = Some (results s))
  /\ (forall filename rows,
        In (EvSave filename rows) (trace s) ->
        rows <> [] /\ exists rest, results s = rows ++ rest).
Proof.
  intros Hinit. cbv zeta. unfold Base.main.
  rewrite (bind_returned _ _ _ _ _ Hinit).
  assert (H0 : one_session s0 /\ checkpoints_sound s0).
  { rewrite (init_returned w s0 Hinit). split.
    - split; [eexists; reflexivity|]. intros d [<-|[]]. reflexivity.
    - intros f rows [E|[E|[]]]; discriminate. }
  destruct H0 as (H0 & Hsound0).
  assert (Hguard : one_session (snd (Base.main_guarded w csv s0))
            /\ checkpoints_sound (snd (Base.main_guarded w csv s0))
            /\ (results (snd (Base.main_guarded w csv s0)) <> [] ->
                last_saved (trace (snd (Base.main_guarded w csv s0)))
                = Some (results (snd (Base.main_guarded w csv s0))))).
  { unfold Base.main_guarded.
    pose proof (keeps_scrape_all_tracks w csv 0 50 s0 H0) as Hone1.
    pose proof (sound_scrape_all_tracks w csv 0 50 s0 Hsound0) as Hsound1.
    pose proof (scrape_all_tracks_returned w csv 0 50 s0) as Hsaved1.
    destruct (Base.scrape_all_tracks w csv 0 50 s0) as [[[]|[|msg]] s1]; cbn [snd] in *.
    - split; [exact Hone1|]. split; [exact Hsound1|]. apply Hsaved1. reflexivity.
    - destruct (save_progress_calm w "spotify_data_interrupted.csv" s1) as (Hf & Hr & Hs).
      split; [eapply one_session_stable; eassumption|].
      split; [apply sound_save_progress, Hsound1|].
      rewrite Hr. exact Hs.
    - destruct (save_progress_calm w "spotify_data_error.csv" s1) as (Hf & Hr & Hs).
      split; [eapply one_session_stable; eassumption|].
      split; [apply sound_save_progress, Hsound1|].
      rewrite Hr. exact Hs. }
  unfold try_finally.
  destruct (Base.main_guarded w csv s0) as [r2 s2]. cbn [snd] in Hguard.
  destruct Hguard as (((d & Hdrv) & Hlive) & Hsound & Hsaved).
  pose proof (sound_close (calm w) s2 Hsound) as Hsound'.
  unfold close, calm in *. rewrite Hdrv, effect_quiet in *.
  cbn [snd trace results driver log tick] in *.
  split; [|split; [|split]].
  - apply live_quit. intros x Hx. specialize (Hlive x Hx). congruence.
  - exists d, (trace s2). split; [exact Hdrv | reflexivity].
  - intros Hne. rewrite last_saved_app. cbn [last_saved_from]. apply Hsaved, Hne.
  - exact Hsound'.
Qed.

Lemma base_main_releases_and_saves_witness :
  let w := mkWorld always_fine
             (fun n => if Nat.eqb n 5 then Some KeyboardInterrupt else None) in
  let s := snd (Base.main w (Some [mkRow "t1" "One"; mkRow "t2" "Two"])) in
  List.length (results s) = 1%nat
  /\ live (trace s) = []
  /\ last_saved (trace s) = Some (results s).
Proof.
  cbv zeta.
  pose proof (base_main_releases_and_saves
                (mkWorld always_fine
                   (fun n => if Nat.eqb n 5 then Some KeyboardInterrupt
                             else None))
                (Some [mkRow "t1" "One"; mkRow "t2" "Two"]) _ eq_refl) as H.
  cbv zeta in H. destruct H as (Hlive & _ & Hsaved & _).
  split; [reflexivity|]. split; [exact Hlive|].
  apply Hsaved. vm_compute. discriminate.
Defined.

(** ** The file [main] of [lyrics_extractor.py] picks *)

Lemma max_from_spec files :
  forall best best_key,
    match LyricsMain.max_from best best_key files with
    | Returned f =>
        (f = best \/ In f files)
        /\ exists n,
             (f = best /\ n = best_key \/ LyricsMain.file_number f = Returned n)
             /\ best_key <= n
             /\ forall g, In g files ->
                          exists m, LyricsMain.file_number g = Returned m /\ m <= n
    | Raised _ =>
        exists g e, In g files /\ LyricsMain.file_number g = Raised e
    end.
Proof.
  induction files as [|x rest IH]; intros best k; cbn [LyricsMain.max_from].
  - split; [left; reflexivity|]. exists k. split; [left; auto|]. split; [lia|].
    intros g [].
  - destruct (LyricsMain.file_number x) as [key|e] eqn:Ex.
    2:{ exists x, e. split; [left; reflexivity|exact Ex]. }
    destruct (Z.ltb_spec k key) as [Hlt|Hge].
    + specialize (IH x key).
      destruct (LyricsMain.max_from x key rest) as [f|e].
      * destruct IH as (Hin & n & Hn & Hle & Hall).
        split; [right; destruct Hin as [->|Hin]; [left; reflexivity|right; exact Hin]|].
        exists n. split.
        { right. destruct Hn as [[-> ->]|Hn]; [exact Ex|exact Hn]. }
        split; [lia|].
        intros g [<-|Hg]; [exists key; split; [exact Ex|lia]|apply Hall, Hg].
      * destruct IH as (g & e' & Hg & Eg). exists g, e'. split; [right; exact Hg|exact Eg].
    + specialize (IH best k).
      destruct (LyricsMain.max_from best k rest) as [f|e].
      * destruct IH as (Hin & n & Hn & Hle & Hall).
        split; [destruct Hin as [->|Hin]; [left; reflexivity|right; right; exact Hin]|].
        exists n. split; [exact Hn|]. split; [exact Hle|].
        intros g [<-|Hg]; [exists key; split; [exact Ex|lia]|apply Hall, Hg].
      * destruct IH as (g & e' & Hg & Eg). exists g, e'. split; [right; exact Hg|exact Eg].
Qed.

(** X22. The file [main] of [lyrics_extractor.py] works on: none where
    there is no file; an exception where the number of one of the files
    cannot be read; else a file of the list whose number is the greatest. *)
Theorem latest_file_cases (fast_files : list string) :
  match LyricsMain.latest_file fast_files with
  | Returned None => fast_files = []
  | Returned (Some f) =>
      In f fast_files
      /\ exists n,
           LyricsMain.file_number f = Returned n
           /\ forall g, In g fast_files ->
                        exists m, LyricsMain.file_number g = Returned m /\ m <= n
  | Raised _ =>
      exists g e, In g fast_files /\ LyricsMain.file_number g = Raised e
  end.
Proof.
  destruct fast_files as [|x rest]; [reflexivity|].
  cbn [LyricsMain.latest_file].
  destruct (LyricsMain.file_number x) as [key|e] eqn:Ex.
  2:{ exists x, e. split; [left; reflexivity|exact Ex]. }
  pose proof (max_from_spec rest x key) as H.
  destruct (LyricsMain.max_from x key rest) as [f|e'].
  - destruct H as (Hin & n & Hn & Hle & Hall).
    split; [destruct Hin as [->|Hin]; [left; reflexivity|right; exact Hin]|].
    exists n. split; [destruct Hn as [[-> ->]|Hn]; [exact Ex|exact Hn]|].
    intros g [<-|Hg]; [exists key; split; [exact Ex|exact Hle]|apply Hall, Hg].
  - destruct H as (g & e'' & Hg & Eg). exists g, e''. split; [right; exact Hg|exact Eg].
Qed.

Lemma split_on_from_nonempty sep piece s : PyStr.split_on_from sep piece s <> [].
Proof.
  revert piece. induction s as [|c s IH]; intros piece; cbn [PyStr.split_on_from].
  - discriminate.
  - destruct (Ascii.eqb c sep); [discriminate|apply IH].
Qed.

Lemma last_cons_nonempty {A} (x : A) l d : l <> [] -> last (x :: l) d = last l d.
Proof. destruct l; [intros H; now contradiction H|reflexivity]. Qed.

(** The last piece of [s.split(sep)] is the last piece of what follows a
    separator. *)
Lemma last_split_on sep a b d :
  forall piece,
    last (PyStr.split_on_from sep piece (a ++ String sep b)) d
    = last (PyStr.split_on_from sep EmptyString b) d.
Proof.
  induction a as [|c a IH]; intros piece; cbn [String.append PyStr.split_on_from].
  - rewrite Ascii.eqb_refl. apply last_cons_nonempty, split_on_from_nonempty.
  - destruct (Ascii.eqb c sep).
    + rewrite last_cons_nonempty by apply split_on_from_nonempty. apply IH.
    + apply IH.
Qed.

Lemma file_number_raises files g e :
  In g files -> LyricsMain.file_number g = Raised e ->
  exists e', LyricsMain.latest_file files = Raised e'.
Proof.
  intros Hg Eg. destruct files as [|x rest]; [destruct Hg|].
  cbn [LyricsMain.latest_file].
  destruct (LyricsMain.file_number x) as [key|e0] eqn:Ex; [|eauto].
  pose proof (max_from_spec rest x key) as H.
  destruct (LyricsMain.max_from x key rest) as [f|e']; [|eauto].
  destruct H as (_ & n & _ & _ & Hall).
  destruct Hg as [<-|Hg]; [congruence|].
  destruct (Hall g Hg) as (m & Em & _). congruence.
Qed.

Lemma prefix_dot_csv c rest :
  Ascii.eqb c "." = false -> String.prefix ".csv" (String c rest) = false.
Proof.
  intros Hc. cbn [String.prefix].
  destruct (ascii_dec "." c) as [E|_]; [|reflexivity].
  subst c. discriminate.
Qed.

Lemma replace_dotless (new stem : string) :
  dotless stem = true ->
  PyStr.replace ".csv" new (stem ++ ".csv") = (stem ++ new)%string.
Proof.
  unfold PyStr.replace, dotless. induction stem as [|c stem IH]; intros Hd.
  - cbn. now rewrite sapp_nil_r.
  - cbn in Hd. apply andb_true_iff in Hd as [Hc Hd]. apply negb_true_iff in Hc.
    cbn [String.append PyStr.replace_from]. rewrite (prefix_dot_csv c _ Hc).
    now rewrite (IH Hd).
Qed.

(** X23. The files the pipeline writes itself break the choice of [main]:
    the output of a run is named after its input with "_with_lyrics" put
    before the extension, and neither such a name nor the name of the final
    file of [fast_scrape] has a number that can be read, so with one of
    them among the files the choice ends in an exception. *)
Theorem own_files_break_the_choice (files : list string) (stem : string) :
  (dotless stem = true ->
   LyricsMain.output_file (stem ++ ".csv") = (stem ++ "_with_lyrics.csv")%string)
  /\ (In (stem ++ "_final.csv")%string files
      \/ In (stem ++ "_with_lyrics.csv")%string files ->
      exists e, LyricsMain.latest_file files = Raised e).
Proof.
  split; [apply replace_dotless|].
  intros [Hin|Hin]; eapply file_number_raises; try exact Hin.
  - unfold LyricsMain.file_number, PyStr.split_on.
    change (stem ++ "_final.csv")%string with (stem ++ String "_" "final.csv")%string.
    rewrite last_split_on. reflexivity.
  - unfold LyricsMain.file_number, PyStr.split_on.
    replace (stem ++ "_with_lyrics.csv")%string
      with ((stem ++ "_with") ++ String "_" "lyrics.csv")%string
      by (rewrite sapp_assoc; reflexivity).
    rewrite last_split_on. reflexivity.
Qed.

Lemma own_files_break_the_choice_witness :
  LyricsMain.output_file "/workspaces/Songs4Image/spotify_data_fast_175.csv"
  = "/workspaces/Songs4Image/spotify_data_fast_175_with_lyrics.csv"%string
  /\ exists e,
       LyricsMain.latest_file
         ["/workspaces/Songs4Image/spotify_data_fast_175.csv"%string;
          "/workspaces/Songs4Image/spotify_data_fast_175_with_lyrics.csv"%string]
       = Raised e.
Proof.
  split.
  - apply (proj1 (own_files_break_the_choice
                    [] "/workspaces/Songs4Image/spotify_data_fast_175")).
    reflexivity.
  - apply (proj2 (own_files_break_the_choice
                    ["/workspaces/Songs4Image/spotify_data_fast_175.csv"%string;
                     "/workspaces/Songs4Image/spotify_data_fast_175_with_lyrics.csv"%string]
                    "/workspaces/Songs4Image/spotify_data_fast_175")).
    right. right. left. reflexivity.
Defined.

(** ** The progress [keep_alive.py] reports *)

Lemma numbers_In prefix listing num f :
  In (num, f) (KeepAlive.numbers prefix listing) <-> numbered_file prefix listing num f.
Proof.
  unfold KeepAlive.numbers, numbered_file. rewrite in_flat_map. split.
  - intros (g & Hg & Hin). apply filter_In in Hg. destruct Hg as (Hg & Hname).
    apply andb_true_iff in Hname.
    destruct (KeepAlive.number_of prefix g) as [n|] eqn:En; [|destruct Hin].
    destruct Hin as [E|[]]. injection E as <- <-. tauto.
  - intros (Hin & Hs & He & Hn). exists f. split.
    + apply filter_In. split; [exact Hin|]. now rewrite Hs, He.
    + rewrite Hn. left. reflexivity.
Qed.

Lemma tuple_ltb_le a b : KeepAlive.tuple_ltb a b = true -> fst a <= fst b.
Proof.
  unfold KeepAlive.tuple_ltb. intros H. apply orb_true_iff in H.
  destruct H as [H|H]; [apply Z.ltb_lt in H; lia|].
  apply andb_true_iff in H. destruct H as [H _]. apply Z.eqb_eq in H. lia.
Qed.

Lemma tuple_ltb_ge a b : KeepAlive.tuple_ltb a b = false -> fst b <= fst a.
Proof.
  unfold KeepAlive.tuple_ltb. intros H. apply orb_false_iff in H.
  destruct H as [H _]. apply Z.ltb_ge in H. exact H.
Qed.

(** The first tuple of the sorted list is one of the list, and none has a
    greater number. *)
Lemma sort_desc_first l :
  match KeepAlive.sort_desc l with
  | [] => l = []
  | x :: _ => In x l /\ forall y, In y l -> fst y <= fst x
  end.
Proof.
  induction l as [|a l IH]; [reflexivity|].
  cbn [KeepAlive.sort_desc fold_right]. fold (KeepAlive.sort_desc l).
  destruct (KeepAlive.sort_desc l) as [|y rest]; cbn [KeepAlive.insert_desc].
  - subst l. split; [left; reflexivity|]. intros z [<-|[]]. lia.
  - destruct IH as (Hy & Hmax).
    destruct (KeepAlive.tuple_ltb a y) eqn:Elt.
    + split; [right; exact Hy|].
      intros z [<-|Hz]; [apply tuple_ltb_le, Elt|apply Hmax, Hz].
    + split; [left; reflexivity|].
      intros z [<-|Hz]; [lia|].
      pose proof (tuple_ltb_ge _ _ Elt). specialize (Hmax z Hz). lia.
Qed.

(** X24. What [get_latest_progress_file] reports: a file of the fast
    scraper with the greatest number that can be read from the names of such
    files; where no such name gives a number, a progress file of the
    production scraper with the greatest number; nothing where neither kind
    gives a number.  A name without a number is passed over. *)
Theorem latest_progress_file_cases (listing listing_again : list string) :
  match KeepAlive.get_latest_progress_file listing listing_again with
  | Some (num, f) =>
      (numbered_file "spotify_data_fast_" listing num f
       /\ forall m g, numbered_file "spotify_data_fast_" listing m g -> m <= num)
      \/ ((forall m g, ~ numbered_file "spotify_data_fast_" listing m g)
          /\ numbered_file "spotify_data_progress_" listing_again num f
          /\ forall m g, numbered_file "spotify_data_progress_" listing_again m g -> m <= num)
  | None =>
      (forall m g, ~ numbered_file "spotify_data_fast_" listing m g)
      /\ (forall m g, ~ numbered_file "spotify_data_progress_" listing_again m g)
  end.
Proof.
  unfold KeepAlive.get_latest_progress_file.
  pose proof (sort_desc_first (KeepAlive.numbers "spotify_data_fast_" listing)) as H1.
  destruct (KeepAlive.sort_desc (KeepAlive.numbers "spotify_data_fast_" listing))
    as [|[num f] rest].
  - assert (Hnone : forall m g, ~ numbered_file "spotify_data_fast_" listing m g).
    { intros m g Hg. apply numbers_In in Hg. rewrite H1 in Hg. destruct Hg. }
    pose proof (sort_desc_first (KeepAlive.numbers "spotify_data_progress_" listing_again))
      as H2.
    destruct (KeepAlive.sort_desc (KeepAlive.numbers "spotify_data_progress_" listing_again))
      as [|[num f] rest].
    + split; [exact Hnone|].
      intros m g Hg. apply numbers_In in Hg. rewrite H2 in Hg. destruct Hg.
    + right. destruct H2 as (Hin & Hmax). split; [exact Hnone|].
      split; [apply numbers_In, Hin|].
      intros m g Hg. apply numbers_In in Hg. exact (Hmax _ Hg).
  - left. destruct H1 as (Hin & Hmax). split; [apply numbers_In, Hin|].
    intros m g Hg. apply numbers_In in Hg. exact (Hmax _ Hg).
Qed.

(** ** Lyrics that carry the word of the marker *)

Lemma prefix_app (needle a b : string) :
  String.prefix needle a = true -> String.prefix needle (a ++ b) = true.
Proof.
  revert a. induction needle as [|c needle IH]; intros a H;
    [destruct (a ++ b)%string; reflexivity|].
  destruct a as [|x a]; [discriminate|].
  cbn [String.prefix String.append] in *.
  destruct (ascii_dec c x); [apply IH, H|discriminate].
Qed.

Lemma contains_app_l (needle a b : string) :
  PyStr.contains needle a = true -> PyStr.contains needle (a ++ b) = true.
Proof.
  induction a as [|x a IH]; cbn [PyStr.contains String.append]; intros H.
  - destruct (String.prefix needle EmptyString) eqn:Ep; [|discriminate].
    destruct needle; [|discriminate]. destruct b; reflexivity.
  - destruct (String.prefix needle (String x a)) eqn:Ep.
    + change (String x (a ++ b)) with (String x a ++ b)%string.
      now rewrite (prefix_app _ _ b Ep).
    + destruct (String.prefix needle (String x (a ++ b))); [reflexivity|apply IH, H].
Qed.

Lemma contains_app_r (needle a b : string) :
  PyStr.contains needle b = true -> PyStr.contains needle (a ++ b) = true.
Proof.
  intros H. induction a as [|x a IH]; cbn [String.append]; [exact H|].
  cbn [PyStr.contains]. destruct (String.prefix needle (String x (a ++ b))); auto.
Qed.

Lemma contains_join (needle sep line : string) (parts : list string) :
  In line parts -> PyStr.contains needle line = true ->
  PyStr.contains needle (PyStr.join sep parts) = true.
Proof.
  unfold PyStr.join. induction parts as [|x parts IH]; intros Hin Hc; [destruct Hin|].
  cbn [String.concat]. destruct parts as [|y parts].
  - destruct Hin as [<-|[]]. exact Hc.
  - destruct Hin as [<-|Hin].
    + apply contains_app_l, Hc.
    + apply contains_app_r, contains_app_r, IH; assumption.
Qed.

(** X25. A line of the lyrics that holds the word "Error" makes a good
    reading look like a failure: on pages that show such a line at every
    visit, the controller uses all its attempts, returns what was read then,
    records no failed track, and the loop does not count the result as a
    success. *)
Theorem error_word_in_lyrics pages max_retries tid tname s :
  (forall n, exists texts line,
      fst (pages n tid) = Page.Lines texts
      /\ In line (Page.lyrics_lines texts)
      /\ PyStr.contains "Error" line = true) ->
  exists r s',
    scrape_track_with_retry (quiet (Page.extractor pages)) max_retries tid tname 1 s
    = (Returned r, s')
    /\ read_from pages (mkRow tid tname) r
    /\ Z.of_nat (attempts s s') = Z.max 1 max_retries
    /\ failed_tracks s' = failed_tracks s
    /\ clean_lyrics r = false.
Proof.
  intros Hpages. set (ext := Page.extractor pages).
  assert (Hext : forall n, exists r, ext n tid tname = Extracted r
                                     /\ PyStr.contains "Error" (lyrics r) = true).
  { intros n. destruct (Hpages n) as (texts & line & Ev & Hin & Hc).
    unfold ext, Page.extractor. destruct (pages n tid) as [v found].
    cbn [fst] in Ev. subst v. eexists. split; [reflexivity|].
    cbn [Page.scrape_track lyrics Page.extract_lyrics].
    eapply contains_join; eassumption. }
  destruct (retry_quiet_extracted ext max_retries tid tname
              (fun n => let (r, H) := Hext n in ex_intro _ r (proj1 H)) 1 s)
    as (n & r & s' & E & En).
  exists r, s'. split; [exact E|].
  destruct (Hext n) as (r' & En' & Hc). rewrite En in En'. injection En' as <-.
  split.
  { exists n. cbn [row_track_id row_track_name].
    unfold ext, Page.extractor in En. destruct (pages n tid) as [v found].
    cbn [fst snd]. now injection En as <-. }
  split.
  { destruct (retry_calls ext max_retries tid tname 1 s) as (r2 & s2 & E2 & _ & _ & Hall).
    rewrite E in E2. injection E2 as <- <-.
    replace (max_retries - 1 + 1) with max_retries in Hall by lia.
    apply Hall. intros k. destruct (Hext k) as (rk & Ek & Hk). rewrite Ek.
    cbn [retryable]. unfold has_error. now rewrite Hk. }
  split.
  { pose proof (retry_records_nothing ext max_retries tid tname
                  (fun n => let (r, H) := Hext n in ex_intro _ r (proj1 H)) 1 s) as Hf.
    rewrite E in Hf. exact Hf. }
  unfold clean_lyrics. now rewrite Hc.
Qed.

Lemma error_word_in_lyrics_witness :
  let pages := fun (_ : nat) (_ : string) =>
                 (Page.Lines ["Trial and Error"%string; "la la la"%string],
                  Page.Images []) in
  exists r s',
    scrape_track_with_retry (quiet (Page.extractor pages)) 3 "t1" "One" 1 fresh
    = (Returned r, s')
    /\ Z.of_nat (attempts fresh s') = 3
    /\ clean_lyrics r = false.
Proof.
  cbv zeta.
  destruct (error_word_in_lyrics
              (fun _ _ => (Page.Lines ["Trial and Error"%string; "la la la"%string],
                           Page.Images []))
              3 "t1" "One" fresh) as (r & s' & E & _ & Hn & _ & Hc).
  { intros n. exists ["Trial and Error"%string; "la la la"%string], "Trial and Error"%string.
    split; [reflexivity|]. split; [left; reflexivity|reflexivity]. }
  exists r, s'. auto.
Defined.

(** ** The long breaks of [production_scrape] *)

Lemma break_count_app tr1 tr2 :
  break_count (tr1 ++ tr2) = (break_count tr1 + break_count tr2)%nat.
Proof. unfold break_count. now rewrite filter_app, length_app. Qed.

Lemma retry_no_break n tid tname :
  break_count (EvScrape tid tname ::
               List.concat (repeat [EvSleepUniform 5 10; EvScrape tid tname] n)) = 0%nat.
Proof.
  unfold break_count. cbn [filter is_break].
  induction n as [|n IH]; [reflexivity|].
  cbn [repeat List.concat app filter is_break]. exact IH.
Qed.

(** No window of [adaptive_delay] is that of a long break. *)
Lemma adaptive_window_no_break rate :
  is_break (EvSleepUniform (fst (adaptive_range rate 2 5))
                           (snd (adaptive_range rate 2 5))) = false.
Proof.
  unfold adaptive_range.
  destruct (Qltb rate 0.8); [reflexivity|].
  destruct (Qltb 0.95 rate); reflexivity.
Qed.

Lemma production_loop_breaks ext max_retries start_index l :
  forall acc s d,
    driver s = Some d ->
    exists acc' s',
      for_each (production_step (quiet ext) max_retries start_index) l acc s
      = (Returned acc', s')
      /\ (break_count (trace s') + List.length (results s) / 100
          = break_count (trace s) + List.length (results s') / 100)%nat.
Proof.
  induction l as [|[index row] l IH]; intros acc s d Hdrv; cbn [for_each].
  - exists acc, s. split; [reflexivity|lia].
  - destruct (Z.ltb_spec index start_index) as [Hskip|Htake].
    + rewrite (bind_returned _ _ s acc s).
      2:{ unfold production_step. rewrite (proj2 (Z.ltb_lt index start_index) Hskip).
          reflexivity. }
      apply (IH acc s d Hdrv).
    + destruct (production_step_quiet_exact ext max_retries start_index index row acc s d
                  Htake Hdrv) as (r & s1 & E & H).
      cbv zeta in H. destruct H as (s2 & Estep & Hres & (d2 & Hd2) & Htrace).
      rewrite (bind_returned _ _ _ _ _ Estep).
      destruct (IH (if clean_lyrics r then acc + 1 else acc) s2 d2 Hd2)
        as (acc' & s' & E' & Hcount).
      exists acc', s'. split; [exact E'|].
      pose proof (retry_trace_shape ext max_retries (row_track_id row) (row_track_name row)
                    1 s) as Hshape.
      cbv zeta in Hshape. rewrite E in Hshape. cbn [snd] in Hshape.
      assert (Hstep : (break_count (trace s2) + List.length (results s) / 100
                       = break_count (trace s) + List.length (results s2) / 100)%nat).
      { rewrite Htrace, Hshape, !break_count_app, retry_no_break.
        rewrite Hres, length_app. cbn [List.length]. rewrite Nat.add_1_r.
        rewrite (div_succ 100 (List.length (results s))) by lia.
        change (Z.of_nat 100) with 100.
        unfold break_count at 2. cbn [filter].
        rewrite adaptive_window_no_break. cbn [List.length].
        destruct (Z.of_nat (S (List.length (results s))) mod 25 =? 0),
                 (Z.of_nat (S (List.length (results s))) mod 100 =? 0),
                 (Z.of_nat (S (List.length (results s))) mod 300 =? 0); cbn; lia. }
      lia.
Qed.

(** X26. In a run of [production_scrape] in which nothing but the extractor
    fails, the scraper takes a long break, of 60 to 120 seconds, after every
    hundredth result and at no other time. *)
Theorem break_cadence ext max_retries rows start_index :
  exists s',
    (init (quiet ext) ;;
     production_scrape (quiet ext) max_retries (Some rows) start_index) fresh
    = (Returned tt, s')
    /\ break_count (trace s') = (List.length (results s') / 100)%nat.
Proof.
  rewrite (bind_returned _ _ _ _ _ (init_quiet ext)).
  unfold production_scrape, read_csv.
  rewrite (bind_returned _ _ _ rows at_loop_start) by reflexivity.
  destruct (production_loop_breaks ext max_retries start_index (iterrows rows)
              0 at_loop_start 0%nat eq_refl) as (acc' & s1 & E & Hcount).
  rewrite (bind_returned _ _ _ _ _ E).
  destruct (production_tail_quiet ext s1) as (s' & Et & Hr' & _ & _ & (evs & Ht & _) & _).
  exists s'. split; [exact Et|].
  change (break_count (trace at_loop_start)) with 0%nat in Hcount.
  change (List.length (results at_loop_start) / 100)%nat with 0%nat in Hcount.
  rewrite Hr'. 
  assert (Hevs : break_count evs = 0%nat).
  { unfold bind, save_progress, save_failed_tracks in Et.
    destruct (results s1); destruct (failed_tracks s1) eqn:Ef;
      rewrite ?effect_quiet in Et; cbn [failed_tracks log tick] in Et; rewrite ?Ef in Et;
      rewrite ?effect_quiet in Et; injection Et as <-;
      cbn [trace log tick] in Ht; rewrite <- ?app_assoc in Ht;
      try (apply app_inv_head in Ht; subst evs; reflexivity).
    rewrite <- (app_nil_r (trace s1)) in Ht at 1.
    apply app_inv_head in Ht. subst evs. reflexivity. }
  rewrite Ht, break_count_app, Hevs. lia.
Qed.
